(** * The replication inspector of kube-arangodb

    A shallow embedding of [inspectDeploymentReplication] and its two
    endpoint predicates ([isIncomingEndpoint], [hasOutgoingEndpoint]) from
    package [replication], together with the properties its specification
    states about it.

    The Go function mutates the receiver [dr] and a handful of local
    variables, and talks to the outside (two syncmaster clients, the
    object store, the logger).  Here the receiver and the locals live in
    a [Frame] that is threaded through a small state monad; every call
    that leaves the function is recorded, in order, in the frame's
    [trace], and what the outside answers is read from an [Env]. *)

From Stdlib Require Import ZArith List String Bool Lia.
Import ListNotations.
Open Scope string_scope.
Open Scope list_scope.
Open Scope Z_scope.

(** ** Durations *)

(** [time.Duration] is a signed 64-bit count of nanoseconds.  The
    inspector only assigns and compares durations, so no arithmetic can
    wrap and [Z] is exact. *)
Definition Duration : Type := Z.
Definition Second : Duration := 1000000000.

(** ** API objects *)

(** Go's [error], kept as its message. *)
Definition Error : Type := string.

(** [maskAny = errors.WithStack]: attaches a stack, keeps the message. *)
Definition maskAny (err : Error) : Error := err.

(** Modelled from the spec: [api.EndpointSpec] (declared outside the
    inspector's file) "identifies a remote synchronization master
    (address plus trust material reference)". *)
Record EndpointSpec : Type := {
  MasterAddress : string;
  TrustRef : string
}.

Record DeploymentReplicationSpec : Type := {
  Source : EndpointSpec;
  Destination : EndpointSpec
}.

Inductive DeploymentReplicationPhase : Type :=
| DeploymentReplicationPhaseNone
| DeploymentReplicationPhaseFailed.

Definition phase_eqb (a b : DeploymentReplicationPhase) : bool :=
  match a, b with
  | DeploymentReplicationPhaseNone, DeploymentReplicationPhaseNone => true
  | DeploymentReplicationPhaseFailed, DeploymentReplicationPhaseFailed => true
  | _, _ => false
  end.

Definition ConditionType : Type := string.
Definition ConditionTypeConfigured : ConditionType := "Configured".

(** Modelled from the spec: a condition is the tuple
    [(type, isTrue, reason, message)]. *)
Record Condition : Type := {
  CType : ConditionType;
  CStatus : bool;
  CReason : string;
  CMessage : string
}.

Definition ConditionList : Type := list Condition.

Definition condition_eqb (a b : Condition) : bool :=
  String.eqb (CType a) (CType b) && Bool.eqb (CStatus a) (CStatus b)
  && String.eqb (CReason a) (CReason b) && String.eqb (CMessage a) (CMessage b).

(** Modelled from the spec: [ConditionList.Update] (the condition
    tracker, declared with the API types): "comparison is by full tuple
    equality against the current stored condition of that type; unseen
    types are inserted as changed".  Returns the new list and whether
    anything changed. *)
Fixpoint Update (l : ConditionList) (c : Condition) : ConditionList * bool :=
  match l with
  | [] => ([c], true)
  | x :: rest =>
      if String.eqb (CType x) (CType c) then
        if condition_eqb x c then (l, false) else (c :: rest, true)
      else
        let (rest', changed) := Update rest c in (x :: rest', changed)
  end.

Record DeploymentReplicationStatus : Type := {
  Phase : DeploymentReplicationPhase;
  Conditions : ConditionList
}.

(** The API object as the inspector reads it: its spec, and from its
    metadata the deletion timestamp and the finalizer markers. *)
Record ArangoDeploymentReplication : Type := {
  Spec : DeploymentReplicationSpec;
  DeletionTimestamp : option Z;
  Finalizers : list string
}.

(** The receiver [dr *DeploymentReplication], restricted to the fields
    the inspector touches. *)
Record DeploymentReplication : Type := {
  apiObject : ArangoDeploymentReplication;
  status : DeploymentReplicationStatus;
  recentInspectionErrors : Z
}.

(** ** The arangosync client, as far as the inspector uses it *)

Definition Endpoint : Type := list string.
Definition SyncStatus : Type := string.

Record OutgoingSyncInfo : Type := {
  OEndpoint : Endpoint
}.

Record SyncInfo : Type := {
  SStatus : SyncStatus;
  SSource : Endpoint;
  Outgoing : list OutgoingSyncInfo
}.

(** What Go hands back next to a non-nil error. *)
Definition zeroSyncInfo : SyncInfo :=
  {| SStatus := ""; SSource := []; Outgoing := [] |}.

Inductive TLSAuthentication : Type :=
| TLSAuth (material : string).

Record SynchronizationRequest : Type := {
  ReqSource : Endpoint;
  ReqAuthentication : TLSAuthentication
}.

Inductive CancelSynchronizationRequest : Type :=
| EmptyCancelRequest.

(** A handle on a syncmaster client. *)
Definition Client : Type := nat.

(** ** The outside *)

Inductive Level : Type := LevelDebug | LevelInfo | LevelWarn.

(** Everything that leaves the function, in the order it happens.
    The cleanup callbacks that [runFinalizers] executes are code of
    their own: [EvFinalizerCleanup within] records that they ran and
    holds, in [within], what they did to the outside in turn. *)
#[warnings="-register-all"]
Inductive Event : Type :=
| EvLog (lvl : Level) (err : option Error) (msg : string)
| EvPersistFinalizers (markers : list string)
| EvFinalizerCleanup (within : list Event)
| EvUpdateCRStatus (st : DeploymentReplicationStatus)
| EvStatus (c : Client)
| EvCancelSynchronization (c : Client) (req : CancelSynchronizationRequest)
| EvSynchronize (c : Client) (req : SynchronizationRequest).

(** What the inspector's source does not contain: the two package
    constants, the client library's pure operations, the constructors
    that derive clients, endpoints and credentials from a spec, and the
    answers of the syncmasters and of the object store. *)
Record Env : Type := {
  minInspectionInterval : Duration;
  maxInspectionInterval : Duration;
  (* client library *)
  IsActive : SyncStatus -> bool;
  Intersection : Endpoint -> Endpoint -> Endpoint;
  IsEmpty : Endpoint -> bool;
  (* constructors of package replication *)
  createSyncMasterClient : EndpointSpec -> Client + Error;
  createArangoSyncEndpoint : EndpointSpec -> Endpoint + Error;
  createArangoSyncTLSAuthentication : DeploymentReplicationSpec -> TLSAuthentication + Error;
  (* syncmasters *)
  MasterStatus : Client -> SyncInfo * option Error;
  MasterCancelSynchronization : Client -> CancelSynchronizationRequest -> option Error;
  MasterSynchronize : Client -> SynchronizationRequest -> option Error;
  (* object store and cleanup callbacks *)
  storePersistFinalizers : list string -> option Error;
  storeUpdateStatus : DeploymentReplicationStatus -> option Error;
  finalizerCleanup : ArangoDeploymentReplication -> list Event * option Error
}.

(** Modelled from the spec: the finalizer marker is "a string token
    recorded on the resource"; its text is declared with the package's
    constants. *)
Definition FinalizerDeplReplStopSync : string := "stop-sync".

(** ** Frames and the inspector's monad *)

Record Frame : Type := {
  dr : DeploymentReplication;
  nextInterval : Duration;
  hasError : bool;
  updateStatusNeeded : bool;
  configureSyncNeeded : bool;
  cancelSyncNeeded : bool;
  trace : list Event
}.

Definition initFrame (d : DeploymentReplication) : Frame :=
  {| dr := d; nextInterval := 0; hasError := false;
     updateStatusNeeded := false; configureSyncNeeded := false;
     cancelSyncNeeded := false; trace := [] |}.

Definition with_dr (d : DeploymentReplication) (f : Frame) : Frame :=
  {| dr := d; nextInterval := nextInterval f; hasError := hasError f;
     updateStatusNeeded := updateStatusNeeded f;
     configureSyncNeeded := configureSyncNeeded f;
     cancelSyncNeeded := cancelSyncNeeded f; trace := trace f |}.

Definition with_nextInterval (v : Duration) (f : Frame) : Frame :=
  {| dr := dr f; nextInterval := v; hasError := hasError f;
     updateStatusNeeded := updateStatusNeeded f;
     configureSyncNeeded := configureSyncNeeded f;
     cancelSyncNeeded := cancelSyncNeeded f; trace := trace f |}.

Definition with_hasError (v : bool) (f : Frame) : Frame :=
  {| dr := dr f; nextInterval := nextInterval f; hasError := v;
     updateStatusNeeded := updateStatusNeeded f;
     configureSyncNeeded := configureSyncNeeded f;
     cancelSyncNeeded := cancelSyncNeeded f; trace := trace f |}.

Definition with_updateStatusNeeded (v : bool) (f : Frame) : Frame :=
  {| dr := dr f; nextInterval := nextInterval f; hasError := hasError f;
     updateStatusNeeded := v;
     configureSyncNeeded := configureSyncNeeded f;
     cancelSyncNeeded := cancelSyncNeeded f; trace := trace f |}.

Definition with_configureSyncNeeded (v : bool) (f : Frame) : Frame :=
  {| dr := dr f; nextInterval := nextInterval f; hasError := hasError f;
     updateStatusNeeded := updateStatusNeeded f;
     configureSyncNeeded := v;
     cancelSyncNeeded := cancelSyncNeeded f; trace := trace f |}.

Definition with_cancelSyncNeeded (v : bool) (f : Frame) : Frame :=
  {| dr := dr f; nextInterval := nextInterval f; hasError := hasError f;
     updateStatusNeeded := updateStatusNeeded f;
     configureSyncNeeded := configureSyncNeeded f;
     cancelSyncNeeded := v; trace := trace f |}.

Definition with_trace (v : list Event) (f : Frame) : Frame :=
  {| dr := dr f; nextInterval := nextInterval f; hasError := hasError f;
     updateStatusNeeded := updateStatusNeeded f;
     configureSyncNeeded := configureSyncNeeded f;
     cancelSyncNeeded := cancelSyncNeeded f; trace := v |}.

Definition M (A : Type) : Type := Frame -> A * Frame.

Definition ret {A : Type} (a : A) : M A := fun f => (a, f).

Definition bind {A B : Type} (m : M A) (k : A -> M B) : M B :=
  fun f => k (fst (m f)) (snd (m f)).

Declare Scope inspector_scope.
Delimit Scope inspector_scope with insp.
Notation "x <- c1 ;; c2" := (bind c1 (fun x => c2))
  (at level 100, c1 at next level, right associativity) : inspector_scope.
Notation "c1 ;; c2" := (bind c1 (fun _ => c2))
  (at level 100, right associativity) : inspector_scope.
Open Scope inspector_scope.

Definition gets {A : Type} (g : Frame -> A) : M A := fun f => (g f, f).
Definition modify (g : Frame -> Frame) : M unit := fun f => (tt, g f).

Definition emit (ev : Event) : M unit :=
  modify (fun f => with_trace (trace f ++ [ev]) f).

Definition log (lvl : Level) (err : option Error) (msg : string) : M unit :=
  emit (EvLog lvl err msg).

(** [if cond { body }] *)
Definition when (cond : bool) (body : M unit) : M unit :=
  if cond then body else ret tt.

(** [if err != nil { body } else { other }] *)
Definition ifErr (err : option Error) (body : Error -> M unit) (other : M unit) : M unit :=
  match err with
  | Some x => body x
  | None => other
  end.

(** ** The inspector *)

Section Inspector.

Variable e : Env.

(** *** Helpers of package replication that the inspector calls *)

(** Modelled from the spec: [addFinalizers] (the finalizer manager's
    [EnsurePresent]): "idempotent; adds the marker if absent, persists
    only on change", and only "unless terminating". *)
Definition addFinalizers : M (option Error) :=
  obj <- gets (fun f => apiObject (dr f));;
  match DeletionTimestamp obj with
  | Some _ => ret None
  | None =>
      if existsb (String.eqb FinalizerDeplReplStopSync) (Finalizers obj) then ret None
      else
        let markers := Finalizers obj ++ [FinalizerDeplReplStopSync] in
        modify (fun f => with_dr
          {| apiObject := {| Spec := Spec obj;
                             DeletionTimestamp := DeletionTimestamp obj;
                             Finalizers := markers |};
             status := status (dr f);
             recentInspectionErrors := recentInspectionErrors (dr f) |} f);;
        emit (EvPersistFinalizers markers);;
        match storePersistFinalizers e markers with
        | Some err => ret (Some (maskAny err))
        | None => ret None
        end
  end.

(** Modelled from the spec: [runFinalizers] (the finalizer manager's
    [RunAndRemove]): "executes the registered cleanup callback(s)
    (e.g., releasing remote-side state); removes the marker and
    persists only if every callback succeeds; returns the first error
    otherwise, leaving the marker intact".  What the callbacks do to
    the outside, calls on the syncmasters included, is theirs to
    decide: [finalizerCleanup] gives their events and their answer. *)
Definition runFinalizers (obj : ArangoDeploymentReplication) : M (option Error) :=
  emit (EvFinalizerCleanup (fst (finalizerCleanup e obj)));;
  match snd (finalizerCleanup e obj) with
  | Some err => ret (Some (maskAny err))
  | None =>
      let markers :=
        filter (fun m => negb (String.eqb FinalizerDeplReplStopSync m)) (Finalizers obj) in
      modify (fun f => with_dr
        {| apiObject := {| Spec := Spec obj;
                           DeletionTimestamp := DeletionTimestamp obj;
                           Finalizers := markers |};
           status := status (dr f);
           recentInspectionErrors := recentInspectionErrors (dr f) |} f);;
      emit (EvPersistFinalizers markers);;
      match storePersistFinalizers e markers with
      | Some err => ret (Some (maskAny err))
      | None => ret None
      end
  end.

(** Modelled from the spec: [updateCRStatus] "persist[s] the updated
    Status object"; the write can fail. *)
Definition updateCRStatus : M (option Error) :=
  st <- gets (fun f => status (dr f));;
  emit (EvUpdateCRStatus st);;
  match storeUpdateStatus e st with
  | Some err => ret (Some (maskAny err))
  | None => ret None
  end.

(** [dr.status.Conditions.Update(type, status, reason, message)] *)
Definition conditionsUpdate (t : ConditionType) (st : bool) (reason message : string) : M bool :=
  fun f =>
    let d := dr f in
    let r := Update (Conditions (status d))
               {| CType := t; CStatus := st; CReason := reason; CMessage := message |} in
    (snd r,
     with_dr {| apiObject := apiObject d;
                status := {| Phase := Phase (status d); Conditions := fst r |};
                recentInspectionErrors := recentInspectionErrors d |} f).

(** [c.Master().Status(ctx)] *)
Definition masterStatus (c : Client) : M (SyncInfo * option Error) :=
  emit (EvStatus c);; ret (MasterStatus e c).

(** [c.Master().CancelSynchronization(ctx, req)], result dropped *)
Definition masterCancelSynchronization (c : Client) (req : CancelSynchronizationRequest)
  : M (option Error) :=
  emit (EvCancelSynchronization c req);; ret (MasterCancelSynchronization e c req).

(** [c.Master().Synchronize(ctx, req)] *)
Definition masterSynchronize (c : Client) (req : SynchronizationRequest) : M (option Error) :=
  emit (EvSynchronize c req);; ret (MasterSynchronize e c req).

(** *** The endpoint predicates *)

(** [isIncomingEndpoint] returns true when given sync status's endpoint
    intersects with the given endpoint spec. *)
Definition isIncomingEndpoint (st : SyncInfo) (epSpec : EndpointSpec) : bool * option Error :=
  match createArangoSyncEndpoint e epSpec with
  | inr err => (false, Some (maskAny err))
  | inl ep => (negb (IsEmpty e (Intersection e (SSource st) ep)), None)
  end.

(** The [for _, o := range status.Outgoing] loop of [hasOutgoingEndpoint]. *)
Fixpoint anyOutgoing (ep : Endpoint) (os : list OutgoingSyncInfo) : bool :=
  match os with
  | [] => false
  | o :: rest =>
      if negb (IsEmpty e (Intersection e (OEndpoint o) ep)) then true
      else anyOutgoing ep rest
  end.

(** [hasOutgoingEndpoint] returns true when given sync status has an
    outgoing item that intersects with the given endpoint spec. *)
Definition hasOutgoingEndpoint (st : SyncInfo) (epSpec : EndpointSpec) : bool * option Error :=
  match createArangoSyncEndpoint e epSpec with
  | inr err => (false, Some (maskAny err))
  | inl ep => (anyOutgoing ep (Outgoing st), None)
  end.

(** *** [inspectDeploymentReplication], block by block *)

(** Lines 76-107: fetch and inspect the status of the destination. *)
Definition inspectDestination (spec : DeploymentReplicationSpec) (destClient : Client) : M unit :=
  r <- masterStatus destClient;;
  let destStatus := fst r in
  ifErr (snd r)
    (fun err => log LevelWarn (Some err) "Failed to fetch status from destination syncmaster")
    ((* Inspect destination status *)
     if IsActive e (SStatus destStatus) then
       let r := isIncomingEndpoint destStatus (Source spec) in
       ifErr (snd r)
         (fun err => log LevelWarn (Some err) "Failed to check is-incoming-endpoint")
         (if fst r then
            (* Destination is correctly configured *)
            changed <- conditionsUpdate ConditionTypeConfigured true "Active"
                         "Destination syncmaster is configured correctly and active";;
            when changed (modify (with_updateStatusNeeded true))
          else
            (* Sync is active, but from different source *)
            log LevelWarn None "Destination syncmaster is configured for different source";;
            modify (with_cancelSyncNeeded true);;
            changed <- conditionsUpdate ConditionTypeConfigured false "Invalid"
                         "Destination syncmaster is configured for different source";;
            when changed (modify (with_updateStatusNeeded true)))
     else
       (* Destination has correct source, but is inactive *)
       modify (with_configureSyncNeeded true);;
       changed <- conditionsUpdate ConditionTypeConfigured false "Inactive"
                    "Destination syncmaster is configured correctly but in-active";;
       when changed (modify (with_updateStatusNeeded true))).

(** Lines 109-129: inspect the source.  The status is tested for
    activity also after a failed fetch (there is no [else] at line 117). *)
Definition inspectSource (spec : DeploymentReplicationSpec) : M unit :=
  match createSyncMasterClient e (Source spec) with
  | inr err => log LevelWarn (Some err) "Failed to create source syncmaster client"
  | inl sourceClient =>
      r <- masterStatus sourceClient;;
      let sourceStatus := fst r in
      ifErr (snd r)
        (fun err => log LevelWarn (Some err) "Failed to fetch status from source syncmaster")
        (ret tt);;
      when (IsActive e (SStatus sourceStatus))
        (let r := hasOutgoingEndpoint sourceStatus (Destination spec) in
         ifErr (snd r)
           (fun err => log LevelWarn (Some err) "Failed to check has-outgoing-endpoint")
           (if fst r then
              (* Source is correctly configured *)
              ret tt
            else ret tt))
  end.

(** Lines 131-137: update status if needed. *)
Definition updateStatusIfNeeded : M unit :=
  needed <- gets updateStatusNeeded;;
  when needed
    (err <- updateCRStatus;;
     ifErr err
       (fun err => log LevelWarn (Some err) "Failed to update status";;
                   modify (with_hasError true))
       (ret tt)).

(** Lines 139-150: cancel sync if needed. *)
Definition cancelSyncIfNeeded (destClient : Client) : M unit :=
  needed <- gets cancelSyncNeeded;;
  when needed
    (let req := EmptyCancelRequest in
     log LevelInfo None "Canceling synchronization";;
     err <- masterCancelSynchronization destClient req;;
     ifErr err
       (fun err => log LevelWarn (Some err) "Failed to cancel synchronization";;
                   modify (with_hasError true))
       (log LevelInfo None "Canceled synchronization";;
        modify (with_nextInterval (Second * 10)))).

(** Lines 152-178: configure sync if needed. *)
Definition configureSyncIfNeeded (spec : DeploymentReplicationSpec) (destClient : Client) : M unit :=
  needed <- gets configureSyncNeeded;;
  when needed
    (match createArangoSyncEndpoint e (Source spec) with
     | inr err =>
         log LevelWarn (Some err) "Failed to create syncmaster endpoint";;
         modify (with_hasError true)
     | inl source =>
         match createArangoSyncTLSAuthentication e spec with
         | inr err =>
             log LevelWarn (Some err) "Failed to configure synchronization authentication";;
             modify (with_hasError true)
         | inl auth =>
             let req := {| ReqSource := source; ReqAuthentication := auth |} in
             log LevelInfo None "Configuring synchronization";;
             err <- masterSynchronize destClient req;;
             ifErr err
               (fun err => log LevelWarn (Some err) "Failed to configure synchronization";;
                           modify (with_hasError true))
               (log LevelInfo None "Configured synchronization";;
                modify (with_nextInterval (Second * 10)))
         end
     end).

(** Lines 67-179: the [else] branch of "Is delete triggered?". *)
Definition inspectConfiguration (spec : DeploymentReplicationSpec) : M unit :=
  match createSyncMasterClient e (Destination spec) with
  | inr err => log LevelWarn (Some err) "Failed to create destination syncmaster client"
  | inl destClient =>
      modify (with_updateStatusNeeded false);;
      modify (with_configureSyncNeeded false);;
      modify (with_cancelSyncNeeded false);;
      inspectDestination spec destClient;;
      inspectSource spec;;
      updateStatusIfNeeded;;
      cancelSyncIfNeeded destClient;;
      configureSyncIfNeeded spec destClient
  end.

(** [dr.recentInspectionErrors = v] *)
Definition setRecentInspectionErrors (v : Z) : M unit :=
  modify (fun f => with_dr
    {| apiObject := apiObject (dr f); status := status (dr f);
       recentInspectionErrors := v |} f).

(** Lines 182-193: update next interval (on errors), then the cap. *)
Definition updateNextInterval : M unit :=
  err <- gets hasError;;
  (if err then
     streak <- gets (fun f => recentInspectionErrors (dr f));;
     when (streak =? 0)
       (modify (with_nextInterval (minInspectionInterval e));;
        setRecentInspectionErrors (streak + 1))
   else
     setRecentInspectionErrors 0);;
  next <- gets nextInterval;;
  when (next >? maxInspectionInterval e)
    (modify (with_nextInterval (maxInspectionInterval e))).

(** Lines 41-51: the locals, and "Add finalizers". *)
Definition prologue (lastInterval : Duration) : M DeploymentReplicationSpec :=
  spec <- gets (fun f => Spec (apiObject (dr f)));;
  modify (with_nextInterval lastInterval);;
  modify (with_hasError false);;
  (* Add finalizers *)
  err <- addFinalizers;;
  ifErr err (fun err => log LevelWarn (Some err) "Failed to add finalizers") (ret tt);;
  ret spec.

(** Lines 59-180: "Is delete triggered?" and its two branches. *)
Definition inspectActions (spec : DeploymentReplicationSpec) : M unit :=
  obj <- gets (fun f => apiObject (dr f));;
  match DeletionTimestamp obj with
  | Some _ =>
      (* Deployment replication is triggered for deletion. *)
      err <- runFinalizers obj;;
      ifErr err
        (fun err => log LevelWarn (Some err) "Failed to run finalizers";;
                    modify (with_hasError true))
        (ret tt)
  | None =>
      (* Inspect configuration status *)
      inspectConfiguration spec
  end.

(** [inspectDeploymentReplication] inspects the entire deployment
    replication and configures the replication when needed.  Returns the
    delay until this function should be called again. *)
Definition inspectDeploymentReplication (lastInterval : Duration) : M Duration :=
  spec <- prologue lastInterval;;
  (* Is the deployment in failed state, if so, give up. *)
  phase <- gets (fun f => Phase (status (dr f)));;
  if phase_eqb phase DeploymentReplicationPhaseFailed then
    log LevelDebug None "Deployment replication is in Failed state.";;
    gets nextInterval
  else
    inspectActions spec;;
    updateNextInterval;;
    gets nextInterval.

(** One inspection of [d]: the returned delay and the final frame (the
    receiver as the inspection leaves it, the locals, the trace). *)
Definition inspect (d : DeploymentReplication) (lastInterval : Duration) : Duration * Frame :=
  inspectDeploymentReplication lastInterval (initFrame d).

End Inspector.

(** ** Observations on a run *)

(** The calls that change a syncmaster's configuration. *)
Definition isSyncCall (ev : Event) : bool :=
  match ev with
  | EvCancelSynchronization _ _ | EvSynchronize _ _ => true
  | _ => false
  end.

(** Reads and log lines: events that change nothing outside. *)
Definition isDiagnostic (ev : Event) : bool :=
  match ev with
  | EvLog _ _ _ | EvStatus _ => true
  | _ => false
  end.

Definition isLog (ev : Event) : bool :=
  match ev with
  | EvLog _ _ _ => true
  | _ => false
  end.

(** The frame at line 181, before "Update next interval (on errors)":
    what the actions of this inspection left in [nextInterval] and
    [hasError]. *)
Definition computed (e : Env) (d : DeploymentReplication) (lastInterval : Duration) : Frame :=
  snd ((spec <- prologue e lastInterval;; inspectActions e spec) (initFrame d)).

(** [f'] is [f] after some more events, all of them allowed by [P]. *)
Definition advances (P : Event -> bool) (f f' : Frame) : Prop :=
  exists evs, trace f' = trace f ++ evs /\ forallb P evs = true.

(** The parts of the receiver that only the epilogue or the finalizer
    helpers write. *)
Definition sameObject (f f' : Frame) : Prop :=
  apiObject (dr f') = apiObject (dr f)
  /\ Phase (status (dr f')) = Phase (status (dr f))
  /\ recentInspectionErrors (dr f') = recentInspectionErrors (dr f).

(** The two flags that request a call on the destination. *)
Definition sameFlags (f f' : Frame) : Prop :=
  configureSyncNeeded f' = configureSyncNeeded f
  /\ cancelSyncNeeded f' = cancelSyncNeeded f.

(** Number of configuration-changing syncmaster calls in a trace. *)
Definition syncCalls (tr : list Event) : nat := List.length (filter isSyncCall tr).

Definition isStatusWrite (ev : Event) : bool :=
  match ev with
  | EvUpdateCRStatus _ => true
  | _ => false
  end.

Definition isFinalizerEvent (ev : Event) : bool :=
  match ev with
  | EvPersistFinalizers _ | EvFinalizerCleanup _ => true
  | _ => false
  end.

Definition isFinalizerWrite (ev : Event) : bool :=
  match ev with
  | EvPersistFinalizers _ => true
  | _ => false
  end.

Definition isCancel (ev : Event) : bool :=
  match ev with
  | EvCancelSynchronization _ _ => true
  | _ => false
  end.

Definition isSynchronize (ev : Event) : bool :=
  match ev with
  | EvSynchronize _ _ => true
  | _ => false
  end.



(** ** A concrete setting *)

Definition srcSpec : EndpointSpec :=
  {| MasterAddress := "https://src:8629"; TrustRef := "src-ca" |}.
Definition dstSpec : EndpointSpec :=
  {| MasterAddress := "https://dst:8629"; TrustRef := "dst-ca" |}.
Definition replSpec : DeploymentReplicationSpec :=
  {| Source := srcSpec; Destination := dstSpec |}.

Definition dstClient : Client := 1%nat.
Definition srcClient : Client := 2%nat.

Definition configuredActive : Condition :=
  {| CType := ConditionTypeConfigured; CStatus := true; CReason := "Active";
     CMessage := "Destination syncmaster is configured correctly and active" |}.

Definition configuredInactive : Condition :=
  {| CType := ConditionTypeConfigured; CStatus := false; CReason := "Inactive";
     CMessage := "Destination syncmaster is configured correctly but in-active" |}.

(** An object under replication: marker present, condition already
    recorded, no error streak. *)
Definition settled : DeploymentReplication :=
  {| apiObject := {| Spec := replSpec; DeletionTimestamp := None;
                     Finalizers := [FinalizerDeplReplStopSync] |};
     status := {| Phase := DeploymentReplicationPhaseNone;
                  Conditions := [configuredActive] |};
     recentInspectionErrors := 0 |}.

(** A freshly created object: no marker, no condition yet. *)
Definition fresh : DeploymentReplication :=
  {| apiObject := {| Spec := replSpec; DeletionTimestamp := None; Finalizers := [] |};
     status := {| Phase := DeploymentReplicationPhaseNone; Conditions := [] |};
     recentInspectionErrors := 0 |}.

(** An object marked for deletion. *)
Definition terminating : DeploymentReplication :=
  {| apiObject := {| Spec := replSpec; DeletionTimestamp := Some 1530000000;
                     Finalizers := [FinalizerDeplReplStopSync] |};
     status := {| Phase := DeploymentReplicationPhaseNone;
                  Conditions := [configuredActive] |};
     recentInspectionErrors := 0 |}.

(** A failed object that never got its marker, with an error streak. *)
Definition failedFresh : DeploymentReplication :=
  {| apiObject := {| Spec := replSpec; DeletionTimestamp := None; Finalizers := [] |};
     status := {| Phase := DeploymentReplicationPhaseFailed; Conditions := [] |};
     recentInspectionErrors := 2 |}.

(** A failed object whose last inspection before the failure erred. *)
Definition failedErring : DeploymentReplication :=
  {| apiObject := {| Spec := replSpec; DeletionTimestamp := None;
                     Finalizers := [FinalizerDeplReplStopSync] |};
     status := {| Phase := DeploymentReplicationPhaseFailed;
                  Conditions := [configuredActive] |};
     recentInspectionErrors := 1 |}.

(** [settled] with an error streak of one. *)
Definition erring : DeploymentReplication :=
  {| apiObject := apiObject settled; status := status settled;
     recentInspectionErrors := 1 |}.

Definition runningFrom (source : Endpoint) : SyncInfo :=
  {| SStatus := "running"; SSource := source;
     Outgoing := [ {| OEndpoint := ["https://dst:8629"] |} ] |}.

Definition inactiveInfo : SyncInfo :=
  {| SStatus := "inactive"; SSource := []; Outgoing := [] |}.

(** An environment with one-second and one-minute bounds, a destination
    answering [dst], a source that is running and replicates to the
    destination, and the given outcomes of the writes. *)
Definition world (dst : SyncInfo * option Error)
    (cancelled synchronized persisted statusWritten : option Error) : Env :=
  {| minInspectionInterval := Second;
     maxInspectionInterval := 60 * Second;
     IsActive := fun s => String.eqb s "running" || String.eqb s "initializing";
     Intersection := fun a b => filter (fun x => existsb (String.eqb x) b) a;
     IsEmpty := fun a => match a with [] => true | _ => false end;
     createSyncMasterClient := fun ep =>
       if String.eqb (MasterAddress ep) (MasterAddress dstSpec) then inl dstClient
       else inl srcClient;
     createArangoSyncEndpoint := fun ep => inl [MasterAddress ep];
     createArangoSyncTLSAuthentication := fun _ => inl (TLSAuth "client-cert");
     MasterStatus := fun c =>
       if Nat.eqb c dstClient then dst else (runningFrom [], None);
     MasterCancelSynchronization := fun _ _ => cancelled;
     MasterSynchronize := fun _ _ => synchronized;
     storePersistFinalizers := fun _ => persisted;
     storeUpdateStatus := fun _ => statusWritten;
     finalizerCleanup := fun _ => ([], None) |}.

(** Destination running from the expected source; every write succeeds. *)
Definition healthy : Env :=
  world (runningFrom ["https://src:8629"], None) None None None None.

(** The destination's status cannot be fetched. *)
Definition destUnreachable : Env :=
  world (zeroSyncInfo, Some "connection refused") None None None None.

(** The destination is inactive; the status write fails, the configure
    call succeeds. *)
Definition inactiveStatusWriteFails : Env :=
  world (inactiveInfo, None) None None None (Some "conflict").

(** The destination is inactive and every write succeeds. *)
Definition inactiveDest : Env :=
  world (inactiveInfo, None) None None None None.

(** The destination is inactive and refuses the configure call. *)
Definition inactiveSyncFails : Env :=
  world (inactiveInfo, None) None (Some "unavailable") None None.

(** The destination runs from another source. *)
Definition misdirected : Env :=
  world (runningFrom ["https://other:8629"], None) None None None None.

(** Writing finalizers to the object store fails. *)
Definition finalizerWriteFails : Env :=
  world (runningFrom ["https://src:8629"], None) None None (Some "forbidden") None.

(** No client for the destination can be built. *)
Definition noDestClient : Env :=
  {| minInspectionInterval := minInspectionInterval healthy;
     maxInspectionInterval := maxInspectionInterval healthy;
     IsActive := IsActive healthy;
     Intersection := Intersection healthy;
     IsEmpty := IsEmpty healthy;
     createSyncMasterClient := fun ep =>
       if String.eqb (MasterAddress ep) (MasterAddress dstSpec) then inr "no such secret"
       else inl srcClient;
     createArangoSyncEndpoint := createArangoSyncEndpoint healthy;
     createArangoSyncTLSAuthentication := createArangoSyncTLSAuthentication healthy;
     MasterStatus := MasterStatus healthy;
     MasterCancelSynchronization := MasterCancelSynchronization healthy;
     MasterSynchronize := MasterSynchronize healthy;
     storePersistFinalizers := storePersistFinalizers healthy;
     storeUpdateStatus := storeUpdateStatus healthy;
     finalizerCleanup := finalizerCleanup healthy |}.


(** As [cleanupCancels], but the destination refuses the cancel and the
    callback gives up. *)
Definition cleanupFails : Env :=
  {| minInspectionInterval := minInspectionInterval misdirected;
     maxInspectionInterval := maxInspectionInterval misdirected;
     IsActive := IsActive misdirected;
     Intersection := Intersection misdirected;
     IsEmpty := IsEmpty misdirected;
     createSyncMasterClient := createSyncMasterClient misdirected;
     createArangoSyncEndpoint := createArangoSyncEndpoint misdirected;
     createArangoSyncTLSAuthentication := createArangoSyncTLSAuthentication misdirected;
     MasterStatus := MasterStatus misdirected;
     MasterCancelSynchronization := MasterCancelSynchronization misdirected;
     MasterSynchronize := MasterSynchronize misdirected;
     storePersistFinalizers := storePersistFinalizers misdirected;
     storeUpdateStatus := storeUpdateStatus misdirected;
     finalizerCleanup := fun _ =>
       ([EvCancelSynchronization dstClient EmptyCancelRequest], Some "unavailable") |}.


(** ** Outcomes of the action steps *)

Definition configuredInvalid : Condition :=
  {| CType := ConditionTypeConfigured; CStatus := false; CReason := "Invalid";
     CMessage := "Destination syncmaster is configured for different source" |}.

Definition isSome {A : Type} (o : option A) : bool :=
  match o with
  | Some _ => true
  | None => false
  end.

(** The request of lines 154-167, when both derivations succeed. *)
Definition synchronizationRequest (e : Env) (spec : DeploymentReplicationSpec)
  : option SynchronizationRequest :=
  match createArangoSyncEndpoint e (Source spec) with
  | inr _ => None
  | inl source =>
      match createArangoSyncTLSAuthentication e spec with
      | inr _ => None
      | inl auth => Some {| ReqSource := source; ReqAuthentication := auth |}
      end
  end.

(** The configure step reaches "Configured synchronization". *)
Definition configureSucceeds (e : Env) (spec : DeploymentReplicationSpec) (c : Client) : bool :=
  match synchronizationRequest e spec with
  | Some req => negb (isSome (MasterSynchronize e c req))
  | None => false
  end.

(** The cancel step reaches "Canceled synchronization". *)
Definition cancelSucceeds (e : Env) (c : Client) : bool :=
  negb (isSome (MasterCancelSynchronization e c EmptyCancelRequest)).

(** The status write of lines 132-137 is attempted and refused. *)
Definition statusWriteFails (e : Env) (needed : bool) (st : DeploymentReplicationStatus) : bool :=
  needed && isSome (storeUpdateStatus e st).

(** The warnings that come with [hasError = true] in the source. *)
Definition actionFailureMessages : list string :=
  [ "Failed to run finalizers";
    "Failed to update status";
    "Failed to cancel synchronization";
    "Failed to create syncmaster endpoint";
    "Failed to configure synchronization authentication";
    "Failed to configure synchronization" ].

Definition isActionFailure (ev : Event) : bool :=
  match ev with
  | EvLog LevelWarn (Some _) msg => existsb (String.eqb msg) actionFailureMessages
  | _ => false
  end.

(** [hasError] tells whether an action failure has been logged. *)
Definition errorLogged (f : Frame) : Prop :=
  hasError f = existsb isActionFailure (trace f).

(** Lines 131-178 on a frame: status write, cancel, configure. *)
Definition actions (e : Env) (spec : DeploymentReplicationSpec) (c : Client) (g : Frame) : Frame :=
  snd (configureSyncIfNeeded e spec c
         (snd (cancelSyncIfNeeded e c (snd (updateStatusIfNeeded e g))))).

(** The receiver with another condition list. *)
Definition withConditions (d : DeploymentReplication) (l : ConditionList) : DeploymentReplication :=
  {| apiObject := apiObject d;
     status := {| Phase := Phase (status d); Conditions := l |};
     recentInspectionErrors := recentInspectionErrors d |}.


(** * Process start-up (package main)

    [cmdMainRun] with [newOperatorConfigAndDeps], [getMyPodInfo] and
    [createRecorder].  The flag variables are a [Flags] record with the
    defaults of [init]; what the platform answers is read from a
    [Platform]; [cliLog.Fatal] ends the run. *)

Module v1.

Record Container : Type := { Image : string }.

Record ContainerStatus : Type := { ImageID : string }.

Record PodSpec : Type := {
  ServiceAccountName : string;
  Containers : list Container
}.

Record PodStatus : Type := { ContainerStatuses : list ContainerStatus }.

Record Pod : Type := { Spec : PodSpec; Status : PodStatus }.

End v1.

Definition KubeClient : Type := nat.
Definition KubeExtClient : Type := nat.
Definition CRClient : Type := nat.

(** The recorder of [createRecorder]: its event source and its sink. *)
Record EventRecorder : Type := {
  Component : string;
  SinkClient : KubeClient;
  SinkNamespace : string
}.

Module operator.

Record Config : Type := {
  ID : string;
  Namespace : string;
  PodName : string;
  ServiceAccount : string;
  LifecycleImage : string;
  EnableDeployment : bool;
  EnableDeploymentReplication : bool;
  EnableStorage : bool;
  AllowChaos : bool
}.

(** The log service and the four probes are package-level objects
    handed over by reference; they carry no data of their own here. *)
Record Dependencies : Type := {
  KubeCli : KubeClient;
  KubeExtCli : KubeExtClient;
  CRCli : CRClient;
  EventRecorder_ : option EventRecorder
}.

End operator.

Module server.

Record Config : Type := {
  Address : string;
  TLSSecretName : string;
  TLSSecretNamespace : string;
  PodName : string;
  PodIP : string
}.

End server.

(** [operator.Config{}] and [operator.Dependencies{}] *)
Definition zeroConfig : operator.Config :=
  {| operator.ID := ""; operator.Namespace := ""; operator.PodName := "";
     operator.ServiceAccount := ""; operator.LifecycleImage := "";
     operator.EnableDeployment := false; operator.EnableDeploymentReplication := false;
     operator.EnableStorage := false; operator.AllowChaos := false |}.

Definition zeroDependencies : operator.Dependencies :=
  {| operator.KubeCli := 0%nat; operator.KubeExtCli := 0%nat; operator.CRCli := 0%nat;
     operator.EventRecorder_ := None |}.

Definition defaultServerHost : string := "0.0.0.0".
Definition defaultServerPort : Z := 8528.
Definition defaultLogLevel : string := "debug".

Definition projectVersion : string := "dev".
Definition projectBuild : string := "dev".

Record ServerOptions : Type := {
  host : string;
  port : Z;
  tlsSecretName : string
}.

Record OperatorOptions : Type := {
  enableDeployment : bool;
  enableDeploymentReplication : bool;
  enableStorage : bool
}.

Record ChaosOptions : Type := { allowed : bool }.

(** The package variables that the command line sets. *)
Record Flags : Type := {
  logLevel : string;
  serverOptions : ServerOptions;
  operatorOptions : OperatorOptions;
  chaosOptions : ChaosOptions
}.

(** The defaults registered in [init]. *)
Definition defaultFlags : Flags :=
  {| logLevel := defaultLogLevel;
     serverOptions := {| host := defaultServerHost; port := defaultServerPort;
                         tlsSecretName := "" |};
     operatorOptions := {| enableDeployment := false;
                           enableDeploymentReplication := false;
                           enableStorage := false |};
     chaosOptions := {| allowed := false |} |}.

(** How a run ends early. *)
Inductive Exit : Type :=
| Fatal (err : option Error) (msg : string)
| Panic (msg : string).

(** What [cmdMainRun] starts with a [go] statement. *)
Inductive Goroutine : Type :=
| ServerRun.

(** The events of the start-up, in the order its statements execute.
    [MvGo g] is the [go] statement itself: the goroutine is spawned
    there, and what it does runs beside the statements that follow, in
    no order with them, and is not part of the trace. *)
Inductive MainEvent : Type :=
| MvNewLogService (level : string)
| MvLogInfo (msg : string)
| MvLogError (err : Error) (msg : string)
| MvNewKubeClient
| MvNewServer (cfg : server.Config)
| MvGo (g : Goroutine)
| MvPodsGet (namespace name : string)
| MvNewKubeExtClient
| MvNewInCluster
| MvCreateRecorder (name namespace : string)
| MvNewOperator (cfg : operator.Config)
| MvOperatorRun.

(** What package main takes from outside: the names of the environment
    variables (package constants), the environment, the host, the
    constructors of clients, server and operator, the pod lookups (one
    answer per attempt), and two functions of the Go library. *)
Record Platform : Type := {
  EnvOperatorPodNamespace : string;
  EnvOperatorPodName : string;
  EnvOperatorPodIP : string;
  Getenv : string -> string;
  Hostname : string + Error;
  NewService : string -> option Error;
  NewKubeClient : nat -> KubeClient + Error;
  NewServer : server.Config -> option Error;
  PodsGet : KubeClient -> string -> string -> nat -> v1.Pod + Error;
  retryAttempts : Duration -> nat;
  ConvertImageID2Image : string -> string;
  NewKubeExtClient : KubeExtClient + Error;
  NewInCluster : CRClient + Error;
  NewOperator : operator.Config -> operator.Dependencies -> option Error;
  JoinHostPort : string -> string -> string;
  Itoa : Z -> string
}.

Record MainState : Type := {
  events : list MainEvent;
  kubeClientCalls : nat
}.

Definition initMainState : MainState := {| events := []; kubeClientCalls := 0%nat |}.

Definition P (A : Type) : Type := MainState -> (Exit + A) * MainState.

Definition retP {A : Type} (a : A) : P A := fun s => (inr a, s).

Definition bindP {A B : Type} (m : P A) (k : A -> P B) : P B :=
  fun s =>
    match m s with
    | (inl x, s') => (inl x, s')
    | (inr a, s') => k a s'
    end.

Definition exitP {A : Type} (x : Exit) : P A := fun s => (inl x, s).

Definition emitP (ev : MainEvent) : P unit :=
  fun s => (inr tt, {| events := events s ++ [ev]; kubeClientCalls := kubeClientCalls s |}).

Declare Scope startup_scope.
Notation "x <- c1 ;; c2" := (bindP c1 (fun x => c2))
  (at level 100, c1 at next level, right associativity) : startup_scope.
Notation "c1 ;; c2" := (bindP c1 (fun _ => c2))
  (at level 100, right associativity) : startup_scope.

(** The variables [image] and [sa] that the closure [op] of
    [getMyPodInfo] assigns. *)
Record PodInfo : Type := {
  image : string;
  sa : string
}.

Definition Minute : Duration := 60 * Second.

Section Startup.

Variable w : Platform.

Local Open Scope startup_scope.

(** [cliLog.Fatal().Err(err).Msg(msg)]: logs and exits. *)
Definition fatal {A : Type} (err : option Error) (msg : string) : P A :=
  exitP (Fatal err msg).

(** [k8sutil.NewKubeClient()], counting the calls. *)
Definition newKubeClient : P (KubeClient + Error) :=
  fun s =>
    (inr (NewKubeClient w (kubeClientCalls s)),
     {| events := events s ++ [MvNewKubeClient];
        kubeClientCalls := S (kubeClientCalls s) |}).

(** The closure [op] of [getMyPodInfo], at its [n]-th call. *)
Definition podInfoOp (kubecli : KubeClient) (namespace name : string)
    (n : nat) (v : PodInfo) : P (PodInfo * option Error) :=
  emitP (MvPodsGet namespace name);;
  match PodsGet w kubecli namespace name n with
  | inr err =>
      emitP (MvLogError err "Failed to get operator pod");;
      retP (v, Some (maskAny err))
  | inl pod =>
      let sa' := v1.ServiceAccountName (v1.Spec pod) in
      match v1.ContainerStatuses (v1.Status pod) with
      | [] => exitP (Panic "index out of range")
      | cs :: _ =>
          let image' := ConvertImageID2Image w (v1.ImageID cs) in
          if String.eqb image' "" then
            (* Fallback in case we don't know the id. *)
            match v1.Containers (v1.Spec pod) with
            | [] => exitP (Panic "index out of range")
            | ct :: _ => retP ({| image := v1.Image ct; sa := sa' |}, None)
            end
          else retP ({| image := image'; sa := sa' |}, None)
      end
  end.

(** Modelled from the spec: [retry.Retry] is "a bounded
    retry-with-timeout wrapper" around a call "expected to eventually
    succeed": the operation is called again until it succeeds or the
    ceiling is reached, and the last error is returned.  [more] is the
    number of further attempts the ceiling leaves room for. *)
Fixpoint retryFrom {V : Type} (op : nat -> V -> P (V * option Error))
    (more n : nat) (v : V) : P (V * option Error) :=
  r <- op n v;;
  match snd r with
  | None => retP r
  | Some err =>
      match more with
      | O => retP (fst r, Some (maskAny err))
      | S m => retryFrom op m (S n) (fst r)
      end
  end.

Definition Retry {V : Type} (op : nat -> V -> P (V * option Error))
    (timeout : Duration) (v : V) : P (V * option Error) :=
  retryFrom op (retryAttempts w timeout) 0%nat v.

(** [getMyPodInfo] looks up the image & service account of the pod with
    given name in given namespace.  Returns image, serviceAccount,
    error. *)
Definition getMyPodInfo (kubecli : KubeClient) (namespace name : string)
  : P (string * string * option Error) :=
  r <- Retry (podInfoOp kubecli namespace name) (Minute * 5) {| image := ""; sa := "" |};;
  match snd r with
  | Some err => retP ("", "", Some (maskAny err))
  | None => retP (image (fst r), sa (fst r), None)
  end.

Definition createRecorder (kubecli : KubeClient) (name namespace : string) : P EventRecorder :=
  emitP (MvCreateRecorder name namespace);;
  retP {| Component := name; SinkClient := kubecli; SinkNamespace := namespace |}.

(** [newOperatorConfigAndDeps] creates operator config & dependencies. *)
Definition newOperatorConfigAndDeps (flags : Flags) (id namespace name : string)
  : P (operator.Config * operator.Dependencies * option Error) :=
  k <- newKubeClient;;
  match k with
  | inr err => retP (zeroConfig, zeroDependencies, Some (maskAny err))
  | inl kubecli =>
      r <- getMyPodInfo kubecli namespace name;;
      let '(image, serviceAccount, err) := r in
      match err with
      | Some err =>
          retP (zeroConfig, zeroDependencies,
                Some (maskAny ("Failed to get my pod's service account: " ++ err)%string))
      | None =>
          emitP MvNewKubeExtClient;;
          match NewKubeExtClient w with
          | inr err =>
              retP (zeroConfig, zeroDependencies,
                    Some (maskAny ("Failed to create k8b api extensions client: " ++ err)%string))
          | inl kubeExtCli =>
              emitP MvNewInCluster;;
              match NewInCluster w with
              | inr err =>
                  retP (zeroConfig, zeroDependencies,
                        Some (maskAny ("Failed to created versioned client: " ++ err)%string))
              | inl crCli =>
                  eventRecorder <- createRecorder kubecli name namespace;;
                  let cfg :=
                    {| operator.ID := id;
                       operator.Namespace := namespace;
                       operator.PodName := name;
                       operator.ServiceAccount := serviceAccount;
                       operator.LifecycleImage := image;
                       operator.EnableDeployment := enableDeployment (operatorOptions flags);
                       operator.EnableDeploymentReplication :=
                         enableDeploymentReplication (operatorOptions flags);
                       operator.EnableStorage := enableStorage (operatorOptions flags);
                       operator.AllowChaos := allowed (chaosOptions flags) |} in
                  let deps :=
                    {| operator.KubeCli := kubecli;
                       operator.KubeExtCli := kubeExtCli;
                       operator.CRCli := crCli;
                       operator.EventRecorder_ := Some eventRecorder |} in
                  retP (cfg, deps, None)
              end
          end
      end
  end.

(** [cmdMainRun]: run the operator. *)
Definition cmdMainRun (flags : Flags) : P unit :=
  emitP (MvNewLogService (logLevel flags));;
  match NewService w (logLevel flags) with
  | Some err => fatal (Some err) "Failed to initialize log service"
  | None =>
  (* Check operating mode *)
  if negb (enableDeployment (operatorOptions flags))
     && negb (enableDeploymentReplication (operatorOptions flags))
     && negb (enableStorage (operatorOptions flags))
  then fatal None
         "Turn on --operator.deployment, --operator.deployment-replication, --operator.storage or any combination of these"
  else
  (* Log version *)
  emitP (MvLogInfo ("Starting arangodb-operator, version " ++ projectVersion
                    ++ " build " ++ projectBuild)%string);;
  (* Get environment *)
  let namespace := Getenv w (EnvOperatorPodNamespace w) in
  if (String.length namespace =? 0)%nat
  then fatal None (EnvOperatorPodNamespace w ++ " environment variable missing")%string
  else
  let name := Getenv w (EnvOperatorPodName w) in
  if (String.length name =? 0)%nat
  then fatal None (EnvOperatorPodName w ++ " environment variable missing")%string
  else
  let ip := Getenv w (EnvOperatorPodIP w) in
  if (String.length ip =? 0)%nat
  then fatal None (EnvOperatorPodIP w ++ " environment variable missing")%string
  else
  (* Get host name *)
  match Hostname w with
  | inr err => fatal (Some err) "Failed to get hostname"
  | inl id =>
  (* Create kubernetes client *)
  k <- newKubeClient;;
  match k with
  | inr err => fatal (Some err) "Failed to create Kubernetes client"
  | inl kubecli =>
  let listenAddr :=
    JoinHostPort w (host (serverOptions flags)) (Itoa w (port (serverOptions flags))) in
  let scfg :=
    {| server.Address := listenAddr;
       server.TLSSecretName := tlsSecretName (serverOptions flags);
       server.TLSSecretNamespace := namespace;
       server.PodName := name;
       server.PodIP := ip |} in
  emitP (MvNewServer scfg);;
  match NewServer w scfg with
  | Some err => fatal (Some err) "Failed to create HTTP server"
  | None =>
  emitP (MvGo ServerRun);;
  r <- newOperatorConfigAndDeps flags (id ++ "-" ++ name)%string namespace name;;
  let '(cfg, deps, err) := r in
  match err with
  | Some err => fatal (Some err) "Failed to create operator config & deps"
  | None =>
  emitP (MvNewOperator cfg);;
  match NewOperator w cfg deps with
  | Some err => fatal (Some err) "Failed to create operator"
  | None => emitP MvOperatorRun
  end end end end end end.

(** One run of the process from its start. *)
Definition runMain (flags : Flags) : (Exit + unit) * MainState :=
  cmdMainRun flags initMainState.

End Startup.


(** The events of creating and running the operator. *)
Definition isOperatorEvent (ev : MainEvent) : bool :=
  match ev with
  | MvNewOperator _ | MvOperatorRun => true
  | _ => false
  end.

(** The image that a pod's first container runs, as [op] reads it. *)
Definition podImage (w : Platform) (pod : v1.Pod) : option string :=
  match v1.ContainerStatuses (v1.Status pod) with
  | [] => None
  | cs :: _ =>
      if String.eqb (ConvertImageID2Image w (v1.ImageID cs)) "" then
        match v1.Containers (v1.Spec pod) with
        | [] => None
        | ct :: _ => Some (v1.Image ct)
        end
      else Some (ConvertImageID2Image w (v1.ImageID cs))
  end.


(** ** More concrete settings *)

(** [healthy], but no endpoint can be derived from an endpoint spec. *)
Definition endpointUnknown : Env :=
  {| minInspectionInterval := minInspectionInterval healthy;
     maxInspectionInterval := maxInspectionInterval healthy;
     IsActive := IsActive healthy;
     Intersection := Intersection healthy;
     IsEmpty := IsEmpty healthy;
     createSyncMasterClient := createSyncMasterClient healthy;
     createArangoSyncEndpoint := fun _ => inr "no such deployment";
     createArangoSyncTLSAuthentication := createArangoSyncTLSAuthentication healthy;
     MasterStatus := MasterStatus healthy;
     MasterCancelSynchronization := MasterCancelSynchronization healthy;
     MasterSynchronize := MasterSynchronize healthy;
     storePersistFinalizers := storePersistFinalizers healthy;
     storeUpdateStatus := storeUpdateStatus healthy;
     finalizerCleanup := finalizerCleanup healthy |}.

Definition operatorPod : v1.Pod :=
  {| v1.Spec := {| v1.ServiceAccountName := "arango-operator";
                   v1.Containers := [ {| v1.Image := "arangodb/kube-arangodb:0.2.1" |} ] |};
     v1.Status := {| v1.ContainerStatuses :=
                       [ {| v1.ImageID := "arangodb/kube-arangodb@sha256:1f2e" |} ] |} |}.

(** The pod as the platform shows it before its containers report. *)
Definition barePod : v1.Pod :=
  {| v1.Spec := v1.Spec operatorPod;
     v1.Status := {| v1.ContainerStatuses := [] |} |}.

(** A platform with the environment set, where the first pod lookup
    fails and the later ones answer [pod]. *)
Definition platformWith (getenv : string -> string) (pod : v1.Pod) : Platform :=
  {| EnvOperatorPodNamespace := "MY_POD_NAMESPACE";
     EnvOperatorPodName := "MY_POD_NAME";
     EnvOperatorPodIP := "MY_POD_IP";
     Getenv := getenv;
     Hostname := inl "node-1";
     NewService := fun _ => None;
     NewKubeClient := fun n => inl (S n);
     NewServer := fun _ => None;
     PodsGet := fun _ _ _ n => match n with O => inr "not found" | S _ => inl pod end;
     retryAttempts := fun _ => 3%nat;
     ConvertImageID2Image := fun id => id;
     NewKubeExtClient := inl 7%nat;
     NewInCluster := inl 8%nat;
     NewOperator := fun _ _ => None;
     JoinHostPort := fun h p => (h ++ ":" ++ p)%string;
     Itoa := fun _ => "8528" |}.

Definition podEnvironment (v : string) : string :=
  if String.eqb v "MY_POD_NAMESPACE" then "default"
  else if String.eqb v "MY_POD_NAME" then "operator-0"
  else if String.eqb v "MY_POD_IP" then "10.0.0.7"
  else "".

Definition cluster : Platform := platformWith podEnvironment operatorPod.

Definition clusterWithoutEnvironment : Platform := platformWith (fun _ => "") operatorPod.

Definition clusterWithBarePod : Platform := platformWith podEnvironment barePod.

(** The flags of [--operator.deployment-replication]. *)
Definition replicationFlags : Flags :=
  {| logLevel := logLevel defaultFlags;
     serverOptions := serverOptions defaultFlags;
     operatorOptions := {| enableDeployment := false;
                           enableDeploymentReplication := true;
                           enableStorage := false |};
     chaosOptions := chaosOptions defaultFlags |}.

Definition replicationConfig : operator.Config :=
  {| operator.ID := "node-1-operator-0";
     operator.Namespace := "default";
     operator.PodName := "operator-0";
     operator.ServiceAccount := "arango-operator";
     operator.LifecycleImage := "arangodb/kube-arangodb@sha256:1f2e";
     operator.EnableDeployment := false;
     operator.EnableDeploymentReplication := true;
     operator.EnableStorage := false;
     operator.AllowChaos := false |}.


(** * Properties *)

(** ** Tactics *)

Ltac unfold_monad :=
  unfold bind, ret, gets, modify, emit, log, when, ifErr in *.

(** Runs the monad's plumbing and the frame updates, leaves the
    environment's answers in place. *)
Ltac run_frame :=
  cbv beta iota delta
    [bind ret gets modify emit log when ifErr
     with_dr with_nextInterval with_hasError with_updateStatusNeeded
     with_configureSyncNeeded with_cancelSyncNeeded with_trace
     dr nextInterval hasError updateStatusNeeded configureSyncNeeded
     cancelSyncNeeded trace fst snd].

Ltac split_cases :=
  repeat match goal with
         | |- context [match ?x with _ => _ end] => destruct x eqn:?; cbn
         end.

(** Runs the monad's plumbing by simplification. *)
Ltac run :=
  repeat (progress (unfold bind, ret, gets, modify, emit, log, when, ifErr; cbn)).

(** Computes projections of updated frames. *)
Ltac frame_simpl :=
  cbn [fst snd with_dr with_nextInterval with_hasError with_updateStatusNeeded
       with_configureSyncNeeded with_cancelSyncNeeded with_trace
       dr nextInterval hasError updateStatusNeeded configureSyncNeeded
       cancelSyncNeeded trace apiObject status recentInspectionErrors].

Tactic Notation "frame_simpl" "in" hyp(H) :=
  cbn [fst snd with_dr with_nextInterval with_hasError with_updateStatusNeeded
       with_configureSyncNeeded with_cancelSyncNeeded with_trace
       dr nextInterval hasError updateStatusNeeded configureSyncNeeded
       cancelSyncNeeded trace apiObject status recentInspectionErrors] in H.

Ltac trace_ext :=
  repeat rewrite <- app_assoc; cbn [app];
  first [ exists []; split; [ symmetry; apply app_nil_r | reflexivity ]
        | eexists; split; [ reflexivity | reflexivity ] ].

(** ** Events and traces *)

Lemma syncCalls_app (a b : list Event) :
  syncCalls (a ++ b) = (syncCalls a + syncCalls b)%nat.
Proof. unfold syncCalls. rewrite filter_app, length_app. reflexivity. Qed.

Lemma syncCalls_none (P : Event -> bool) (evs : list Event) :
  (forall ev, P ev = true -> isSyncCall ev = false) ->
  forallb P evs = true -> syncCalls evs = 0%nat.
Proof.
  intros PQ. unfold syncCalls. induction evs as [| ev evs IH]; cbn; [ reflexivity | ].
  intros H. apply andb_prop in H. destruct H as [Hev Hevs].
  rewrite (PQ ev Hev). auto.
Qed.

Section Blocks.

Variable e : Env.

(** The loop of [hasOutgoingEndpoint] answers whether some outgoing
    item intersects the endpoint. *)
Lemma anyOutgoing_existsb (ep : Endpoint) (os : list OutgoingSyncInfo) :
  anyOutgoing e ep os
  = existsb (fun o => negb (IsEmpty e (Intersection e (OEndpoint o) ep))) os.
Proof.
  induction os as [| o rest IH]; cbn; [ reflexivity | ].
  destruct (IsEmpty e (Intersection e (OEndpoint o) ep)); cbn; auto.
Qed.

(** *** Lines 41-51 *)

Lemma prologue_frame (d : DeploymentReplication) (lastInterval : Duration) :
  let r := prologue e lastInterval (initFrame d) in
  fst r = Spec (apiObject d)
  /\ Spec (apiObject (dr (snd r))) = Spec (apiObject d)
  /\ DeletionTimestamp (apiObject (dr (snd r))) = DeletionTimestamp (apiObject d)
  /\ status (dr (snd r)) = status d
  /\ recentInspectionErrors (dr (snd r)) = recentInspectionErrors d
  /\ nextInterval (snd r) = lastInterval
  /\ hasError (snd r) = false
  /\ forallb (fun ev => isLog ev || isFinalizerWrite ev) (trace (snd r)) = true
  /\ configureSyncNeeded (snd r) = false
  /\ cancelSyncNeeded (snd r) = false.
Proof.
  unfold prologue, addFinalizers. unfold_monad. cbn.
  destruct d as [[sp del fin] st n]; cbn.
  destruct del; cbn; [ repeat split | ].
  destruct (existsb _ fin); cbn; [ repeat split | ].
  destruct (storePersistFinalizers e _); cbn; repeat split.
Qed.

(** *** Lines 76-107 *)

Lemma inspectDestination_step (spec : DeploymentReplicationSpec) (c : Client) (f : Frame) :
  let f' := snd (inspectDestination e spec c f) in
  sameObject f f' /\ nextInterval f' = nextInterval f /\ hasError f' = hasError f
  /\ advances isDiagnostic f f'.
Proof.
  unfold inspectDestination, masterStatus, isIncomingEndpoint, conditionsUpdate, sameObject, advances.
  unfold_monad. cbn.
  destruct (MasterStatus e c) as [info [err |]]; cbn.
  - repeat split. trace_ext.
  - split_cases; repeat split; trace_ext.
Qed.

(** Starting with both flags down, the destination block raises at most
    one of them. *)
Lemma inspectDestination_flags (spec : DeploymentReplicationSpec) (c : Client) (f : Frame) :
  configureSyncNeeded f = false -> cancelSyncNeeded f = false ->
  let f' := snd (inspectDestination e spec c f) in
  configureSyncNeeded f' && cancelSyncNeeded f' = false.
Proof.
  intros Hc Hx.
  unfold inspectDestination, masterStatus, isIncomingEndpoint, conditionsUpdate.
  unfold_monad. cbn.
  destruct (MasterStatus e c) as [info [err |]]; cbn.
  - rewrite Hc. reflexivity.
  - split_cases; rewrite ?Hc, ?Hx; reflexivity.
Qed.

(** *** Lines 109-129 *)

Lemma inspectSource_frame (spec : DeploymentReplicationSpec) (f : Frame) :
  exists evs,
    inspectSource e spec f = (tt, with_trace (trace f ++ evs) f)
    /\ forallb isDiagnostic evs = true.
Proof.
  unfold inspectSource, masterStatus, hasOutgoingEndpoint.
  destruct f as [d ni he us cs xs tr].
  destruct (createSyncMasterClient e (Source spec)) as [c | err]; run_frame.
  - destruct (MasterStatus e c) as [info [err |]]; run_frame;
      destruct (IsActive e (SStatus info)); run_frame;
      try destruct (createArangoSyncEndpoint e (Destination spec)); run_frame;
      try destruct (anyOutgoing e _ _); run_frame;
      repeat rewrite <- app_assoc; cbn [app];
      first [ exists []; rewrite app_nil_r; split; reflexivity
            | eexists; (split; [ reflexivity | reflexivity ]) ].
  - eexists; (split; [ reflexivity | reflexivity ]).
Qed.

(** *** Lines 131-137 *)

Lemma updateStatusIfNeeded_step (f : Frame) :
  let f' := snd (updateStatusIfNeeded e f) in
  dr f' = dr f /\ nextInterval f' = nextInterval f /\ sameFlags f f'
  /\ (hasError f = true -> hasError f' = true)
  /\ advances (fun ev => isLog ev || isStatusWrite ev) f f'.
Proof.
  unfold updateStatusIfNeeded, updateCRStatus, sameFlags, advances.
  destruct f as [d ni he us cs xs tr]. run_frame.
  destruct us; run_frame.
  - destruct (storeUpdateStatus e (status d)); run_frame; repeat split; auto; trace_ext.
  - repeat split; auto. trace_ext.
Qed.

(** *** Lines 139-150 *)

Lemma cancelSyncIfNeeded_step (c : Client) (f : Frame) :
  let f' := snd (cancelSyncIfNeeded e c f) in
  dr f' = dr f /\ sameFlags f f'
  /\ (hasError f = true -> hasError f' = true)
  /\ (nextInterval f' = nextInterval f \/ nextInterval f' = Second * 10)
  /\ exists evs, trace f' = trace f ++ evs
       /\ forallb (fun ev => isLog ev || isCancel ev) evs = true
       /\ syncCalls evs = (if cancelSyncNeeded f then 1 else 0)%nat.
Proof.
  unfold cancelSyncIfNeeded, masterCancelSynchronization, sameFlags.
  destruct f as [d ni he us cs xs tr]. run_frame.
  destruct xs; run_frame.
  - destruct (MasterCancelSynchronization e c EmptyCancelRequest); run_frame;
      repeat split; auto;
      repeat rewrite <- app_assoc; cbn [app];
      eexists; (split; [ reflexivity | split; reflexivity ]).
  - repeat split; auto. exists []. rewrite app_nil_r. repeat split.
Qed.

(** *** Lines 152-178 *)

Lemma configureSyncIfNeeded_step (spec : DeploymentReplicationSpec) (c : Client) (f : Frame) :
  let f' := snd (configureSyncIfNeeded e spec c f) in
  dr f' = dr f /\ sameFlags f f'
  /\ (hasError f = true -> hasError f' = true)
  /\ (nextInterval f' = nextInterval f \/ nextInterval f' = Second * 10)
  /\ exists evs, trace f' = trace f ++ evs
       /\ forallb (fun ev => isLog ev || isSynchronize ev) evs = true
       /\ (syncCalls evs <= if configureSyncNeeded f then 1 else 0)%nat.
Proof.
  unfold configureSyncIfNeeded, masterSynchronize, sameFlags.
  destruct f as [d ni he us cs xs tr]. run_frame.
  destruct cs; run_frame.
  - destruct (createArangoSyncEndpoint e (Source spec)) as [ep | err]; run_frame.
    + destruct (createArangoSyncTLSAuthentication e spec) as [auth | err]; run_frame.
      * destruct (MasterSynchronize e c _); run_frame;
          repeat split; auto;
          repeat rewrite <- app_assoc; cbn [app];
          eexists; (split; [ reflexivity | split; [ reflexivity | cbn; lia ] ]).
      * repeat split; auto.
        repeat rewrite <- app_assoc; cbn [app];
          eexists; (split; [ reflexivity | split; [ reflexivity | cbn; lia ] ]).
    + repeat split; auto.
      repeat rewrite <- app_assoc; cbn [app];
        eexists; (split; [ reflexivity | split; [ reflexivity | cbn; lia ] ]).
  - repeat split; auto. exists []. rewrite app_nil_r. repeat split. cbn. lia.
Qed.

(** *** Blocks on particular paths *)

Lemma inspectDestination_unreachable
    (spec : DeploymentReplicationSpec) (c : Client) (f : Frame) (err : Error) :
  snd (MasterStatus e c) = Some err ->
  snd (inspectDestination e spec c f)
  = with_trace
      (trace f ++ [EvStatus c;
                   EvLog LevelWarn (Some err)
                     "Failed to fetch status from destination syncmaster"]) f.
Proof.
  intros H. unfold inspectDestination, masterStatus. run. rewrite H. run.
  unfold with_trace. cbn. rewrite <- app_assoc. reflexivity.
Qed.

Lemma inspectDestination_inactive
    (spec : DeploymentReplicationSpec) (c : Client) (f : Frame) (info : SyncInfo) :
  MasterStatus e c = (info, None) ->
  IsActive e (SStatus info) = false ->
  snd (inspectDestination e spec c f)
  = let u := Update (Conditions (status (dr f))) configuredInactive in
    {| dr := {| apiObject := apiObject (dr f);
                status := {| Phase := Phase (status (dr f)); Conditions := fst u |};
                recentInspectionErrors := recentInspectionErrors (dr f) |};
       nextInterval := nextInterval f;
       hasError := hasError f;
       updateStatusNeeded := if snd u then true else updateStatusNeeded f;
       configureSyncNeeded := true;
       cancelSyncNeeded := cancelSyncNeeded f;
       trace := trace f ++ [EvStatus c] |}.
Proof.
  intros H A. unfold inspectDestination, masterStatus, conditionsUpdate.
  run. rewrite H. run. rewrite A. run.
  fold configuredInactive.
  destruct (snd (Update (Conditions (status (dr f))) configuredInactive)); reflexivity.
Qed.

Lemma updateStatusIfNeeded_cases (f : Frame) :
  let f' := snd (updateStatusIfNeeded e f) in
  (updateStatusNeeded f = false /\ f' = f)
  \/ (updateStatusNeeded f = true /\ storeUpdateStatus e (status (dr f)) = None
      /\ f' = with_trace (trace f ++ [EvUpdateCRStatus (status (dr f))]) f)
  \/ (exists err,
        updateStatusNeeded f = true /\ storeUpdateStatus e (status (dr f)) = Some err
        /\ f' = with_hasError true
                  (with_trace
                     (trace f ++ [EvUpdateCRStatus (status (dr f));
                                  EvLog LevelWarn (Some err) "Failed to update status"]) f)).
Proof.
  unfold updateStatusIfNeeded, updateCRStatus.
  destruct f as [d ni he us cs xs tr]. run.
  destruct us; run.
  - destruct (storeUpdateStatus e (status d)) as [err |] eqn:W; run.
    + right. right. exists err. repeat split.
      unfold with_hasError, with_trace. cbn. rewrite <- app_assoc. reflexivity.
    + right. left. repeat split.
  - left. split; reflexivity.
Qed.

Lemma updateStatusIfNeeded_skip (f : Frame) :
  updateStatusNeeded f = false -> snd (updateStatusIfNeeded e f) = f.
Proof.
  intros H. unfold updateStatusIfNeeded. run. rewrite H. reflexivity.
Qed.

Lemma cancelSyncIfNeeded_skip (c : Client) (f : Frame) :
  cancelSyncNeeded f = false -> snd (cancelSyncIfNeeded e c f) = f.
Proof.
  intros H. unfold cancelSyncIfNeeded. run. rewrite H. reflexivity.
Qed.

Lemma configureSyncIfNeeded_skip (spec : DeploymentReplicationSpec) (c : Client) (f : Frame) :
  configureSyncNeeded f = false -> snd (configureSyncIfNeeded e spec c f) = f.
Proof.
  intros H. unfold configureSyncIfNeeded. run. rewrite H. reflexivity.
Qed.

(** With the flag up and both derivations succeeding, the configure
    block issues the call. *)
Lemma configureSyncIfNeeded_issues
    (spec : DeploymentReplicationSpec) (c : Client) (f : Frame)
    (source : Endpoint) (auth : TLSAuthentication) :
  configureSyncNeeded f = true ->
  createArangoSyncEndpoint e (Source spec) = inl source ->
  createArangoSyncTLSAuthentication e spec = inl auth ->
  let req := {| ReqSource := source; ReqAuthentication := auth |} in
  let f' := snd (configureSyncIfNeeded e spec c f) in
  f' = match MasterSynchronize e c req with
       | Some err =>
           with_hasError true
             (with_trace
                (trace f ++ [EvLog LevelInfo None "Configuring synchronization";
                             EvSynchronize c req;
                             EvLog LevelWarn (Some err) "Failed to configure synchronization"])
                f)
       | None =>
           with_nextInterval (Second * 10)
             (with_trace
                (trace f ++ [EvLog LevelInfo None "Configuring synchronization";
                             EvSynchronize c req;
                             EvLog LevelInfo None "Configured synchronization"])
                f)
       end.
Proof.
  intros H S A. unfold configureSyncIfNeeded, masterSynchronize.
  destruct f as [d ni he us cs xs tr]. cbn in H. subst cs.
  run. rewrite S, A. run.
  destruct (MasterSynchronize e c _); run;
    unfold with_hasError, with_nextInterval, with_trace; cbn;
    repeat rewrite <- app_assoc; reflexivity.
Qed.

(** An event that a block cannot emit was in the trace before. *)
Lemma In_before (P : Event -> bool) (tr evs : list Event) (ev : Event) :
  forallb P evs = true -> P ev = false -> In ev (tr ++ evs) -> In ev tr.
Proof.
  intros Hall Hev Hin. apply in_app_or in Hin. destruct Hin as [Hin | Hin]; [ exact Hin | ].
  rewrite forallb_forall in Hall. specialize (Hall ev Hin). congruence.
Qed.

(** *** Lines 67-179 *)

Lemma inspectConfiguration_unfold (spec : DeploymentReplicationSpec) (c : Client) (f : Frame) :
  createSyncMasterClient e (Destination spec) = inl c ->
  snd (inspectConfiguration e spec f)
  = snd (configureSyncIfNeeded e spec c
      (snd (cancelSyncIfNeeded e c
        (snd (updateStatusIfNeeded e
          (snd (inspectSource e spec
            (snd (inspectDestination e spec c
              (with_cancelSyncNeeded false
                (with_configureSyncNeeded false
                  (with_updateStatusNeeded false f)))))))))))).
Proof.
  intros H. unfold inspectConfiguration. rewrite H. reflexivity.
Qed.

Lemma inspectConfiguration_step (spec : DeploymentReplicationSpec) (f : Frame) :
  let f' := snd (inspectConfiguration e spec f) in
  sameObject f f'
  /\ (nextInterval f' = nextInterval f \/ nextInterval f' = Second * 10)
  /\ (configureSyncNeeded f && cancelSyncNeeded f = false ->
      configureSyncNeeded f' && cancelSyncNeeded f' = false)
  /\ exists evs, trace f' = trace f ++ evs
       /\ forallb (fun ev => negb (isFinalizerEvent ev)) evs = true
       /\ (syncCalls evs <= 1)%nat.
Proof.
  destruct (createSyncMasterClient e (Destination spec)) as [c | err] eqn:Hc.
  - cbv zeta. rewrite (inspectConfiguration_unfold spec c f Hc).
    set (f0 := with_cancelSyncNeeded false
                 (with_configureSyncNeeded false (with_updateStatusNeeded false f))).
    destruct (inspectDestination_step spec c f0) as (O1 & N1 & _ & (ev1 & T1 & D1)).
    pose proof (inspectDestination_flags spec c f0 eq_refl eq_refl) as X1.
    cbv zeta in X1.
    set (f1 := snd (inspectDestination e spec c f0)) in *.
    destruct (inspectSource_frame spec f1) as (ev2 & E2 & D2).
    rewrite E2. cbn [snd].
    set (f2 := with_trace (trace f1 ++ ev2) f1).
    destruct (updateStatusIfNeeded_step f2) as (O3 & N3 & (C3 & X3) & _ & (ev3 & T3 & D3)).
    set (f3 := snd (updateStatusIfNeeded e f2)) in *.
    destruct (cancelSyncIfNeeded_step c f3) as (O4 & (C4 & X4) & _ & N4 & (ev4 & T4 & D4 & S4)).
    set (f4 := snd (cancelSyncIfNeeded e c f3)) in *.
    destruct (configureSyncIfNeeded_step spec c f4)
      as (O5 & (C5 & X5) & _ & N5 & (ev5 & T5 & D5 & S5)).
    set (f5 := snd (configureSyncIfNeeded e spec c f4)) in *.
    assert (F2 : configureSyncNeeded f2 = configureSyncNeeded f1
                 /\ cancelSyncNeeded f2 = cancelSyncNeeded f1) by (split; reflexivity).
    destruct F2 as [C2 X2].
    repeat split.
    + rewrite O5, O4, O3. apply O1.
    + rewrite O5, O4, O3. apply O1.
    + rewrite O5, O4, O3. apply O1.
    + assert (nextInterval f3 = nextInterval f) as N by (rewrite N3; exact N1).
      destruct N4 as [N4 | N4], N5 as [N5 | N5]; rewrite ?N5, ?N4, ?N; auto.
    + intros _. rewrite C5, X5, C4, X4, C3, X3, C2, X2. exact X1.
    + exists (ev1 ++ ev2 ++ ev3 ++ ev4 ++ ev5). split; [ | split ].
      * rewrite T5, T4, T3. change (trace f2) with (trace f1 ++ ev2). rewrite T1.
        change (trace f0) with (trace f). repeat rewrite <- app_assoc. reflexivity.
      * repeat rewrite forallb_app. repeat (apply andb_true_intro; split);
          match goal with
          | H : forallb _ ?l = true |- forallb _ ?l = true =>
              rewrite forallb_forall in *; intros ev Hev; specialize (H ev Hev);
              destruct ev; cbn in *; congruence
          end.
      * repeat rewrite syncCalls_app.
        rewrite (syncCalls_none isDiagnostic ev1), (syncCalls_none isDiagnostic ev2),
          (syncCalls_none (fun ev => isLog ev || isStatusWrite ev) ev3), S4;
          try assumption; try (intros [] ; cbn; congruence).
        assert (configureSyncNeeded f4 = configureSyncNeeded f1) as Q1
          by (rewrite C4, C3; exact C2).
        assert (cancelSyncNeeded f3 = cancelSyncNeeded f1) as Q2
          by (rewrite X3; exact X2).
        rewrite Q1 in S5. rewrite Q2.
        revert X1 S5. generalize (configureSyncNeeded f1) (cancelSyncNeeded f1).
        intros [] []; cbn; intros; try congruence; lia.
  - cbv zeta. unfold inspectConfiguration. rewrite Hc.
    destruct f as [d ni he us cs xs tr]. run_frame. repeat split; auto.
    exists [EvLog LevelWarn (Some err) "Failed to create destination syncmaster client"].
    repeat split. cbn. lia.
Qed.

(** A status write that the store refuses, once in the trace of the
    configuration branch, has raised [hasError] and left its log line. *)
Lemma inspectConfiguration_status_write
    (spec : DeploymentReplicationSpec) (f : Frame)
    (st : DeploymentReplicationStatus) (err : Error) :
  let f' := snd (inspectConfiguration e spec f) in
  In (EvUpdateCRStatus st) (trace f') ->
  storeUpdateStatus e st = Some err ->
  In (EvUpdateCRStatus st) (trace f)
  \/ (hasError f' = true
      /\ In (EvLog LevelWarn (Some err) "Failed to update status") (trace f')).
Proof.
  cbv zeta.
  destruct (createSyncMasterClient e (Destination spec)) as [c | cerr] eqn:Hc.
  - rewrite (inspectConfiguration_unfold spec c f Hc).
    set (f0 := with_cancelSyncNeeded false
                 (with_configureSyncNeeded false (with_updateStatusNeeded false f))).
    destruct (inspectDestination_step spec c f0) as (_ & _ & _ & (ev1 & T1 & D1)).
    set (f1 := snd (inspectDestination e spec c f0)) in *.
    destruct (inspectSource_frame spec f1) as (ev2 & E2 & D2).
    rewrite E2. cbn [snd].
    set (f2 := with_trace (trace f1 ++ ev2) f1).
    assert (back : In (EvUpdateCRStatus st) (trace f2) -> In (EvUpdateCRStatus st) (trace f)).
    { intros Hin. change (trace f2) with (trace f1 ++ ev2) in Hin.
      apply (In_before isDiagnostic) in Hin; [ | exact D2 | reflexivity ].
      rewrite T1 in Hin.
      apply (In_before isDiagnostic) in Hin; [ exact Hin | exact D1 | reflexivity ]. }
    pose proof (updateStatusIfNeeded_cases f2) as K. cbv zeta in K.
    set (f3 := snd (updateStatusIfNeeded e f2)) in *.
    destruct (cancelSyncIfNeeded_step c f3) as (_ & _ & H4 & _ & (ev4 & T4 & D4 & _)).
    set (f4 := snd (cancelSyncIfNeeded e c f3)) in *.
    destruct (configureSyncIfNeeded_step spec c f4) as (_ & _ & H5 & _ & (ev5 & T5 & D5 & _)).
    set (f5 := snd (configureSyncIfNeeded e spec c f4)) in *.
    intros Hin W.
    rewrite T5 in Hin.
    apply (In_before (fun ev => isLog ev || isSynchronize ev)) in Hin;
      [ | exact D5 | reflexivity ].
    rewrite T4 in Hin.
    apply (In_before (fun ev => isLog ev || isCancel ev)) in Hin;
      [ | exact D4 | reflexivity ].
    destruct K as [(_ & K) | [(_ & W' & K) | (err' & _ & W' & K)]]; rewrite K in Hin.
    + left. apply back. exact Hin.
    + cbn [trace with_trace] in Hin. apply in_app_or in Hin.
      destruct Hin as [Hin | [Heq | []]]; [ left; apply back; exact Hin | ].
      injection Heq as Hst.
      assert (storeUpdateStatus e st = None) as W'' by (rewrite <- Hst; exact W').
      congruence.
    + cbn [trace with_trace with_hasError] in Hin. apply in_app_or in Hin.
      destruct Hin as [Hin | [Heq | [Heq | []]]];
        [ left; apply back; exact Hin | | discriminate Heq ].
      injection Heq as Hst.
      assert (storeUpdateStatus e st = Some err') as W'' by (rewrite <- Hst; exact W').
      assert (err' = err) as -> by congruence.
      right. split.
      * apply H5, H4. rewrite K. reflexivity.
      * rewrite T5, T4, K. cbn [trace with_trace with_hasError].
        apply in_or_app. left. apply in_or_app. left.
        apply in_or_app. right. right. left. reflexivity.
  - unfold inspectConfiguration. rewrite Hc.
    unfold log, emit, modify, with_trace. cbn [snd trace].
    intros Hin _. left.
    apply (In_before isLog) in Hin; [ exact Hin | reflexivity | reflexivity ].
Qed.

(** *** Lines 59-66: the deletion branch *)

Lemma inspectActions_terminating (spec : DeploymentReplicationSpec) (f : Frame) (t : Z) :
  DeletionTimestamp (apiObject (dr f)) = Some t ->
  let f' := snd (inspectActions e spec f) in
  Spec (apiObject (dr f')) = Spec (apiObject (dr f))
  /\ DeletionTimestamp (apiObject (dr f')) = Some t
  /\ status (dr f') = status (dr f)
  /\ recentInspectionErrors (dr f') = recentInspectionErrors (dr f)
  /\ nextInterval f' = nextInterval f
  /\ sameFlags f f'
  /\ advances (fun ev => isLog ev || isFinalizerEvent ev) f f'.
Proof.
  unfold inspectActions, runFinalizers, sameFlags, advances.
  destruct f as [[[sp del fin] st n] ni he us cs xs tr]. cbn [dr apiObject DeletionTimestamp].
  intros ->. run_frame. cbn [apiObject DeletionTimestamp].
  destruct (finalizerCleanup e _) as [within [err |]]; run_frame.
  - repeat split. trace_ext.
  - destruct (storePersistFinalizers e _); run_frame; repeat split; trace_ext.
Qed.

(** *** Lines 59-180 *)

Lemma inspectActions_step (spec : DeploymentReplicationSpec) (f : Frame) :
  let f' := snd (inspectActions e spec f) in
  Spec (apiObject (dr f')) = Spec (apiObject (dr f))
  /\ DeletionTimestamp (apiObject (dr f')) = DeletionTimestamp (apiObject (dr f))
  /\ Phase (status (dr f')) = Phase (status (dr f))
  /\ recentInspectionErrors (dr f') = recentInspectionErrors (dr f)
  /\ (nextInterval f' = nextInterval f \/ nextInterval f' = Second * 10)
  /\ (configureSyncNeeded f && cancelSyncNeeded f = false ->
      configureSyncNeeded f' && cancelSyncNeeded f' = false)
  /\ exists evs, trace f' = trace f ++ evs /\ (syncCalls evs <= 1)%nat.
Proof.
  destruct (DeletionTimestamp (apiObject (dr f))) as [t |] eqn:Hdel.
  - destruct (inspectActions_terminating spec f t Hdel)
      as (A & B & C & D & N & (F1 & F2) & (evs & T & P)).
    cbv zeta. repeat split; auto.
    + rewrite C. reflexivity.
    + rewrite F1, F2. auto.
    + exists evs. split; [ exact T | ].
      rewrite (syncCalls_none (fun ev => isLog ev || isFinalizerEvent ev) evs); auto.
      intros []; cbn; congruence.
  - assert (E : snd (inspectActions e spec f) = snd (inspectConfiguration e spec f)).
    { unfold inspectActions, bind, gets. cbn [fst snd]. rewrite Hdel. reflexivity. }
    cbv zeta. rewrite E.
    destruct (inspectConfiguration_step spec f) as ((O1 & O2 & O3) & N & X & (evs & T & _ & S)).
    repeat split; auto.
    + rewrite O1. reflexivity.
    + rewrite O1. exact Hdel.
    + exists evs. auto.
Qed.

(** *** Lines 182-193 *)

Lemma updateNextInterval_eq (f : Frame) :
  snd (updateNextInterval e f)
  = with_nextInterval
      (Z.min (if hasError f && (recentInspectionErrors (dr f) =? 0)
              then minInspectionInterval e else nextInterval f)
             (maxInspectionInterval e))
      (with_dr {| apiObject := apiObject (dr f); status := status (dr f);
                  recentInspectionErrors :=
                    if hasError f
                    then (if recentInspectionErrors (dr f) =? 0 then 1
                          else recentInspectionErrors (dr f))
                    else 0 |} f).
Proof.
  unfold updateNextInterval, setRecentInspectionErrors.
  destruct f as [[obj st n] ni he us cs xs tr].
  run. destruct he; run.
  - destruct (n =? 0) eqn:Hn; run.
    + apply Z.eqb_eq in Hn. subst n.
      destruct (Z.gtb_spec (minInspectionInterval e) (maxInspectionInterval e));
        cbn; unfold with_nextInterval, with_dr; cbn; f_equal; lia.
    + destruct (Z.gtb_spec ni (maxInspectionInterval e));
        cbn; unfold with_nextInterval, with_dr; cbn; f_equal; lia.
  - destruct (Z.gtb_spec ni (maxInspectionInterval e));
      cbn; unfold with_nextInterval, with_dr; cbn; f_equal; lia.
Qed.

(** *** The trace is write-only

    No block reads the trace: two frames that differ in their traces
    only are taken to frames that differ in their traces only. *)

Lemma updateStatusIfNeeded_trace_blind (f g : Frame) :
  with_trace [] f = with_trace [] g ->
  with_trace [] (snd (updateStatusIfNeeded e f))
  = with_trace [] (snd (updateStatusIfNeeded e g)).
Proof.
  destruct f as [d ni he us cs xs tr], g as [d' ni' he' us' cs' xs' tr'].
  unfold with_trace at 1 2. cbn. intros H. injection H as -> -> -> -> -> ->.
  unfold updateStatusIfNeeded, updateCRStatus. run.
  destruct us'; run; [ | reflexivity ].
  destruct (storeUpdateStatus e (status d')); reflexivity.
Qed.

Lemma cancelSyncIfNeeded_trace_blind (c : Client) (f g : Frame) :
  with_trace [] f = with_trace [] g ->
  with_trace [] (snd (cancelSyncIfNeeded e c f))
  = with_trace [] (snd (cancelSyncIfNeeded e c g)).
Proof.
  destruct f as [d ni he us cs xs tr], g as [d' ni' he' us' cs' xs' tr'].
  unfold with_trace at 1 2. cbn. intros H. injection H as -> -> -> -> -> ->.
  unfold cancelSyncIfNeeded, masterCancelSynchronization. run.
  destruct xs'; run; [ | reflexivity ].
  destruct (MasterCancelSynchronization e c EmptyCancelRequest); reflexivity.
Qed.

Lemma configureSyncIfNeeded_trace_blind
    (spec : DeploymentReplicationSpec) (c : Client) (f g : Frame) :
  with_trace [] f = with_trace [] g ->
  with_trace [] (snd (configureSyncIfNeeded e spec c f))
  = with_trace [] (snd (configureSyncIfNeeded e spec c g)).
Proof.
  destruct f as [d ni he us cs xs tr], g as [d' ni' he' us' cs' xs' tr'].
  unfold with_trace at 1 2. cbn. intros H. injection H as -> -> -> -> -> ->.
  unfold configureSyncIfNeeded, masterSynchronize. run.
  destruct cs'; run; [ | reflexivity ].
  destruct (createArangoSyncEndpoint e (Source spec)); run; [ | reflexivity ].
  destruct (createArangoSyncTLSAuthentication e spec); run; [ | reflexivity ].
  destruct (MasterSynchronize e c _); reflexivity.
Qed.

Lemma updateNextInterval_trace_blind (f g : Frame) :
  with_trace [] f = with_trace [] g ->
  with_trace [] (snd (updateNextInterval e f))
  = with_trace [] (snd (updateNextInterval e g)).
Proof.
  destruct f as [d ni he us cs xs tr], g as [d' ni' he' us' cs' xs' tr'].
  unfold with_trace at 1 2. cbn. intros H. injection H as -> -> -> -> -> ->.
  rewrite !updateNextInterval_eq. reflexivity.
Qed.

(** *** The whole function *)

Lemma inspect_failed (d : DeploymentReplication) (lastInterval : Duration) :
  Phase (status d) = DeploymentReplicationPhaseFailed ->
  inspect e d lastInterval
  = let f0 := snd (prologue e lastInterval (initFrame d)) in
    (lastInterval,
     with_trace (trace f0 ++ [EvLog LevelDebug None "Deployment replication is in Failed state."])
       f0).
Proof.
  intros H. destruct (prologue_frame d lastInterval) as (_ & _ & _ & St & _ & N & _).
  unfold inspect, inspectDeploymentReplication.
  unfold bind at 1. unfold bind at 1. unfold gets at 1. cbn [fst snd].
  rewrite St, H. cbn [phase_eqb]. unfold bind, log, emit, modify, gets. cbn [fst snd].
  cbv zeta. f_equal. exact N.
Qed.

Lemma inspect_not_failed (d : DeploymentReplication) (lastInterval : Duration) :
  Phase (status d) <> DeploymentReplicationPhaseFailed ->
  inspect e d lastInterval
  = let f := snd (updateNextInterval e (computed e d lastInterval)) in
    (nextInterval f, f).
Proof.
  intros H. destruct (prologue_frame d lastInterval) as (_ & _ & _ & St & _).
  unfold inspect, inspectDeploymentReplication, computed.
  unfold bind at 1. unfold bind at 1. unfold gets at 1. cbn [fst snd].
  rewrite St. destruct (Phase (status d)); [ | congruence ].
  cbn [phase_eqb]. reflexivity.
Qed.

(** What the actions of one inspection leave behind, relative to the
    object the inspection started from. *)
Lemma computed_frame (d : DeploymentReplication) (lastInterval : Duration) :
  let f := computed e d lastInterval in
  Spec (apiObject (dr f)) = Spec (apiObject d)
  /\ DeletionTimestamp (apiObject (dr f)) = DeletionTimestamp (apiObject d)
  /\ Phase (status (dr f)) = Phase (status d)
  /\ recentInspectionErrors (dr f) = recentInspectionErrors d
  /\ (nextInterval f = lastInterval \/ nextInterval f = Second * 10)
  /\ configureSyncNeeded f && cancelSyncNeeded f = false
  /\ (syncCalls (trace f) <= 1)%nat.
Proof.
  destruct (prologue_frame d lastInterval) as (Sp & A & B & C & D & N & H & T & F1 & F2).
  set (f0 := snd (prologue e lastInterval (initFrame d))) in *.
  assert (E : computed e d lastInterval
              = snd (inspectActions e (fst (prologue e lastInterval (initFrame d))) f0))
    by reflexivity.
  cbv zeta. rewrite E.
  destruct (inspectActions_step (fst (prologue e lastInterval (initFrame d))) f0)
    as (A' & B' & C' & D' & N' & X' & (evs & T' & S')).
  split; [ congruence | ].
  split; [ congruence | ].
  split; [ rewrite C', C; reflexivity | ].
  split; [ congruence | ].
  split; [ rewrite N in N'; exact N' | ].
  split; [ apply X'; rewrite F1; reflexivity | ].
  rewrite T', syncCalls_app.
  rewrite (syncCalls_none (fun ev => isLog ev || isFinalizerWrite ev) (trace f0)); auto.
  intros []; cbn; congruence.
Qed.

Lemma phase_cases (d : DeploymentReplication) :
  Phase (status d) = DeploymentReplicationPhaseFailed
  \/ Phase (status d) <> DeploymentReplicationPhaseFailed.
Proof. destruct (Phase (status d)); [ right; discriminate | left; reflexivity ]. Qed.

(** With the marker in place, or when terminating, "Add finalizers"
    does nothing. *)
Lemma prologue_settled (d : DeploymentReplication) (lastInterval : Duration) :
  DeletionTimestamp (apiObject d) <> None
  \/ existsb (String.eqb FinalizerDeplReplStopSync) (Finalizers (apiObject d)) = true ->
  snd (prologue e lastInterval (initFrame d)) = with_nextInterval lastInterval (initFrame d).
Proof.
  unfold prologue, addFinalizers. destruct d as [[sp del fin] st n]. run.
  intros [H | H].
  - destruct del; [ reflexivity | congruence ].
  - destruct del; [ reflexivity | ]. run. rewrite H. reflexivity.
Qed.

(** Without the marker, "Add finalizers" writes it; a refused write is
    logged and changes no local. *)
Lemma prologue_write_fails (d : DeploymentReplication) (lastInterval : Duration) (err : Error) :
  DeletionTimestamp (apiObject d) = None ->
  existsb (String.eqb FinalizerDeplReplStopSync) (Finalizers (apiObject d)) = false ->
  storePersistFinalizers e (Finalizers (apiObject d) ++ [FinalizerDeplReplStopSync]) = Some err ->
  let f0 := snd (prologue e lastInterval (initFrame d)) in
  trace f0 = [EvPersistFinalizers (Finalizers (apiObject d) ++ [FinalizerDeplReplStopSync]);
              EvLog LevelWarn (Some err) "Failed to add finalizers"]
  /\ hasError f0 = false
  /\ nextInterval f0 = lastInterval.
Proof.
  unfold prologue, addFinalizers. destruct d as [[sp del fin] st n]. run.
  intros -> Hm Hw. run. rewrite Hm. run. rewrite Hw. run. repeat split.
Qed.

(** The trace of an inspection starts with what "Add finalizers" left. *)
Lemma inspect_trace_prefix (d : DeploymentReplication) (lastInterval : Duration) :
  exists evs,
    trace (snd (inspect e d lastInterval))
    = trace (snd (prologue e lastInterval (initFrame d))) ++ evs.
Proof.
  destruct (phase_cases d) as [Hf | Hf].
  - rewrite (inspect_failed d lastInterval Hf). cbv zeta. cbn [snd].
    eexists. reflexivity.
  - rewrite (inspect_not_failed d lastInterval Hf). cbv zeta. cbn [snd].
    rewrite updateNextInterval_eq. unfold with_nextInterval, with_dr. cbn [trace].
    change (computed e d lastInterval)
      with (snd (inspectActions e (fst (prologue e lastInterval (initFrame d)))
                   (snd (prologue e lastInterval (initFrame d))))).
    destruct (inspectActions_step (fst (prologue e lastInterval (initFrame d)))
                (snd (prologue e lastInterval (initFrame d))))
      as (_ & _ & _ & _ & _ & _ & (evs & T & _)).
    exists evs. exact T.
Qed.

Lemma computed_configuration (d : DeploymentReplication) (lastInterval : Duration) :
  DeletionTimestamp (apiObject d) = None ->
  computed e d lastInterval
  = snd (inspectConfiguration e (Spec (apiObject d))
           (snd (prologue e lastInterval (initFrame d)))).
Proof.
  intros H. destruct (prologue_frame d lastInterval) as (Sp & _ & B & _).
  unfold computed. unfold bind at 1. rewrite Sp.
  unfold inspectActions. unfold bind, gets. cbn [fst snd]. rewrite B, H. reflexivity.
Qed.

Lemma computed_terminating (d : DeploymentReplication) (lastInterval : Duration) (t : Z) :
  DeletionTimestamp (apiObject d) = Some t ->
  forallb (fun ev => isLog ev || isFinalizerEvent ev)
    (trace (computed e d lastInterval)) = true.
Proof.
  intros H. destruct (prologue_frame d lastInterval) as (_ & _ & B & _ & _ & _ & _ & T & _).
  set (f0 := snd (prologue e lastInterval (initFrame d))) in *.
  rewrite H in B.
  destruct (inspectActions_terminating (fst (prologue e lastInterval (initFrame d))) f0 t B)
    as (_ & _ & _ & _ & _ & _ & (evs & T' & P)).
  change (computed e d lastInterval)
    with (snd (inspectActions e (fst (prologue e lastInterval (initFrame d))) f0)).
  rewrite T', forallb_app, P, andb_true_r.
  rewrite forallb_forall in *. intros ev Hev. specialize (T ev Hev).
  destruct ev; cbn in *; congruence.
Qed.


(** When terminating, the deletion branch puts the run of the cleanup
    callbacks first in the trace; what follows is the write of the
    remaining markers and at most one warning. *)
Lemma computed_terminating_trace
    (d : DeploymentReplication) (lastInterval : Duration) (t : Z) :
  DeletionTimestamp (apiObject d) = Some t ->
  exists evs,
    trace (computed e d lastInterval)
    = EvFinalizerCleanup (fst (finalizerCleanup e (apiObject d))) :: evs
    /\ forallb (fun ev => isLog ev || isFinalizerWrite ev) evs = true.
Proof.
  intros H.
  assert (Hn : DeletionTimestamp (apiObject d) <> None) by congruence.
  unfold computed. unfold bind at 1.
  rewrite (prologue_settled d lastInterval (or_introl Hn)).
  unfold inspectActions, runFinalizers.
  destruct d as [[sp del fin] st n]. cbn [apiObject DeletionTimestamp] in H. subst del.
  run_frame.
  destruct (finalizerCleanup e _) as [within [err |]]; run_frame.
  - eexists. split; reflexivity.
  - destruct (storePersistFinalizers e _); run_frame; eexists; split; reflexivity.
Qed.

End Blocks.

(** ** The specification's claims *)

Section Claims.

Variable e : Env.


(** C3.  In every inspection the flags [configureSyncNeeded] and
    [cancelSyncNeeded] are not both raised, and at most one
    CancelSynchronization or Synchronize call is issued. *)
Theorem configure_cancel_exclusive
    (d : DeploymentReplication) (lastInterval : Duration) :
  let f := snd (inspect e d lastInterval) in
  configureSyncNeeded f && cancelSyncNeeded f = false
  /\ (syncCalls (trace f) <= 1)%nat.
Proof.
  destruct (phase_eqb (Phase (status d)) DeploymentReplicationPhaseFailed) eqn:Hp.
  - assert (Phase (status d) = DeploymentReplicationPhaseFailed) as Hf
      by (destruct (Phase (status d)); [ discriminate | reflexivity ]).
    cbv zeta. rewrite (inspect_failed e d lastInterval Hf).
    cbv zeta. unfold with_trace. cbn [snd trace configureSyncNeeded cancelSyncNeeded].
    destruct (prologue_frame e d lastInterval) as (_ & _ & _ & _ & _ & _ & _ & T & F1 & F2).
    rewrite F1. split; [ reflexivity | ].
    rewrite syncCalls_app.
    rewrite (syncCalls_none (fun ev => isLog ev || isFinalizerWrite ev) _
               ltac:(intros []; cbn; congruence) T).
    cbn. lia.
  - assert (Phase (status d) <> DeploymentReplicationPhaseFailed) as Hf
      by (destruct (Phase (status d)); [ discriminate | discriminate ]).
    cbv zeta. rewrite (inspect_not_failed e d lastInterval Hf). cbn [snd].
    rewrite updateNextInterval_eq.
    unfold with_nextInterval, with_dr. cbn [trace configureSyncNeeded cancelSyncNeeded].
    destruct (computed_frame e d lastInterval) as (_ & _ & _ & _ & _ & X & S).
    split; assumption.
Qed.

(** C5, as the code has it.  For an object that is not in Failed phase
    the returned interval never exceeds [maxInspectionInterval], and it
    is at least [minInspectionInterval] whenever [lastInterval] already
    was (and the bounds are ordered and the minimum is at most ten
    seconds).  For an object in Failed phase [lastInterval] is returned
    as it is. *)
Theorem returned_interval_bounds
    (d : DeploymentReplication) (lastInterval : Duration) :
  let r := fst (inspect e d lastInterval) in
  (Phase (status d) <> DeploymentReplicationPhaseFailed ->
   r <= maxInspectionInterval e
   /\ (minInspectionInterval e <= lastInterval ->
       minInspectionInterval e <= Second * 10 ->
       minInspectionInterval e <= maxInspectionInterval e ->
       minInspectionInterval e <= r))
  /\ (Phase (status d) = DeploymentReplicationPhaseFailed -> r = lastInterval).
Proof.
  cbv zeta. split.
  - intros Hf. rewrite (inspect_not_failed e d lastInterval Hf).
    cbv zeta. cbn [fst]. rewrite updateNextInterval_eq.
    unfold with_nextInterval. cbn [nextInterval].
    destruct (computed_frame e d lastInterval) as (_ & _ & _ & _ & N & _).
    split; [ lia | ]. intros H1 H2 H3.
    destruct (hasError (computed e d lastInterval)
              && (recentInspectionErrors (dr (computed e d lastInterval)) =? 0));
      destruct N as [N | N]; rewrite ?N; lia.
  - intros Hf. rewrite (inspect_failed e d lastInterval Hf). reflexivity.
Qed.

(** C4, as the code has it.  For an object that is not in Failed phase,
    with [c] the frame the actions of the inspection leave at line 181:
    on an error with a streak of zero the inspection returns
    [minInspectionInterval] (capped like every returned value) and the
    streak becomes 1; on an error with a streak already running it
    returns the interval the actions computed, capped, and keeps the
    streak; without error it resets the streak to zero.  An inspection
    of an object in Failed phase returns before this policy: it sets no
    error and leaves the streak as it is. *)
Theorem error_streak_policy
    (d : DeploymentReplication) (lastInterval : Duration) :
  let c := computed e d lastInterval in
  let r := inspect e d lastInterval in
  (Phase (status d) <> DeploymentReplicationPhaseFailed ->
   hasError (snd r) = hasError c
   /\ (hasError c = true -> recentInspectionErrors d = 0 ->
       fst r = Z.min (minInspectionInterval e) (maxInspectionInterval e)
       /\ recentInspectionErrors (dr (snd r)) = 1)
   /\ (hasError c = true -> recentInspectionErrors d <> 0 ->
       fst r = Z.min (nextInterval c) (maxInspectionInterval e)
       /\ recentInspectionErrors (dr (snd r)) = recentInspectionErrors d)
   /\ (hasError c = false ->
       fst r = Z.min (nextInterval c) (maxInspectionInterval e)
       /\ recentInspectionErrors (dr (snd r)) = 0))
  /\ (Phase (status d) = DeploymentReplicationPhaseFailed ->
      hasError (snd r) = false
      /\ recentInspectionErrors (dr (snd r)) = recentInspectionErrors d).
Proof.
  cbv zeta. split.
  - intros Hf. rewrite (inspect_not_failed e d lastInterval Hf).
    cbv zeta. cbn [fst snd]. rewrite updateNextInterval_eq.
    unfold with_nextInterval, with_dr.
    cbn [nextInterval hasError dr recentInspectionErrors].
    destruct (computed_frame e d lastInterval) as (_ & _ & _ & S & _).
    rewrite S. split; [ reflexivity | ].
    split; [ | split ].
    + intros H0 H1. rewrite H0, H1. cbn. split; reflexivity.
    + intros H0 H1. rewrite H0. apply Z.eqb_neq in H1. rewrite H1. cbn. split; reflexivity.
    + intros H0. rewrite H0. cbn. split; reflexivity.
  - intros Hf. rewrite (inspect_failed e d lastInterval Hf).
    cbv zeta. unfold with_trace. cbn [snd dr hasError].
    destruct (prologue_frame e d lastInterval) as (_ & _ & _ & _ & D & _ & H & _).
    split; assumption.
Qed.

(** C8, as the code has it.  For an object in Failed phase the
    inspection returns [lastInterval] as it is, leaves the spec, the
    status with its conditions and the error streak alone, reaches no
    syncmaster, writes no status and runs no finalizer cleanup.  What
    still runs, before the phase is looked at, is "Add finalizers":
    only when the marker is already there (or the object is
    terminating) is the receiver left exactly as it was. *)
Theorem failed_phase_short_circuit
    (d : DeploymentReplication) (lastInterval : Duration) :
  Phase (status d) = DeploymentReplicationPhaseFailed ->
  let r := inspect e d lastInterval in
  let f := snd r in
  fst r = lastInterval
  /\ Spec (apiObject (dr f)) = Spec (apiObject d)
  /\ DeletionTimestamp (apiObject (dr f)) = DeletionTimestamp (apiObject d)
  /\ status (dr f) = status d
  /\ recentInspectionErrors (dr f) = recentInspectionErrors d
  /\ hasError f = false
  /\ forallb (fun ev => isLog ev || isFinalizerWrite ev) (trace f) = true
  /\ (DeletionTimestamp (apiObject d) <> None
      \/ existsb (String.eqb FinalizerDeplReplStopSync) (Finalizers (apiObject d)) = true ->
      dr f = d
      /\ trace f = [EvLog LevelDebug None "Deployment replication is in Failed state."]).
Proof.
  intros Hf. cbv zeta. rewrite (inspect_failed e d lastInterval Hf).
  cbv zeta. unfold with_trace. cbn [fst snd dr hasError trace].
  destruct (prologue_frame e d lastInterval) as (_ & A & B & C & D & _ & H & T & _).
  repeat (split; [ assumption || reflexivity | ]).
  split.
  - rewrite forallb_app, T. reflexivity.
  - intros Hm. rewrite (prologue_settled e d lastInterval Hm). split; reflexivity.
Qed.

(** C9.  The inspection of the source (lines 109-129, with
    [hasOutgoingEndpoint]) leaves the receiver with its conditions, the
    flags, [hasError] and [nextInterval] as they are, whatever the
    source answers: all it adds to the run is status reads and log
    lines.  And the steps that follow it (lines 131-193) end with the
    same receiver, the same locals and the same interval as they would
    without it. *)
Theorem source_check_is_diagnostic
    (spec : DeploymentReplicationSpec) (c : Client) (f : Frame) :
  let f' := snd (inspectSource e spec f) in
  let rest g :=
    snd (updateNextInterval e
      (snd (configureSyncIfNeeded e spec c
        (snd (cancelSyncIfNeeded e c
          (snd (updateStatusIfNeeded e g))))))) in
  dr f' = dr f
  /\ hasError f' = hasError f
  /\ nextInterval f' = nextInterval f
  /\ updateStatusNeeded f' = updateStatusNeeded f
  /\ configureSyncNeeded f' = configureSyncNeeded f
  /\ cancelSyncNeeded f' = cancelSyncNeeded f
  /\ (exists evs, trace f' = trace f ++ evs /\ forallb isDiagnostic evs = true)
  /\ with_trace [] (rest f') = with_trace [] (rest f).
Proof.
  destruct (inspectSource_frame e spec f) as (evs & E & D).
  cbv zeta. rewrite E. cbn [snd].
  repeat (split; [ reflexivity | ]).
  split.
  - exists evs. split; [ reflexivity | exact D ].
  - apply updateNextInterval_trace_blind, configureSyncIfNeeded_trace_blind,
      cancelSyncIfNeeded_trace_blind, updateStatusIfNeeded_trace_blind.
    reflexivity.
Qed.

(** C10.  When no client for the destination can be built (phase not
    Failed, no deletion timestamp), the inspection logs the failure and
    does nothing else: the status and its conditions stay, nothing but
    log lines and the marker write of "Add finalizers" leaves the
    function, [hasError] stays false, the streak is reset to zero and
    the returned interval is [lastInterval] capped at
    [maxInspectionInterval]. *)
Theorem dest_client_failure_skips_body
    (d : DeploymentReplication) (lastInterval : Duration) (err : Error) :
  Phase (status d) <> DeploymentReplicationPhaseFailed ->
  DeletionTimestamp (apiObject d) = None ->
  createSyncMasterClient e (Destination (Spec (apiObject d))) = inr err ->
  let r := inspect e d lastInterval in
  let f := snd r in
  hasError f = false
  /\ recentInspectionErrors (dr f) = 0
  /\ fst r = Z.min lastInterval (maxInspectionInterval e)
  /\ status (dr f) = status d
  /\ forallb (fun ev => isLog ev || isFinalizerWrite ev) (trace f) = true
  /\ In (EvLog LevelWarn (Some err) "Failed to create destination syncmaster client")
        (trace f).
Proof.
  intros Hf Hdel Hc. cbv zeta. rewrite (inspect_not_failed e d lastInterval Hf).
  cbv zeta. cbn [fst snd]. rewrite updateNextInterval_eq.
  rewrite (computed_configuration e d lastInterval Hdel).
  destruct (prologue_frame e d lastInterval) as (_ & _ & _ & C & _ & N & H & T & _).
  set (f0 := snd (prologue e lastInterval (initFrame d))) in *.
  unfold inspectConfiguration. rewrite Hc.
  unfold log, emit, modify. frame_simpl.
  rewrite H, N. cbn [andb].
  repeat (split; [ assumption || reflexivity | ]).
  split.
  - rewrite forallb_app, T. reflexivity.
  - apply in_or_app. right. left. reflexivity.
Qed.

(** C1, as the code has it.  When the destination's status cannot be
    fetched (phase not Failed, no deletion timestamp, client built), the
    inspection logs a warning and takes no action: [hasError] stays
    false, the status with its conditions stays, no status is written,
    no cancel or configure call is issued, the streak is reset to zero
    and the returned interval is [lastInterval] capped at
    [maxInspectionInterval]. *)
Theorem dest_fetch_failure_only_logged
    (d : DeploymentReplication) (lastInterval : Duration) (c : Client) (err : Error) :
  Phase (status d) <> DeploymentReplicationPhaseFailed ->
  DeletionTimestamp (apiObject d) = None ->
  createSyncMasterClient e (Destination (Spec (apiObject d))) = inl c ->
  snd (MasterStatus e c) = Some err ->
  let r := inspect e d lastInterval in
  let f := snd r in
  hasError f = false
  /\ recentInspectionErrors (dr f) = 0
  /\ fst r = Z.min lastInterval (maxInspectionInterval e)
  /\ status (dr f) = status d
  /\ (forall ev, In ev (trace f) -> isSyncCall ev = false /\ isStatusWrite ev = false)
  /\ In (EvLog LevelWarn (Some err) "Failed to fetch status from destination syncmaster")
        (trace f).
Proof.
  intros Hf Hdel Hc Hs. cbv zeta. rewrite (inspect_not_failed e d lastInterval Hf).
  cbv zeta. cbn [fst snd]. rewrite updateNextInterval_eq.
  rewrite (computed_configuration e d lastInterval Hdel).
  destruct (prologue_frame e d lastInterval) as (_ & _ & _ & C & _ & N & H & T & _).
  set (f0 := snd (prologue e lastInterval (initFrame d))) in *.
  rewrite (inspectConfiguration_unfold e _ c f0 Hc).
  rewrite (inspectDestination_unreachable e _ c _ err Hs).
  match goal with
  | |- context [inspectSource e ?sp ?g] =>
      destruct (inspectSource_frame e sp g) as (evs & E & D); rewrite E
  end.
  cbn [snd].
  rewrite updateStatusIfNeeded_skip by reflexivity.
  rewrite cancelSyncIfNeeded_skip by reflexivity.
  rewrite configureSyncIfNeeded_skip by reflexivity.
  frame_simpl.
  rewrite H, N, C. cbn [andb].
  repeat (split; [ reflexivity | ]).
  split.
  - intros ev Hin. rewrite <- app_assoc in Hin. apply in_app_or in Hin.
    rewrite forallb_forall in T, D.
    destruct Hin as [Hin | Hin].
    + specialize (T ev Hin). destruct ev; cbn in *; split; congruence.
    + apply in_app_or in Hin. destruct Hin as [[<- | [<- | []]] | Hin]; try (split; reflexivity).
      specialize (D ev Hin). destruct ev; cbn in *; split; congruence.
  - apply in_or_app. left. apply in_or_app. right. right. left. reflexivity.
Qed.

(** C7, as the code has it.  A status write that the store refuses is
    logged and raises [hasError].  A refused write of the finalizer
    marker in "Add finalizers" is logged and nothing more: after lines
    48-51 [hasError] is false and [nextInterval] is [lastInterval], as
    after a successful write. *)
Theorem persistence_failures
    (d : DeploymentReplication) (lastInterval : Duration) :
  let f := snd (inspect e d lastInterval) in
  (forall st err,
      In (EvUpdateCRStatus st) (trace f) ->
      storeUpdateStatus e st = Some err ->
      hasError f = true
      /\ In (EvLog LevelWarn (Some err) "Failed to update status") (trace f))
  /\ (forall err,
        DeletionTimestamp (apiObject d) = None ->
        existsb (String.eqb FinalizerDeplReplStopSync) (Finalizers (apiObject d)) = false ->
        storePersistFinalizers e (Finalizers (apiObject d) ++ [FinalizerDeplReplStopSync])
        = Some err ->
        let f0 := snd (prologue e lastInterval (initFrame d)) in
        In (EvLog LevelWarn (Some err) "Failed to add finalizers") (trace f)
        /\ hasError f0 = false
        /\ nextInterval f0 = lastInterval).
Proof.
  cbv zeta. split.
  - intros st err Hin W.
    destruct (prologue_frame e d lastInterval) as (_ & _ & _ & _ & _ & _ & _ & T & _).
    assert (fresh0 : ~ In (EvUpdateCRStatus st)
                       (trace (snd (prologue e lastInterval (initFrame d))))).
    { intros Hin0. rewrite forallb_forall in T. specialize (T _ Hin0). discriminate T. }
    destruct (phase_cases d) as [Hf | Hf].
    + rewrite (inspect_failed e d lastInterval Hf) in Hin. cbv zeta in Hin.
      frame_simpl in Hin.
      apply (In_before isLog) in Hin; [ contradiction | reflexivity | reflexivity ].
    + rewrite (inspect_not_failed e d lastInterval Hf) in *. cbv zeta in *.
      cbn [snd] in *. rewrite updateNextInterval_eq in *.
      frame_simpl. frame_simpl in Hin.
      destruct (DeletionTimestamp (apiObject d)) as [t |] eqn:Hdel.
      * pose proof (computed_terminating e d lastInterval t Hdel) as P.
        rewrite forallb_forall in P. specialize (P _ Hin). discriminate P.
      * rewrite (computed_configuration e d lastInterval Hdel) in *.
        destruct (inspectConfiguration_status_write e _ _ st err Hin W) as [Hin0 | R];
          [ contradiction | exact R ].
  - intros err Hdel Hm Hw.
    destruct (prologue_write_fails e d lastInterval err Hdel Hm Hw) as (T & H & N).
    split; [ | split; assumption ].
    destruct (inspect_trace_prefix e d lastInterval) as (evs & E).
    rewrite E, T. apply in_or_app. left. right. left. reflexivity.
Qed.

(** C6, as the code has it.  When the destination's status is fetched
    and shows it inactive (phase not Failed, no deletion timestamp), the
    inspection records Configured=false/"Inactive" and raises
    [configureSyncNeeded] only; the status is written if the condition
    changed.  If the source endpoint and the TLS authentication can be
    derived from the spec, a Synchronize call naming them is issued on
    the destination client.  If that call succeeds, [hasError] is set
    exactly when the status write failed, and the returned interval is
    ten seconds, or [minInspectionInterval] when the status write failed
    with a streak of zero, in both cases capped at
    [maxInspectionInterval]. *)
Theorem configure_when_inactive
    (d : DeploymentReplication) (lastInterval : Duration) (c : Client) (info : SyncInfo) :
  Phase (status d) <> DeploymentReplicationPhaseFailed ->
  DeletionTimestamp (apiObject d) = None ->
  createSyncMasterClient e (Destination (Spec (apiObject d))) = inl c ->
  MasterStatus e c = (info, None) ->
  IsActive e (SStatus info) = false ->
  let r := inspect e d lastInterval in
  let f := snd r in
  let u := Update (Conditions (status d)) configuredInactive in
  let st' := {| Phase := Phase (status d); Conditions := fst u |} in
  let writeFailed :=
    snd u && match storeUpdateStatus e st' with Some _ => true | None => false end in
  status (dr f) = st'
  /\ configureSyncNeeded f = true
  /\ cancelSyncNeeded f = false
  /\ (snd u = true -> In (EvUpdateCRStatus st') (trace f))
  /\ forall source auth,
       createArangoSyncEndpoint e (Source (Spec (apiObject d))) = inl source ->
       createArangoSyncTLSAuthentication e (Spec (apiObject d)) = inl auth ->
       let req := {| ReqSource := source; ReqAuthentication := auth |} in
       In (EvSynchronize c req) (trace f)
       /\ (MasterSynchronize e c req = None ->
           hasError f = writeFailed
           /\ fst r = Z.min (if writeFailed && (recentInspectionErrors d =? 0)
                             then minInspectionInterval e else Second * 10)
                            (maxInspectionInterval e)).
Proof.
  intros Hf Hdel Hc Hs Ha. cbv zeta. rewrite (inspect_not_failed e d lastInterval Hf).
  cbv zeta. cbn [fst snd]. rewrite updateNextInterval_eq.
  rewrite (computed_configuration e d lastInterval Hdel).
  destruct (prologue_frame e d lastInterval) as (_ & _ & _ & C & S & N & H & T & _).
  set (f0 := snd (prologue e lastInterval (initFrame d))) in *.
  rewrite (inspectConfiguration_unfold e _ c f0 Hc).
  rewrite (inspectDestination_inactive e _ c _ info Hs Ha). cbv zeta.
  frame_simpl. rewrite C, S, N, H.
  set (u := Update (Conditions (status d)) configuredInactive).
  set (st' := {| Phase := Phase (status d); Conditions := fst u |}).
  match goal with
  | |- context [inspectSource e ?sp ?g] =>
      destruct (inspectSource_frame e sp g) as (evs & E & D); rewrite E
  end.
  frame_simpl.
  match goal with
  | |- context [updateStatusIfNeeded e ?g] =>
      pose proof (updateStatusIfNeeded_cases e g) as K; cbv zeta in K;
      frame_simpl in K;
      set (f3 := snd (updateStatusIfNeeded e g)) in *
  end.
  assert (X3 : cancelSyncNeeded f3 = false /\ configureSyncNeeded f3 = true
               /\ status (dr f3) = st' /\ nextInterval f3 = lastInterval
               /\ recentInspectionErrors (dr f3) = recentInspectionErrors d
               /\ hasError f3
                  = snd u && match storeUpdateStatus e st' with
                             | Some _ => true | None => false end
               /\ (snd u = true -> In (EvUpdateCRStatus st') (trace f3))).
  { destruct K as [(U & K) | [(U & W & K) | (err & U & W & K)]]; rewrite K; frame_simpl.
    - destruct (snd u); [ discriminate U | ].
      repeat split. intros Hu. discriminate Hu.
    - rewrite W. rewrite andb_false_r. repeat split.
      intros _. apply in_or_app. right. left. reflexivity.
    - rewrite W. destruct (snd u); [ | discriminate U ].
      repeat split. intros _. apply in_or_app. right. left. reflexivity. }
  destruct X3 as (X & Cf & St & Ni & Sk & He & Wr).
  rewrite (cancelSyncIfNeeded_skip e c f3 X).
  destruct (configureSyncIfNeeded_step e (Spec (apiObject d)) c f3)
    as (O5 & (C5 & X5) & _ & _ & (ev5 & T5 & _)).
  rewrite O5, C5, X5.
  split; [ exact St | ]. split; [ exact Cf | ]. split; [ exact X | ].
  split; [ intros Hu; rewrite T5; apply in_or_app; left; apply Wr; exact Hu | ].
  intros source auth Hsrc Hauth.
  pose proof (configureSyncIfNeeded_issues e (Spec (apiObject d)) c f3 source auth
                Cf Hsrc Hauth) as R.
  cbv zeta in R. rewrite R.
  destruct (MasterSynchronize e c _) as [serr |]; frame_simpl.
  - split; [ | discriminate ].
    apply in_or_app. right. right. left. reflexivity.
  - split.
    + apply in_or_app. right. right. left. reflexivity.
    + intros _. rewrite He, Sk. split; reflexivity.
Qed.

End Claims.

(** ** The claims on concrete runs *)

(** C1: the destination's status cannot be fetched, the streak is
    zero; the inspection raises no error, keeps the streak at zero and
    returns the thirty seconds it was given, not the minimum. *)
Lemma dest_fetch_failure_counterexample :
  Phase (status settled) <> DeploymentReplicationPhaseFailed
  /\ DeletionTimestamp (apiObject settled) = None
  /\ recentInspectionErrors settled = 0
  /\ createSyncMasterClient destUnreachable (Destination (Spec (apiObject settled)))
     = inl dstClient
  /\ snd (MasterStatus destUnreachable dstClient) = Some "connection refused"
  /\ let r := inspect destUnreachable settled (30 * Second) in
     hasError (snd r) = false
     /\ fst r <> minInspectionInterval destUnreachable
     /\ recentInspectionErrors (dr (snd r)) <> 1.
Proof.
  repeat split; try reflexivity; try discriminate.
Qed.

Lemma dest_fetch_failure_only_logged_witness :
  Phase (status settled) <> DeploymentReplicationPhaseFailed
  /\ DeletionTimestamp (apiObject settled) = None
  /\ createSyncMasterClient destUnreachable (Destination (Spec (apiObject settled)))
     = inl dstClient
  /\ snd (MasterStatus destUnreachable dstClient) = Some "connection refused"
  /\ let r := inspect destUnreachable settled (30 * Second) in
     hasError (snd r) = false
     /\ recentInspectionErrors (dr (snd r)) = 0
     /\ fst r = 30 * Second.
Proof.
  cbv zeta.
  assert (H1 : Phase (status settled) <> DeploymentReplicationPhaseFailed) by discriminate.
  assert (H2 : DeletionTimestamp (apiObject settled) = None) by reflexivity.
  assert (H3 : createSyncMasterClient destUnreachable (Destination (Spec (apiObject settled)))
               = inl dstClient) by reflexivity.
  assert (H4 : snd (MasterStatus destUnreachable dstClient) = Some "connection refused")
    by reflexivity.
  split; [ exact H1 | ]. split; [ exact H2 | ]. split; [ exact H3 | ]. split; [ exact H4 | ].
  destruct (dest_fetch_failure_only_logged destUnreachable settled (30 * Second)
              dstClient "connection refused" H1 H2 H3 H4) as (A & B & C & _).
  split; [ exact A | ]. split; [ exact B | exact C ].
Defined.



(** C4: a failed object with a streak of one is inspected without
    error and keeps its streak; and an erring inspection with a streak
    running, given two minutes, returns the one-minute cap, not the two
    minutes its actions left. *)
Lemma error_streak_counterexample :
  (let r := inspect healthy failedErring (30 * Second) in
   hasError (snd r) = false /\ recentInspectionErrors (dr (snd r)) <> 0)
  /\ (let r := inspect inactiveSyncFails erring (120 * Second) in
      hasError (snd r) = true
      /\ recentInspectionErrors erring <> 0
      /\ fst r <> nextInterval (computed inactiveSyncFails erring (120 * Second))).
Proof.
  repeat split; try reflexivity; try discriminate.
Qed.

Lemma error_streak_policy_witness :
  (Phase (status fresh) <> DeploymentReplicationPhaseFailed
   /\ hasError (computed inactiveStatusWriteFails fresh (30 * Second)) = true
   /\ recentInspectionErrors fresh = 0
   /\ let r := inspect inactiveStatusWriteFails fresh (30 * Second) in
      fst r = Second /\ recentInspectionErrors (dr (snd r)) = 1)
  /\ (Phase (status failedErring) = DeploymentReplicationPhaseFailed
      /\ let r := inspect healthy failedErring (30 * Second) in
         hasError (snd r) = false /\ recentInspectionErrors (dr (snd r)) = 1).
Proof.
  cbv zeta.
  assert (H1 : Phase (status fresh) <> DeploymentReplicationPhaseFailed) by discriminate.
  assert (H2 : hasError (computed inactiveStatusWriteFails fresh (30 * Second)) = true)
    by reflexivity.
  assert (H3 : recentInspectionErrors fresh = 0) by reflexivity.
  assert (H4 : Phase (status failedErring) = DeploymentReplicationPhaseFailed)
    by reflexivity.
  split.
  - split; [ exact H1 | ]. split; [ exact H2 | ]. split; [ exact H3 | ].
    destruct (error_streak_policy inactiveStatusWriteFails fresh (30 * Second))
      as (P & _).
    destruct (P H1) as (_ & A & _).
    exact (A H2 H3).
  - split; [ exact H4 | ].
    destruct (error_streak_policy healthy failedErring (30 * Second)) as (_ & Q).
    exact (Q H4).
Defined.

(** C5: given a [lastInterval] of zero, a healthy inspection returns
    zero, below the minimum; and a failed object given ninety seconds
    gets them back, above the maximum. *)
Lemma returned_interval_counterexample :
  Phase (status settled) <> DeploymentReplicationPhaseFailed
  /\ fst (inspect healthy settled 0) < minInspectionInterval healthy
  /\ fst (inspect healthy failedFresh (90 * Second)) > maxInspectionInterval healthy.
Proof.
  repeat split; try reflexivity; discriminate.
Qed.

Lemma returned_interval_bounds_witness :
  (Phase (status settled) <> DeploymentReplicationPhaseFailed
   /\ minInspectionInterval misdirected <= 30 * Second
   /\ minInspectionInterval misdirected <= Second * 10
   /\ minInspectionInterval misdirected <= maxInspectionInterval misdirected
   /\ let r := fst (inspect misdirected settled (30 * Second)) in
      r <= maxInspectionInterval misdirected /\ minInspectionInterval misdirected <= r)
  /\ (Phase (status failedErring) = DeploymentReplicationPhaseFailed
      /\ fst (inspect misdirected failedErring (90 * Second)) = 90 * Second).
Proof.
  cbv zeta.
  assert (H1 : Phase (status settled) <> DeploymentReplicationPhaseFailed) by discriminate.
  assert (H2 : minInspectionInterval misdirected <= 30 * Second) by discriminate.
  assert (H3 : minInspectionInterval misdirected <= Second * 10) by discriminate.
  assert (H4 : minInspectionInterval misdirected <= maxInspectionInterval misdirected)
    by discriminate.
  assert (H5 : Phase (status failedErring) = DeploymentReplicationPhaseFailed)
    by reflexivity.
  split.
  - split; [ exact H1 | ]. split; [ exact H2 | ]. split; [ exact H3 | ].
    split; [ exact H4 | ].
    destruct (returned_interval_bounds misdirected settled (30 * Second)) as (P & _).
    destruct (P H1) as (A & B).
    split; [ exact A | exact (B H2 H3 H4) ].
  - split; [ exact H5 | ].
    destruct (returned_interval_bounds misdirected failedErring (90 * Second)) as (_ & Q).
    exact (Q H5).
Defined.

(** C6: the destination is inactive, the configure call is issued and
    succeeds, but the status write of the same inspection fails with a
    streak of zero: the inspection returns the minimum of one second,
    not ten seconds. *)
Lemma configure_when_inactive_counterexample :
  let req := {| ReqSource := ["https://src:8629"];
                ReqAuthentication := TLSAuth "client-cert" |} in
  let r := inspect inactiveStatusWriteFails fresh (30 * Second) in
  Phase (status fresh) <> DeploymentReplicationPhaseFailed
  /\ DeletionTimestamp (apiObject fresh) = None
  /\ MasterStatus inactiveStatusWriteFails dstClient = (inactiveInfo, None)
  /\ IsActive inactiveStatusWriteFails (SStatus inactiveInfo) = false
  /\ In (EvSynchronize dstClient req) (trace (snd r))
  /\ MasterSynchronize inactiveStatusWriteFails dstClient req = None
  /\ fst r <> Second * 10.
Proof.
  repeat split; try reflexivity; try discriminate.
  cbn. do 6 right. left. reflexivity.
Qed.

Lemma configure_when_inactive_witness :
  let req := {| ReqSource := ["https://src:8629"];
                ReqAuthentication := TLSAuth "client-cert" |} in
  let r := inspect inactiveDest fresh (30 * Second) in
  Phase (status fresh) <> DeploymentReplicationPhaseFailed
  /\ DeletionTimestamp (apiObject fresh) = None
  /\ createSyncMasterClient inactiveDest (Destination (Spec (apiObject fresh))) = inl dstClient
  /\ MasterStatus inactiveDest dstClient = (inactiveInfo, None)
  /\ IsActive inactiveDest (SStatus inactiveInfo) = false
  /\ Conditions (status (dr (snd r))) = [configuredInactive]
  /\ In (EvSynchronize dstClient req) (trace (snd r))
  /\ fst r = Second * 10.
Proof.
  cbv zeta.
  assert (H1 : Phase (status fresh) <> DeploymentReplicationPhaseFailed) by discriminate.
  assert (H2 : DeletionTimestamp (apiObject fresh) = None) by reflexivity.
  assert (H3 : createSyncMasterClient inactiveDest (Destination (Spec (apiObject fresh)))
               = inl dstClient) by reflexivity.
  assert (H4 : MasterStatus inactiveDest dstClient = (inactiveInfo, None)) by reflexivity.
  assert (H5 : IsActive inactiveDest (SStatus inactiveInfo) = false) by reflexivity.
  split; [ exact H1 | ]. split; [ exact H2 | ]. split; [ exact H3 | ].
  split; [ exact H4 | ]. split; [ exact H5 | ].
  destruct (configure_when_inactive inactiveDest fresh (30 * Second) dstClient inactiveInfo
              H1 H2 H3 H4 H5) as (A & _ & _ & _ & B).
  split; [ rewrite A; reflexivity | ].
  destruct (B ["https://src:8629"] (TLSAuth "client-cert") eq_refl eq_refl) as (I & R).
  split; [ exact I | ].
  destruct (R eq_refl) as (_ & V). exact V.
Defined.

(** C7: the marker cannot be written; the inspection logs it, raises
    no error, keeps the streak at zero and returns the thirty seconds it
    was given. *)
Lemma persistence_failures_counterexample :
  let r := inspect finalizerWriteFails fresh (30 * Second) in
  storePersistFinalizers finalizerWriteFails [FinalizerDeplReplStopSync] = Some "forbidden"
  /\ In (EvPersistFinalizers [FinalizerDeplReplStopSync]) (trace (snd r))
  /\ recentInspectionErrors fresh = 0
  /\ hasError (snd r) = false
  /\ fst r <> minInspectionInterval finalizerWriteFails
  /\ recentInspectionErrors (dr (snd r)) <> 1.
Proof.
  repeat split; try reflexivity; try discriminate.
  cbn. left. reflexivity.
Qed.

Lemma persistence_failures_witness :
  let r := inspect inactiveStatusWriteFails fresh (30 * Second) in
  In (EvUpdateCRStatus {| Phase := DeploymentReplicationPhaseNone;
                          Conditions := [configuredInactive] |}) (trace (snd r))
  /\ storeUpdateStatus inactiveStatusWriteFails
       {| Phase := DeploymentReplicationPhaseNone; Conditions := [configuredInactive] |}
     = Some "conflict"
  /\ hasError (snd r) = true
  /\ In (EvLog LevelWarn (Some "conflict") "Failed to update status") (trace (snd r)).
Proof.
  cbv zeta.
  assert (H1 : In (EvUpdateCRStatus {| Phase := DeploymentReplicationPhaseNone;
                                       Conditions := [configuredInactive] |})
                 (trace (snd (inspect inactiveStatusWriteFails fresh (30 * Second))))).
  { cbn. do 3 right. left. reflexivity. }
  assert (H2 : storeUpdateStatus inactiveStatusWriteFails
                 {| Phase := DeploymentReplicationPhaseNone;
                    Conditions := [configuredInactive] |} = Some "conflict") by reflexivity.
  split; [ exact H1 | ]. split; [ exact H2 | ].
  destruct (persistence_failures inactiveStatusWriteFails fresh (30 * Second)) as (A & _).
  exact (A _ _ H1 H2).
Defined.

(** C8: a failed object without the marker is inspected; the
    inspection writes the marker, so the receiver is not what it was. *)
Lemma failed_phase_counterexample :
  let r := inspect healthy failedFresh (30 * Second) in
  Phase (status failedFresh) = DeploymentReplicationPhaseFailed
  /\ dr (snd r) <> failedFresh
  /\ Finalizers (apiObject (dr (snd r))) = [FinalizerDeplReplStopSync]
  /\ In (EvPersistFinalizers [FinalizerDeplReplStopSync]) (trace (snd r)).
Proof.
  cbv zeta. split; [ reflexivity | ]. split; [ | split ].
  - intros H. apply (f_equal (fun x => Finalizers (apiObject x))) in H.
    vm_compute in H. discriminate H.
  - reflexivity.
  - cbn. left. reflexivity.
Qed.

Lemma failed_phase_short_circuit_witness :
  let r := inspect misdirected failedFresh (90 * Second) in
  Phase (status failedFresh) = DeploymentReplicationPhaseFailed
  /\ fst r = 90 * Second
  /\ status (dr (snd r)) = status failedFresh
  /\ recentInspectionErrors (dr (snd r)) = 2.
Proof.
  cbv zeta.
  assert (H : Phase (status failedFresh) = DeploymentReplicationPhaseFailed) by reflexivity.
  split; [ exact H | ].
  destruct (failed_phase_short_circuit misdirected failedFresh (90 * Second) H)
    as (A & _ & _ & B & C & _).
  split; [ exact A | ]. split; [ exact B | exact C ].
Defined.

Lemma dest_client_failure_skips_body_witness :
  let r := inspect noDestClient settled (90 * Second) in
  Phase (status settled) <> DeploymentReplicationPhaseFailed
  /\ DeletionTimestamp (apiObject settled) = None
  /\ createSyncMasterClient noDestClient (Destination (Spec (apiObject settled)))
     = inr "no such secret"
  /\ hasError (snd r) = false
  /\ recentInspectionErrors (dr (snd r)) = 0
  /\ fst r = 60 * Second.
Proof.
  cbv zeta.
  assert (H1 : Phase (status settled) <> DeploymentReplicationPhaseFailed) by discriminate.
  assert (H2 : DeletionTimestamp (apiObject settled) = None) by reflexivity.
  assert (H3 : createSyncMasterClient noDestClient (Destination (Spec (apiObject settled)))
               = inr "no such secret") by reflexivity.
  split; [ exact H1 | ]. split; [ exact H2 | ]. split; [ exact H3 | ].
  destruct (dest_client_failure_skips_body noDestClient settled (90 * Second)
              "no such secret" H1 H2 H3) as (A & B & C & _).
  split; [ exact A | ]. split; [ exact B | exact C ].
Defined.

(** * Further properties of the inspector *)

Section Outcomes.

Variable e : Env.

Lemma filter_none (P Q : Event -> bool) (evs : list Event) :
  (forall ev, P ev = true -> Q ev = false) ->
  forallb P evs = true -> filter Q evs = [].
Proof.
  intros PQ. induction evs as [| ev evs IH]; cbn; [ reflexivity | ].
  intros H. apply andb_prop in H. destruct H as [Hev Hevs].
  rewrite (PQ ev Hev). auto.
Qed.

(** *** The action steps in closed form *)

Lemma actions_outcome (spec : DeploymentReplicationSpec) (c : Client) (g : Frame) :
  let h := actions e spec c g in
  dr h = dr g
  /\ updateStatusNeeded h = updateStatusNeeded g
  /\ configureSyncNeeded h = configureSyncNeeded g
  /\ cancelSyncNeeded h = cancelSyncNeeded g
  /\ hasError h
     = hasError g
       || statusWriteFails e (updateStatusNeeded g) (status (dr g))
       || (cancelSyncNeeded g && negb (cancelSucceeds e c))
       || (configureSyncNeeded g && negb (configureSucceeds e spec c))
  /\ nextInterval h
     = (if (cancelSyncNeeded g && cancelSucceeds e c)
           || (configureSyncNeeded g && configureSucceeds e spec c)
        then Second * 10 else nextInterval g)
  /\ filter isStatusWrite (trace h)
     = filter isStatusWrite (trace g)
       ++ (if updateStatusNeeded g then [EvUpdateCRStatus (status (dr g))] else [])
  /\ filter isSyncCall (trace h)
     = filter isSyncCall (trace g)
       ++ (if cancelSyncNeeded g then [EvCancelSynchronization c EmptyCancelRequest] else [])
       ++ (if configureSyncNeeded g
           then match synchronizationRequest e spec with
                | Some req => [EvSynchronize c req]
                | None => []
                end
           else []).
Proof.
  unfold actions, updateStatusIfNeeded, updateCRStatus, cancelSyncIfNeeded,
    masterCancelSynchronization, configureSyncIfNeeded, masterSynchronize,
    statusWriteFails, cancelSucceeds, configureSucceeds, synchronizationRequest.
  destruct g as [d ni he us cs xs tr]. run.
  destruct us; run;
    [ destruct (storeUpdateStatus e (status d)); run | ];
    (destruct xs; run;
     [ destruct (MasterCancelSynchronization e c EmptyCancelRequest); run | ]);
    (destruct cs; run;
     [ destruct (createArangoSyncEndpoint e (Source spec)); run;
       [ destruct (createArangoSyncTLSAuthentication e spec); run;
         [ destruct (MasterSynchronize e c _); run | ] | ] | ]);
    rewrite ?orb_true_r, ?orb_false_r;
    repeat split; try reflexivity;
    rewrite ?filter_app; cbn; rewrite ?app_nil_r, <- ?app_assoc; reflexivity.
Qed.

(** *** The destination block on the active paths *)

Lemma inspectDestination_check_error
    (spec : DeploymentReplicationSpec) (c : Client) (f : Frame)
    (info : SyncInfo) (err : Error) :
  MasterStatus e c = (info, None) ->
  IsActive e (SStatus info) = true ->
  createArangoSyncEndpoint e (Source spec) = inr err ->
  snd (inspectDestination e spec c f)
  = with_trace
      (trace f ++ [EvStatus c;
                   EvLog LevelWarn (Some err) "Failed to check is-incoming-endpoint"]) f.
Proof.
  intros H A E. unfold inspectDestination, masterStatus, isIncomingEndpoint.
  run. rewrite H. run. rewrite A. run. rewrite E. run.
  unfold with_trace. cbn. rewrite <- app_assoc. reflexivity.
Qed.

Lemma inspectDestination_active_match
    (spec : DeploymentReplicationSpec) (c : Client) (f : Frame)
    (info : SyncInfo) (ep : Endpoint) :
  MasterStatus e c = (info, None) ->
  IsActive e (SStatus info) = true ->
  createArangoSyncEndpoint e (Source spec) = inl ep ->
  IsEmpty e (Intersection e (SSource info) ep) = false ->
  snd (inspectDestination e spec c f)
  = let u := Update (Conditions (status (dr f))) configuredActive in
    {| dr := withConditions (dr f) (fst u);
       nextInterval := nextInterval f;
       hasError := hasError f;
       updateStatusNeeded := if snd u then true else updateStatusNeeded f;
       configureSyncNeeded := configureSyncNeeded f;
       cancelSyncNeeded := cancelSyncNeeded f;
       trace := trace f ++ [EvStatus c] |}.
Proof.
  intros H A E I. unfold inspectDestination, masterStatus, isIncomingEndpoint, conditionsUpdate.
  run. rewrite H. run. rewrite A. run. rewrite E. run. rewrite I. run.
  fold configuredActive.
  destruct (snd (Update (Conditions (status (dr f))) configuredActive)); reflexivity.
Qed.

Lemma inspectDestination_active_mismatch
    (spec : DeploymentReplicationSpec) (c : Client) (f : Frame)
    (info : SyncInfo) (ep : Endpoint) :
  MasterStatus e c = (info, None) ->
  IsActive e (SStatus info) = true ->
  createArangoSyncEndpoint e (Source spec) = inl ep ->
  IsEmpty e (Intersection e (SSource info) ep) = true ->
  snd (inspectDestination e spec c f)
  = let u := Update (Conditions (status (dr f))) configuredInvalid in
    {| dr := withConditions (dr f) (fst u);
       nextInterval := nextInterval f;
       hasError := hasError f;
       updateStatusNeeded := if snd u then true else updateStatusNeeded f;
       configureSyncNeeded := configureSyncNeeded f;
       cancelSyncNeeded := true;
       trace := trace f
                ++ [EvStatus c;
                    EvLog LevelWarn None
                      "Destination syncmaster is configured for different source"] |}.
Proof.
  intros H A E I. unfold inspectDestination, masterStatus, isIncomingEndpoint, conditionsUpdate.
  run. rewrite H. run. rewrite A. run. rewrite E. run. rewrite I. run.
  fold configuredInvalid. rewrite <- app_assoc. cbn [app].
  destruct (snd (Update (Conditions (status (dr f))) configuredInvalid)); reflexivity.
Qed.

Lemma actions_trace (spec : DeploymentReplicationSpec) (c : Client) (g : Frame) :
  exists a b,
    trace (actions e spec c g) = trace g ++ a ++ b
    /\ filter isSyncCall a = []
    /\ filter isStatusWrite b = [].
Proof.
  unfold actions.
  destruct (updateStatusIfNeeded_step e g) as (_ & _ & _ & _ & (a & Ta & Pa)).
  set (f3 := snd (updateStatusIfNeeded e g)) in *.
  destruct (cancelSyncIfNeeded_step e c f3) as (_ & _ & _ & _ & (b4 & T4 & P4 & _)).
  set (f4 := snd (cancelSyncIfNeeded e c f3)) in *.
  destruct (configureSyncIfNeeded_step e spec c f4) as (_ & _ & _ & _ & (b5 & T5 & P5 & _)).
  exists a, (b4 ++ b5). split; [ | split ].
  - rewrite T5, T4, Ta. rewrite <- !app_assoc. reflexivity.
  - apply (filter_none (fun ev => isLog ev || isStatusWrite ev)); [ | exact Pa ].
    intros []; cbn; congruence.
  - rewrite filter_app.
    rewrite (filter_none (fun ev => isLog ev || isCancel ev) isStatusWrite b4),
      (filter_none (fun ev => isLog ev || isSynchronize ev) isStatusWrite b5);
      try assumption; try reflexivity; intros []; cbn; congruence.
Qed.

Lemma if_bool (b : bool) : (if b then true else false) = b.
Proof. destruct b; reflexivity. Qed.

(** With a destination client, the trace of the inspection is the
    trace after the destination block, more reads and log lines, then
    the events of the status write, then those of the calls. *)
Lemma configuration_trace
    (d : DeploymentReplication) (lastInterval : Duration) (c : Client) :
  Phase (status d) <> DeploymentReplicationPhaseFailed ->
  DeletionTimestamp (apiObject d) = None ->
  createSyncMasterClient e (Destination (Spec (apiObject d))) = inl c ->
  let f1 := snd (inspectDestination e (Spec (apiObject d)) c
                   (with_cancelSyncNeeded false
                      (with_configureSyncNeeded false
                         (with_updateStatusNeeded false
                            (snd (prologue e lastInterval (initFrame d))))))) in
  exists a b,
    trace (snd (inspect e d lastInterval)) = trace f1 ++ a ++ b
    /\ filter isSyncCall (trace f1 ++ a) = []
    /\ filter isStatusWrite b = [].
Proof.
  intros Hf Hdel Hc. cbv zeta.
  rewrite (inspect_not_failed e d lastInterval Hf). cbv zeta. cbn [fst snd].
  rewrite updateNextInterval_eq.
  rewrite (computed_configuration e d lastInterval Hdel).
  rewrite (inspectConfiguration_unfold e _ c _ Hc).
  destruct (prologue_frame e d lastInterval) as (_ & _ & _ & _ & _ & _ & _ & T & _).
  set (f0 := snd (prologue e lastInterval (initFrame d))) in *.
  set (f0' := with_cancelSyncNeeded false
                (with_configureSyncNeeded false (with_updateStatusNeeded false f0))).
  destruct (inspectDestination_step e (Spec (apiObject d)) c f0')
    as (_ & _ & _ & (ev1 & T1 & D1)).
  set (f1 := snd (inspectDestination e (Spec (apiObject d)) c f0')) in *.
  destruct (inspectSource_frame e (Spec (apiObject d)) f1) as (evs & E & D).
  rewrite E. cbn [snd].
  set (g := with_trace (trace f1 ++ evs) f1).
  change (snd (configureSyncIfNeeded e (Spec (apiObject d)) c
                 (snd (cancelSyncIfNeeded e c (snd (updateStatusIfNeeded e g))))))
    with (actions e (Spec (apiObject d)) c g).
  destruct (actions_trace (Spec (apiObject d)) c g) as (a & b & Tg & Pa & Pb).
  frame_simpl. rewrite Tg. unfold g. frame_simpl.
  exists (evs ++ a), b. split; [ | split ].
  - rewrite <- !app_assoc. reflexivity.
  - change (trace f0') with (trace f0) in T1.
    rewrite T1, !filter_app, Pa.
    rewrite (filter_none (fun ev => isLog ev || isFinalizerWrite ev) isSyncCall (trace f0)),
      (filter_none isDiagnostic isSyncCall ev1),
      (filter_none isDiagnostic isSyncCall evs);
      try assumption; try reflexivity; intros []; cbn; congruence.
  - exact Pb.
Qed.

(** *** One inspection with a destination client, in closed form *)

Lemma configuration_result
    (d : DeploymentReplication) (lastInterval : Duration) (c : Client) :
  Phase (status d) <> DeploymentReplicationPhaseFailed ->
  DeletionTimestamp (apiObject d) = None ->
  createSyncMasterClient e (Destination (Spec (apiObject d))) = inl c ->
  let spec := Spec (apiObject d) in
  let f1 := snd (inspectDestination e spec c
                   (with_cancelSyncNeeded false
                      (with_configureSyncNeeded false
                         (with_updateStatusNeeded false
                            (snd (prologue e lastInterval (initFrame d))))))) in
  let r := inspect e d lastInterval in
  let f := snd r in
  let failed :=
    statusWriteFails e (updateStatusNeeded f1) (status (dr f1))
    || (cancelSyncNeeded f1 && negb (cancelSucceeds e c))
    || (configureSyncNeeded f1 && negb (configureSucceeds e spec c)) in
  let acted :=
    (cancelSyncNeeded f1 && cancelSucceeds e c)
    || (configureSyncNeeded f1 && configureSucceeds e spec c) in
  status (dr f) = status (dr f1)
  /\ updateStatusNeeded f = updateStatusNeeded f1
  /\ configureSyncNeeded f = configureSyncNeeded f1
  /\ cancelSyncNeeded f = cancelSyncNeeded f1
  /\ hasError f = failed
  /\ fst r = Z.min (if failed && (recentInspectionErrors d =? 0)
                    then minInspectionInterval e
                    else if acted then Second * 10 else lastInterval)
                   (maxInspectionInterval e)
  /\ recentInspectionErrors (dr f)
     = (if failed
        then (if recentInspectionErrors d =? 0 then 1 else recentInspectionErrors d)
        else 0)
  /\ filter isStatusWrite (trace f)
     = (if updateStatusNeeded f1 then [EvUpdateCRStatus (status (dr f1))] else [])
  /\ filter isSyncCall (trace f)
     = (if cancelSyncNeeded f1 then [EvCancelSynchronization c EmptyCancelRequest] else [])
       ++ (if configureSyncNeeded f1
           then match synchronizationRequest e spec with
                | Some req => [EvSynchronize c req]
                | None => []
                end
           else []).
Proof.
  intros Hf Hdel Hc. cbv zeta.
  rewrite (inspect_not_failed e d lastInterval Hf). cbv zeta. cbn [fst snd].
  rewrite updateNextInterval_eq.
  rewrite (computed_configuration e d lastInterval Hdel).
  rewrite (inspectConfiguration_unfold e _ c _ Hc).
  destruct (prologue_frame e d lastInterval) as (_ & _ & _ & C & S & N & H & T & _).
  set (f0 := snd (prologue e lastInterval (initFrame d))) in *.
  set (f0' := with_cancelSyncNeeded false
                (with_configureSyncNeeded false (with_updateStatusNeeded false f0))).
  destruct (inspectDestination_step e (Spec (apiObject d)) c f0')
    as ((_ & _ & O3) & N1 & H1 & (ev1 & T1 & D1)).
  set (f1 := snd (inspectDestination e (Spec (apiObject d)) c f0')) in *.
  destruct (inspectSource_frame e (Spec (apiObject d)) f1) as (evs & E & D).
  rewrite E. cbn [snd].
  set (g := with_trace (trace f1 ++ evs) f1).
  change (snd (configureSyncIfNeeded e (Spec (apiObject d)) c
                 (snd (cancelSyncIfNeeded e c (snd (updateStatusIfNeeded e g))))))
    with (actions e (Spec (apiObject d)) c g).
  destruct (actions_outcome (Spec (apiObject d)) c g)
    as (A1 & A2 & A3 & A4 & A5 & A6 & A7 & A8).
  set (h := actions e (Spec (apiObject d)) c g) in *.
  frame_simpl. rewrite A1, A2, A3, A4, A5, A6, A7, A8.
  unfold g. frame_simpl.
  change (hasError f0') with (hasError f0) in H1.
  change (nextInterval f0') with (nextInterval f0) in N1.
  change (recentInspectionErrors (dr f0')) with (recentInspectionErrors (dr f0)) in O3.
  change (trace f0') with (trace f0) in T1.
  rewrite H1, H, N1, N, O3, S. cbn [orb].
  assert (W0 : filter isStatusWrite (trace f1 ++ evs) = []).
  { rewrite T1, !filter_app.
    rewrite (filter_none (fun ev => isLog ev || isFinalizerWrite ev) isStatusWrite (trace f0)),
      (filter_none isDiagnostic isStatusWrite ev1),
      (filter_none isDiagnostic isStatusWrite evs);
      try assumption; try reflexivity; intros []; cbn; congruence. }
  assert (S0 : filter isSyncCall (trace f1 ++ evs) = []).
  { rewrite T1, !filter_app.
    rewrite (filter_none (fun ev => isLog ev || isFinalizerWrite ev) isSyncCall (trace f0)),
      (filter_none isDiagnostic isSyncCall ev1),
      (filter_none isDiagnostic isSyncCall evs);
      try assumption; try reflexivity; intros []; cbn; congruence. }
  rewrite W0, S0. cbn [app].
  repeat split; reflexivity.
Qed.

(** *** [hasError] and the log *)

Ltac error_logged_cases :=
  unfold errorLogged in *; cbn in *;
  rewrite ?existsb_app; cbn;
  match goal with
  | H : ?he = existsb isActionFailure ?tr |- _ => rewrite <- H
  end;
  rewrite ?orb_false_r, ?orb_true_r; reflexivity.

Lemma prologue_errorLogged (d : DeploymentReplication) (lastInterval : Duration) :
  errorLogged (snd (prologue e lastInterval (initFrame d)))
  /\ updateStatusNeeded (snd (prologue e lastInterval (initFrame d))) = false.
Proof.
  unfold prologue, addFinalizers, errorLogged. destruct d as [[sp del fin] st n]. run.
  destruct del; run; [ split; reflexivity | ].
  destruct (existsb _ fin); run; [ split; reflexivity | ].
  destruct (storePersistFinalizers e _); run; split; reflexivity.
Qed.

Lemma inspectDestination_errorLogged
    (spec : DeploymentReplicationSpec) (c : Client) (f : Frame) :
  errorLogged f -> errorLogged (snd (inspectDestination e spec c f)).
Proof.
  unfold inspectDestination, masterStatus, isIncomingEndpoint, conditionsUpdate.
  destruct f as [d ni he us cs xs tr]. intros H. run.
  destruct (MasterStatus e c) as [info [err |]]; run; [ error_logged_cases | ].
  destruct (IsActive e (SStatus info)); run.
  - destruct (createArangoSyncEndpoint e (Source spec)); run; [ | error_logged_cases ].
    destruct (IsEmpty e _); run;
      destruct (snd (Update _ _)); run; error_logged_cases.
  - destruct (snd (Update _ _)); run; error_logged_cases.
Qed.

Lemma actions_errorLogged (spec : DeploymentReplicationSpec) (c : Client) (g : Frame) :
  errorLogged g -> errorLogged (actions e spec c g).
Proof.
  unfold actions, updateStatusIfNeeded, updateCRStatus, cancelSyncIfNeeded,
    masterCancelSynchronization, configureSyncIfNeeded, masterSynchronize.
  destruct g as [d ni he us cs xs tr]. intros H. run.
  destruct us; run;
    [ destruct (storeUpdateStatus e (status d)); run | ];
    (destruct xs; run;
     [ destruct (MasterCancelSynchronization e c EmptyCancelRequest); run | ]);
    (destruct cs; run;
     [ destruct (createArangoSyncEndpoint e (Source spec)); run;
       [ destruct (createArangoSyncTLSAuthentication e spec); run;
         [ destruct (MasterSynchronize e c _); run | ] | ] | ]);
    error_logged_cases.
Qed.

Lemma inspectSource_errorLogged (spec : DeploymentReplicationSpec) (f : Frame) :
  errorLogged f -> errorLogged (snd (inspectSource e spec f)).
Proof.
  unfold inspectSource, masterStatus, hasOutgoingEndpoint.
  destruct f as [d ni he us cs xs tr]. intros H.
  destruct (createSyncMasterClient e (Source spec)) as [c | err]; run;
    [ | error_logged_cases ].
  destruct (MasterStatus e c) as [info [err |]]; run;
    (destruct (IsActive e (SStatus info)); run;
     [ destruct (createArangoSyncEndpoint e (Destination spec)); run;
       [ destruct (anyOutgoing e _ _); run | ] | ]);
    error_logged_cases.
Qed.

Lemma inspectConfiguration_errorLogged (spec : DeploymentReplicationSpec) (f : Frame) :
  errorLogged f -> errorLogged (snd (inspectConfiguration e spec f)).
Proof.
  intros H.
  destruct (createSyncMasterClient e (Destination spec)) as [c | err] eqn:Hc.
  - rewrite (inspectConfiguration_unfold e spec c f Hc).
    apply (actions_errorLogged spec c), inspectSource_errorLogged,
      inspectDestination_errorLogged.
    exact H.
  - unfold inspectConfiguration. rewrite Hc.
    destruct f as [d ni he us cs xs tr]. run. error_logged_cases.
Qed.

Lemma inspectActions_errorLogged (spec : DeploymentReplicationSpec) (f : Frame) :
  errorLogged f -> errorLogged (snd (inspectActions e spec f)).
Proof.
  intros H. unfold inspectActions. unfold bind at 1. unfold gets at 1 2. cbn [fst snd].
  destruct (DeletionTimestamp (apiObject (dr f))) as [t |] eqn:Hdel.
  - unfold runFinalizers. destruct f as [d ni he us cs xs tr]. run.
    destruct (finalizerCleanup e _) as [within [err |]]; run; [ error_logged_cases | ].
    destruct (storePersistFinalizers e _); run; error_logged_cases.
  - apply inspectConfiguration_errorLogged. exact H.
Qed.

(** *** The paths without a destination client *)

Lemma runFinalizers_frame (obj : ArangoDeploymentReplication) (f : Frame) :
  let r := runFinalizers e obj f in
  status (dr (snd r)) = status (dr f)
  /\ recentInspectionErrors (dr (snd r)) = recentInspectionErrors (dr f)
  /\ nextInterval (snd r) = nextInterval f
  /\ hasError (snd r) = hasError f
  /\ updateStatusNeeded (snd r) = updateStatusNeeded f
  /\ exists evs, trace (snd r) = trace f ++ evs /\ forallb isFinalizerEvent evs = true.
Proof.
  unfold runFinalizers. destruct f as [d ni he us cs xs tr]. run.
  destruct (finalizerCleanup e obj) as [within [err |]]; run.
  - repeat split. eexists. split; reflexivity.
  - destruct (storePersistFinalizers e _); run; repeat split;
      rewrite <- app_assoc; eexists; split; reflexivity.
Qed.

Lemma computed_terminating_eq
    (d : DeploymentReplication) (lastInterval : Duration) (t : Z) :
  DeletionTimestamp (apiObject d) = Some t ->
  computed e d lastInterval
  = let rf := runFinalizers e (apiObject d) (with_nextInterval lastInterval (initFrame d)) in
    match fst rf with
    | Some err =>
        with_hasError true
          (with_trace (trace (snd rf)
                       ++ [EvLog LevelWarn (Some err) "Failed to run finalizers"]) (snd rf))
    | None => snd rf
    end.
Proof.
  intros H.
  assert (Hn : DeletionTimestamp (apiObject d) <> None) by congruence.
  unfold computed. unfold bind at 1.
  rewrite (prologue_settled e d lastInterval (or_introl Hn)).
  unfold inspectActions. unfold bind at 1. unfold gets. cbn [fst snd].
  change (apiObject (dr (with_nextInterval lastInterval (initFrame d)))) with (apiObject d).
  rewrite H. unfold bind at 1. cbv zeta.
  destruct (runFinalizers e (apiObject d) (with_nextInterval lastInterval (initFrame d)))
    as [[err |] f']; reflexivity.
Qed.

Lemma computed_no_client
    (d : DeploymentReplication) (lastInterval : Duration) (err : Error) :
  DeletionTimestamp (apiObject d) = None ->
  createSyncMasterClient e (Destination (Spec (apiObject d))) = inr err ->
  computed e d lastInterval
  = let f0 := snd (prologue e lastInterval (initFrame d)) in
    with_trace
      (trace f0 ++ [EvLog LevelWarn (Some err)
                      "Failed to create destination syncmaster client"]) f0.
Proof.
  intros Hdel Hc. rewrite (computed_configuration e d lastInterval Hdel).
  unfold inspectConfiguration. rewrite Hc. reflexivity.
Qed.

(** On these paths the inspector writes no status and issues no call
    of its own. *)
Lemma quiet_paths (d : DeploymentReplication) (lastInterval : Duration) :
  Phase (status d) = DeploymentReplicationPhaseFailed
  \/ DeletionTimestamp (apiObject d) <> None
  \/ (exists err, createSyncMasterClient e (Destination (Spec (apiObject d))) = inr err) ->
  let f := snd (inspect e d lastInterval) in
  filter isSyncCall (trace f) = []
  /\ filter isStatusWrite (trace f) = []
  /\ updateStatusNeeded f = false.
Proof.
  intros H. cbv zeta.
  destruct (prologue_frame e d lastInterval) as (_ & _ & _ & _ & _ & _ & _ & T & _).
  destruct (prologue_errorLogged d lastInterval) as (_ & U).
  assert (T1 : filter isSyncCall (trace (snd (prologue e lastInterval (initFrame d)))) = [])
    by (apply (filter_none (fun ev => isLog ev || isFinalizerWrite ev));
        [ intros []; cbn; congruence | exact T ]).
  assert (T2 : filter isStatusWrite (trace (snd (prologue e lastInterval (initFrame d)))) = [])
    by (apply (filter_none (fun ev => isLog ev || isFinalizerWrite ev));
        [ intros []; cbn; congruence | exact T ]).
  destruct (phase_cases d) as [Hf | Hf].
  - rewrite (inspect_failed e d lastInterval Hf). cbv zeta. frame_simpl.
    rewrite !filter_app, T1, T2, U. repeat split.
  - rewrite (inspect_not_failed e d lastInterval Hf). cbv zeta. cbn [snd].
    rewrite updateNextInterval_eq. frame_simpl.
    destruct H as [H | [H | (err & H)]]; [ contradiction | | ].
    + destruct (DeletionTimestamp (apiObject d)) as [t |] eqn:Hdel; [ | congruence ].
      rewrite (computed_terminating_eq d lastInterval t Hdel). cbv zeta.
      destruct (runFinalizers_frame (apiObject d) (with_nextInterval lastInterval (initFrame d)))
        as (_ & _ & _ & _ & U' & (evs & T' & P)).
      assert (P1 : filter isSyncCall evs = [])
        by (apply (filter_none isFinalizerEvent); [ intros []; cbn; congruence | exact P ]).
      assert (P2 : filter isStatusWrite evs = [])
        by (apply (filter_none isFinalizerEvent); [ intros []; cbn; congruence | exact P ]).
      destruct (fst (runFinalizers e (apiObject d) _)); frame_simpl;
        rewrite ?filter_app, T', ?filter_app, P1, P2, U'; repeat split.
    + destruct (DeletionTimestamp (apiObject d)) as [t |] eqn:Hdel.
      * rewrite (computed_terminating_eq d lastInterval t Hdel). cbv zeta.
        destruct (runFinalizers_frame (apiObject d)
                    (with_nextInterval lastInterval (initFrame d)))
          as (_ & _ & _ & _ & U' & (evs & T' & P)).
        assert (P1 : filter isSyncCall evs = [])
          by (apply (filter_none isFinalizerEvent); [ intros []; cbn; congruence | exact P ]).
        assert (P2 : filter isStatusWrite evs = [])
          by (apply (filter_none isFinalizerEvent); [ intros []; cbn; congruence | exact P ]).
        destruct (fst (runFinalizers e (apiObject d) _)); frame_simpl;
          rewrite ?filter_app, T', ?filter_app, P1, P2, U'; repeat split.
      * rewrite (computed_no_client d lastInterval err Hdel H). cbv zeta. frame_simpl.
        rewrite !filter_app, T1, T2, U. repeat split.
Qed.

End Outcomes.

Section InspectorExtras.

Variable e : Env.

(** X1.  [hasOutgoingEndpoint] fails exactly when the endpoint cannot
    be derived from the spec, and then answers false with that error;
    otherwise it answers true exactly when some item of
    [status.Outgoing] has an endpoint whose intersection with the
    derived endpoint is not empty (so: false on an empty list). *)
Theorem hasOutgoingEndpoint_spec (st : SyncInfo) (epSpec : EndpointSpec) :
  match createArangoSyncEndpoint e epSpec with
  | inr err => hasOutgoingEndpoint e st epSpec = (false, Some err)
  | inl ep =>
      snd (hasOutgoingEndpoint e st epSpec) = None
      /\ (fst (hasOutgoingEndpoint e st epSpec) = true <->
          exists o, In o (Outgoing st)
                    /\ IsEmpty e (Intersection e (OEndpoint o) ep) = false)
  end.
Proof.
  unfold hasOutgoingEndpoint.
  destruct (createArangoSyncEndpoint e epSpec) as [ep | err]; [ | reflexivity ].
  cbn [fst snd]. split; [ reflexivity | ].
  rewrite anyOutgoing_existsb, existsb_exists.
  split; intros (o & Hin & Ho); exists o; (split; [ exact Hin | ]).
  - apply negb_true_iff. exact Ho.
  - apply negb_true_iff. exact Ho.
Qed.

(** X2.  Destination active and running from the expected source
    (phase not Failed, no deletion timestamp): the inspection records
    Configured=true/"Active", issues no cancel and no configure call,
    writes the status exactly when the condition changed, has
    [hasError] exactly when that write failed, and returns
    [lastInterval] (or [minInspectionInterval] on a first error),
    capped. *)
Theorem active_and_matching
    (d : DeploymentReplication) (lastInterval : Duration) (c : Client)
    (info : SyncInfo) (ep : Endpoint) :
  Phase (status d) <> DeploymentReplicationPhaseFailed ->
  DeletionTimestamp (apiObject d) = None ->
  createSyncMasterClient e (Destination (Spec (apiObject d))) = inl c ->
  MasterStatus e c = (info, None) ->
  IsActive e (SStatus info) = true ->
  createArangoSyncEndpoint e (Source (Spec (apiObject d))) = inl ep ->
  IsEmpty e (Intersection e (SSource info) ep) = false ->
  let r := inspect e d lastInterval in
  let f := snd r in
  let u := Update (Conditions (status d)) configuredActive in
  let st' := {| Phase := Phase (status d); Conditions := fst u |} in
  let failed := statusWriteFails e (snd u) st' in
  status (dr f) = st'
  /\ filter isSyncCall (trace f) = []
  /\ filter isStatusWrite (trace f) = (if snd u then [EvUpdateCRStatus st'] else [])
  /\ hasError f = failed
  /\ fst r = Z.min (if failed && (recentInspectionErrors d =? 0)
                    then minInspectionInterval e else lastInterval)
                   (maxInspectionInterval e).
Proof.
  intros Hf Hdel Hc Hs Ha He Hi.
  pose proof (configuration_result e d lastInterval c Hf Hdel Hc) as R. cbv zeta in R.
  rewrite (inspectDestination_active_match e _ c _ info ep Hs Ha He Hi) in R.
  cbv zeta in R. unfold withConditions in R. frame_simpl in R.
  destruct (prologue_frame e d lastInterval) as (_ & _ & _ & C & _).
  rewrite C, if_bool in R. cbn [andb orb] in R. rewrite !orb_false_r in R.
  destruct R as (R1 & _ & _ & _ & R5 & R6 & _ & R8 & R9).
  cbv zeta. repeat split; assumption.
Qed.

(** X3.  Destination active but running from another source: the
    inspection records Configured=false/"Invalid" and issues exactly
    one call, a CancelSynchronization on the destination client, and no
    Synchronize.  [hasError] is set exactly when the status write or the
    cancel call failed; the returned interval is ten seconds after a
    successful cancel and [lastInterval] after a failed one, replaced by
    [minInspectionInterval] on a first error, capped. *)
Theorem active_and_misdirected
    (d : DeploymentReplication) (lastInterval : Duration) (c : Client)
    (info : SyncInfo) (ep : Endpoint) :
  Phase (status d) <> DeploymentReplicationPhaseFailed ->
  DeletionTimestamp (apiObject d) = None ->
  createSyncMasterClient e (Destination (Spec (apiObject d))) = inl c ->
  MasterStatus e c = (info, None) ->
  IsActive e (SStatus info) = true ->
  createArangoSyncEndpoint e (Source (Spec (apiObject d))) = inl ep ->
  IsEmpty e (Intersection e (SSource info) ep) = true ->
  let r := inspect e d lastInterval in
  let f := snd r in
  let u := Update (Conditions (status d)) configuredInvalid in
  let st' := {| Phase := Phase (status d); Conditions := fst u |} in
  let failed := statusWriteFails e (snd u) st' || negb (cancelSucceeds e c) in
  status (dr f) = st'
  /\ filter isSyncCall (trace f) = [EvCancelSynchronization c EmptyCancelRequest]
  /\ filter isStatusWrite (trace f) = (if snd u then [EvUpdateCRStatus st'] else [])
  /\ hasError f = failed
  /\ fst r = Z.min (if failed && (recentInspectionErrors d =? 0)
                    then minInspectionInterval e
                    else if cancelSucceeds e c then Second * 10 else lastInterval)
                   (maxInspectionInterval e).
Proof.
  intros Hf Hdel Hc Hs Ha He Hi.
  pose proof (configuration_result e d lastInterval c Hf Hdel Hc) as R. cbv zeta in R.
  rewrite (inspectDestination_active_mismatch e _ c _ info ep Hs Ha He Hi) in R.
  cbv zeta in R. unfold withConditions in R. frame_simpl in R.
  destruct (prologue_frame e d lastInterval) as (_ & _ & _ & C & _).
  rewrite C, if_bool in R. cbn [andb orb app] in R. rewrite !orb_false_r in R.
  destruct R as (R1 & _ & _ & _ & R5 & R6 & _ & R8 & R9).
  cbv zeta. repeat split; assumption.
Qed.

(** X4.  Destination active, but the endpoint to compare its source
    with cannot be derived from the spec: the failed check is logged
    and nothing else happens.  The status stays, nothing is written, no
    call is issued, [hasError] stays false, the streak is reset and
    [lastInterval] is returned, capped. *)
Theorem incoming_check_failure_only_logged
    (d : DeploymentReplication) (lastInterval : Duration) (c : Client)
    (info : SyncInfo) (err : Error) :
  Phase (status d) <> DeploymentReplicationPhaseFailed ->
  DeletionTimestamp (apiObject d) = None ->
  createSyncMasterClient e (Destination (Spec (apiObject d))) = inl c ->
  MasterStatus e c = (info, None) ->
  IsActive e (SStatus info) = true ->
  createArangoSyncEndpoint e (Source (Spec (apiObject d))) = inr err ->
  let r := inspect e d lastInterval in
  let f := snd r in
  status (dr f) = status d
  /\ filter isSyncCall (trace f) = []
  /\ filter isStatusWrite (trace f) = []
  /\ hasError f = false
  /\ recentInspectionErrors (dr f) = 0
  /\ fst r = Z.min lastInterval (maxInspectionInterval e)
  /\ In (EvLog LevelWarn (Some err) "Failed to check is-incoming-endpoint") (trace f).
Proof.
  intros Hf Hdel Hc Hs Ha He.
  pose proof (configuration_result e d lastInterval c Hf Hdel Hc) as R. cbv zeta in R.
  destruct (configuration_trace e d lastInterval c Hf Hdel Hc) as (a & b & T & _).
  rewrite (inspectDestination_check_error e _ c _ info err Hs Ha He) in R, T.
  frame_simpl in R. frame_simpl in T.
  destruct (prologue_frame e d lastInterval) as (_ & _ & _ & C & _).
  rewrite C in R. unfold statusWriteFails in R. cbn [andb orb app] in R.
  destruct R as (R1 & _ & _ & _ & R5 & R6 & R7 & R8 & R9).
  cbv zeta. repeat (split; [ assumption | ]).
  rewrite T. apply in_or_app. left. apply in_or_app. right. right. left. reflexivity.
Qed.

(** X5.  Destination inactive, every outcome of the configure step: a
    Synchronize call is issued exactly when both the source endpoint
    and the TLS authentication can be derived from the spec, and it is
    the only call; [hasError] is set exactly when the status write
    failed or the configure step did not reach "Configured
    synchronization"; the returned interval is ten seconds after a
    successful configure and [lastInterval] otherwise, replaced by
    [minInspectionInterval] on a first error, capped. *)
Theorem inactive_configure_outcome
    (d : DeploymentReplication) (lastInterval : Duration) (c : Client) (info : SyncInfo) :
  Phase (status d) <> DeploymentReplicationPhaseFailed ->
  DeletionTimestamp (apiObject d) = None ->
  createSyncMasterClient e (Destination (Spec (apiObject d))) = inl c ->
  MasterStatus e c = (info, None) ->
  IsActive e (SStatus info) = false ->
  let spec := Spec (apiObject d) in
  let r := inspect e d lastInterval in
  let f := snd r in
  let u := Update (Conditions (status d)) configuredInactive in
  let st' := {| Phase := Phase (status d); Conditions := fst u |} in
  let failed := statusWriteFails e (snd u) st' || negb (configureSucceeds e spec c) in
  filter isSyncCall (trace f)
  = match synchronizationRequest e spec with
    | Some req => [EvSynchronize c req]
    | None => []
    end
  /\ hasError f = failed
  /\ fst r = Z.min (if failed && (recentInspectionErrors d =? 0)
                    then minInspectionInterval e
                    else if configureSucceeds e spec c then Second * 10 else lastInterval)
                   (maxInspectionInterval e)
  /\ recentInspectionErrors (dr f)
     = (if failed
        then (if recentInspectionErrors d =? 0 then 1 else recentInspectionErrors d)
        else 0).
Proof.
  intros Hf Hdel Hc Hs Ha.
  pose proof (configuration_result e d lastInterval c Hf Hdel Hc) as R. cbv zeta in R.
  rewrite (inspectDestination_inactive e _ c _ info Hs Ha) in R.
  cbv zeta in R. frame_simpl in R.
  destruct (prologue_frame e d lastInterval) as (_ & _ & _ & C & _).
  rewrite C, if_bool in R. cbn [andb orb app] in R. rewrite !orb_false_r in R.
  destruct R as (_ & _ & _ & _ & R5 & R6 & R7 & _ & R9).
  cbv zeta. repeat split; assumption.
Qed.

(** X6.  After every inspection [hasError] is true exactly when the
    trace holds one of the six warnings of a failed action (finalizer
    run, status write, cancel, the two derivations of the configure
    request, configure).  The other warnings, of client creation,
    status fetches, endpoint checks and "Add finalizers", never set
    it. *)
Theorem hasError_iff_action_failure_logged
    (d : DeploymentReplication) (lastInterval : Duration) :
  let f := snd (inspect e d lastInterval) in
  hasError f = existsb isActionFailure (trace f).
Proof.
  cbv zeta. destruct (prologue_errorLogged e d lastInterval) as (L & _).
  destruct (phase_cases d) as [Hf | Hf].
  - rewrite (inspect_failed e d lastInterval Hf). cbv zeta. frame_simpl.
    rewrite existsb_app. unfold errorLogged in L. rewrite <- L. cbn.
    rewrite orb_false_r. reflexivity.
  - rewrite (inspect_not_failed e d lastInterval Hf). cbv zeta. cbn [snd].
    rewrite updateNextInterval_eq. frame_simpl.
    change (computed e d lastInterval)
      with (snd (inspectActions e (fst (prologue e lastInterval (initFrame d)))
                   (snd (prologue e lastInterval (initFrame d))))).
    apply (inspectActions_errorLogged e). exact L.
Qed.

(** X7.  In every inspection the status is written at most once,
    exactly when [updateStatusNeeded] was raised, and what is written
    is the status the receiver holds when the inspection ends. *)
Theorem status_written_once
    (d : DeploymentReplication) (lastInterval : Duration) :
  let f := snd (inspect e d lastInterval) in
  filter isStatusWrite (trace f)
  = (if updateStatusNeeded f then [EvUpdateCRStatus (status (dr f))] else []).
Proof.
  cbv zeta.
  destruct (phase_cases d) as [Hf | Hf];
    [ destruct (quiet_paths e d lastInterval (or_introl Hf)) as (_ & W & U);
      rewrite W, U; reflexivity | ].
  destruct (DeletionTimestamp (apiObject d)) as [t |] eqn:Hdel.
  - assert (Hn : DeletionTimestamp (apiObject d) <> None) by congruence.
    destruct (quiet_paths e d lastInterval (or_intror (or_introl Hn))) as (_ & W & U).
    rewrite W, U. reflexivity.
  - destruct (createSyncMasterClient e (Destination (Spec (apiObject d)))) as [c | err] eqn:Hc.
    + destruct (configuration_result e d lastInterval c Hf Hdel Hc)
        as (R1 & R2 & _ & _ & _ & _ & _ & R8 & _).
      rewrite R8, R2, R1. reflexivity.
    + destruct (quiet_paths e d lastInterval
                  (or_intror (or_intror (ex_intro _ err Hc)))) as (_ & W & U).
      rewrite W, U. reflexivity.
Qed.

(** X8.  In every inspection the status write comes before the call on
    the destination: the trace splits into a part without cancel or
    configure call followed by a part without status write. *)
Theorem status_write_precedes_call
    (d : DeploymentReplication) (lastInterval : Duration) :
  exists a b,
    trace (snd (inspect e d lastInterval)) = a ++ b
    /\ filter isSyncCall a = []
    /\ filter isStatusWrite b = [].
Proof.
  assert (Q : Phase (status d) = DeploymentReplicationPhaseFailed
              \/ DeletionTimestamp (apiObject d) <> None
              \/ (exists err, createSyncMasterClient e (Destination (Spec (apiObject d)))
                               = inr err) ->
              exists a b,
                trace (snd (inspect e d lastInterval)) = a ++ b
                /\ filter isSyncCall a = [] /\ filter isStatusWrite b = []).
  { intros H. destruct (quiet_paths e d lastInterval H) as (S & _ & _).
    exists (trace (snd (inspect e d lastInterval))), [].
    split; [ symmetry; apply app_nil_r | split; [ exact S | reflexivity ] ]. }
  destruct (phase_cases d) as [Hf | Hf]; [ apply Q; left; exact Hf | ].
  destruct (DeletionTimestamp (apiObject d)) as [t |] eqn:Hdel;
    [ apply Q; right; left; congruence | ].
  destruct (createSyncMasterClient e (Destination (Spec (apiObject d)))) as [c | err] eqn:Hc;
    [ | apply Q; right; right; exists err; reflexivity ].
  destruct (configuration_trace e d lastInterval c Hf Hdel Hc) as (a & b & T & Pa & Pb).
  eexists. exists b. split; [ | split; [ exact Pa | exact Pb ] ].
  rewrite T. apply app_assoc.
Qed.

(** X9.  The error streak is a flag.  Starting from 0 or 1, every
    inspection leaves it at 0 or 1; for an object that is not in Failed
    phase it is 1 after the inspection exactly when that inspection
    set [hasError]. *)
Theorem streak_is_a_flag
    (d : DeploymentReplication) (lastInterval : Duration) :
  recentInspectionErrors d = 0 \/ recentInspectionErrors d = 1 ->
  let f := snd (inspect e d lastInterval) in
  (recentInspectionErrors (dr f) = 0 \/ recentInspectionErrors (dr f) = 1)
  /\ (Phase (status d) <> DeploymentReplicationPhaseFailed ->
      recentInspectionErrors (dr f) = if hasError f then 1 else 0).
Proof.
  intros H. cbv zeta.
  destruct (phase_cases d) as [Hf | Hf].
  - rewrite (inspect_failed e d lastInterval Hf). cbv zeta. frame_simpl.
    destruct (prologue_frame e d lastInterval) as (_ & _ & _ & _ & S & _).
    rewrite S. split; [ exact H | contradiction ].
  - rewrite (inspect_not_failed e d lastInterval Hf). cbv zeta. cbn [snd].
    rewrite updateNextInterval_eq. frame_simpl.
    destruct (computed_frame e d lastInterval) as (_ & _ & _ & S & _).
    rewrite S.
    destruct (hasError (computed e d lastInterval));
      destruct H as [H | H]; rewrite ?H; cbn; auto.
Qed.

(** X10.  No inspection changes the phase of the receiver: the
    inspector reads [status.Phase] and only ever writes
    [status.Conditions], so it never moves an object into or out of
    Failed. *)
Theorem inspection_keeps_phase
    (d : DeploymentReplication) (lastInterval : Duration) :
  Phase (status (dr (snd (inspect e d lastInterval)))) = Phase (status d).
Proof.
  destruct (phase_cases d) as [Hf | Hf].
  - rewrite (inspect_failed e d lastInterval Hf). cbv zeta. frame_simpl.
    destruct (prologue_frame e d lastInterval) as (_ & A & B & C & _).
    rewrite C. reflexivity.
  - rewrite (inspect_not_failed e d lastInterval Hf). cbv zeta. cbn [snd].
    rewrite updateNextInterval_eq. frame_simpl.
    destruct (computed_frame e d lastInterval) as (A & B & C & _).
    exact C.
Qed.

(** X11.  An object marked for deletion (phase not Failed): the
    inspection runs [runFinalizers] on the object, once, and keeps what
    it does: the receiver's object and status are the ones
    [runFinalizers] leaves, and the trace is its trace, with the run of
    the cleanup callbacks in it, followed by one warning exactly when it
    returned an error.  [hasError] is set exactly then.  The inspector
    adds no status read, status write or call of its own, and returns
    [lastInterval], or [minInspectionInterval] on a first error,
    capped. *)
Theorem terminating_outcome
    (d : DeploymentReplication) (lastInterval : Duration) (t : Z) :
  Phase (status d) <> DeploymentReplicationPhaseFailed ->
  DeletionTimestamp (apiObject d) = Some t ->
  let r := inspect e d lastInterval in
  let f := snd r in
  let g := runFinalizers e (apiObject d) (with_nextInterval lastInterval (initFrame d)) in
  let failed := isSome (fst g) in
  hasError f = failed
  /\ apiObject (dr f) = apiObject (dr (snd g))
  /\ status (dr f) = status (dr (snd g))
  /\ trace f
     = trace (snd g)
       ++ match fst g with
          | Some err => [EvLog LevelWarn (Some err) "Failed to run finalizers"]
          | None => []
          end
  /\ In (EvFinalizerCleanup (fst (finalizerCleanup e (apiObject d)))) (trace f)
  /\ (forall ev, In ev (trace f) -> isLog ev || isFinalizerEvent ev = true)
  /\ fst r = Z.min (if failed && (recentInspectionErrors d =? 0)
                    then minInspectionInterval e else lastInterval)
                   (maxInspectionInterval e)
  /\ recentInspectionErrors (dr f)
     = (if failed
        then (if recentInspectionErrors d =? 0 then 1 else recentInspectionErrors d)
        else 0).
Proof.
  intros Hf Hdel. cbv zeta.
  rewrite (inspect_not_failed e d lastInterval Hf). cbv zeta. cbn [fst snd].
  rewrite updateNextInterval_eq.
  pose proof (computed_terminating e d lastInterval t Hdel) as P.
  destruct (computed_terminating_trace e d lastInterval t Hdel) as (evs & T & _).
  rewrite (computed_terminating_eq e d lastInterval t Hdel) in *. cbv zeta in *.
  destruct (runFinalizers_frame e (apiObject d) (with_nextInterval lastInterval (initFrame d)))
    as (A & B & C & D & _).
  destruct (fst (runFinalizers e (apiObject d) _)) as [err |]; frame_simpl; frame_simpl in P;
    frame_simpl in T; cbn [isSome andb]; rewrite ?A, ?B, ?C, ?D, ?app_nil_r; frame_simpl;
    (repeat split; try reflexivity;
     [ rewrite T; left; reflexivity
     | intros ev Hin; rewrite forallb_forall in P; apply P; exact Hin ]).
Qed.

(** X12.  Ten seconds are returned only after a call: when an
    inspection of an object not in Failed phase issues no cancel and no
    configure call, it returns [lastInterval], or
    [minInspectionInterval] on a first error, capped. *)
Theorem no_call_keeps_interval
    (d : DeploymentReplication) (lastInterval : Duration) :
  Phase (status d) <> DeploymentReplicationPhaseFailed ->
  filter isSyncCall (trace (snd (inspect e d lastInterval))) = [] ->
  let r := inspect e d lastInterval in
  fst r = Z.min (if hasError (snd r) && (recentInspectionErrors d =? 0)
                 then minInspectionInterval e else lastInterval)
                (maxInspectionInterval e).
Proof.
  intros Hf Hno. cbv zeta.
  destruct (DeletionTimestamp (apiObject d)) as [t |] eqn:Hdel.
  - rewrite (inspect_not_failed e d lastInterval Hf). cbv zeta. cbn [fst snd].
    rewrite updateNextInterval_eq. frame_simpl.
    destruct (computed_frame e d lastInterval) as (_ & _ & _ & S & _). rewrite S.
    rewrite (computed_terminating_eq e d lastInterval t Hdel). cbv zeta.
    destruct (runFinalizers_frame e (apiObject d)
                (with_nextInterval lastInterval (initFrame d))) as (_ & _ & C & _).
    destruct (fst (runFinalizers e (apiObject d) _)); frame_simpl; rewrite C; reflexivity.
  - destruct (createSyncMasterClient e (Destination (Spec (apiObject d)))) as [c | err] eqn:Hc.
    + destruct (configuration_result e d lastInterval c Hf Hdel Hc)
        as (_ & _ & _ & _ & R5 & R6 & _ & _ & R9).
      rewrite Hno in R9. rewrite R5, R6.
      destruct (cancelSyncNeeded _); [ discriminate R9 | ].
      cbn [andb orb app] in *.
      destruct (configureSyncNeeded _); [ | reflexivity ].
      unfold configureSucceeds.
      destruct (synchronizationRequest e (Spec (apiObject d))); [ discriminate R9 | ].
      reflexivity.
    + rewrite (inspect_not_failed e d lastInterval Hf). cbv zeta. cbn [fst snd].
      rewrite updateNextInterval_eq. frame_simpl.
      destruct (computed_frame e d lastInterval) as (_ & _ & _ & S & _). rewrite S.
      rewrite (computed_no_client e d lastInterval err Hdel Hc). cbv zeta. frame_simpl.
      destruct (prologue_frame e d lastInterval) as (_ & _ & _ & _ & _ & N & _).
      rewrite N. reflexivity.
Qed.

End InspectorExtras.

(** * Properties of the start-up *)

Section StartupProperties.

Variable w : Platform.

Ltac run_startup :=
  repeat (progress (unfold bindP, retP, emitP, exitP, fatal, newKubeClient; cbn)).

Lemma length_zero_empty (x : string) : (String.length x =? 0)%nat = true <-> x = "".
Proof.
  destruct x; cbn; split; intros H; try reflexivity; discriminate H.
Qed.

(** *** The pod lookup *)

Lemma podInfoOp_result (kubecli : KubeClient) (namespace name : string)
    (n : nat) (v : PodInfo) (s : MainState) :
  podInfoOp w kubecli namespace name n v s
  = match PodsGet w kubecli namespace name n with
    | inr err =>
        (inr (v, Some err),
         {| events := events s ++ [MvPodsGet namespace name;
                                   MvLogError err "Failed to get operator pod"];
            kubeClientCalls := kubeClientCalls s |})
    | inl pod =>
        (match podImage w pod with
         | None => inl (Panic "index out of range")
         | Some img =>
             inr ({| image := img; sa := v1.ServiceAccountName (v1.Spec pod) |}, None)
         end,
         {| events := events s ++ [MvPodsGet namespace name];
            kubeClientCalls := kubeClientCalls s |})
    end.
Proof.
  unfold podInfoOp, podImage. run_startup.
  destruct (PodsGet w kubecli namespace name n) as [pod | err]; run_startup.
  - destruct (v1.ContainerStatuses (v1.Status pod)) as [| cs rest]; run_startup;
      [ reflexivity | ].
    destruct (String.eqb (ConvertImageID2Image w (v1.ImageID cs)) ""); run_startup;
      [ | reflexivity ].
    destruct (v1.Containers (v1.Spec pod)); reflexivity.
  - rewrite <- app_assoc. reflexivity.
Qed.

Lemma retryFrom_eq {V : Type} (op : nat -> V -> P (V * option Error))
    (more n : nat) (v : V) (s : MainState) :
  retryFrom op more n v s
  = match op n v s with
    | (inl x, s') => (inl x, s')
    | (inr r, s') =>
        match snd r with
        | None => (inr r, s')
        | Some err =>
            match more with
            | O => (inr (fst r, Some err), s')
            | S m => retryFrom op m (S n) (fst r) s'
            end
        end
    end.
Proof.
  destruct more; cbn [retryFrom]; unfold bindP;
    destruct (op n v s) as [[x | [v' [err |]]] s']; reflexivity.
Qed.

(** The attempts of [Retry] on the pod lookup, by induction on the
    attempts left: it ends with the first pod found, with a panic on
    that pod, or, all lookups failing, with the last error. *)
Lemma retryFrom_podInfoOp (kubecli : KubeClient) (namespace name : string)
    (more : nat) :
  forall (n : nat) (v : PodInfo) (s : MainState),
    let r := retryFrom (podInfoOp w kubecli namespace name) more n v s in
    (exists evs, events (snd r) = events s ++ evs
                 /\ forallb (fun ev => negb (isOperatorEvent ev)) evs = true)
    /\ kubeClientCalls (snd r) = kubeClientCalls s
    /\ match fst r with
       | inl x => x = Panic "index out of range"
       | inr (v', None) =>
           exists k pod img,
             (n <= k <= n + more)%nat
             /\ PodsGet w kubecli namespace name k = inl pod
             /\ podImage w pod = Some img
             /\ v' = {| image := img; sa := v1.ServiceAccountName (v1.Spec pod) |}
             /\ (forall m, (n <= m < k)%nat ->
                           exists err, PodsGet w kubecli namespace name m = inr err)
       | inr (v', Some err) =>
           v' = v
           /\ PodsGet w kubecli namespace name (n + more)%nat = inr err
           /\ (forall m, (n <= m <= n + more)%nat ->
                         exists err', PodsGet w kubecli namespace name m = inr err')
       end.
Proof.
  induction more as [| more IH]; intros n v s; cbv zeta.
  - rewrite retryFrom_eq, podInfoOp_result.
    destruct (PodsGet w kubecli namespace name n) as [pod | err] eqn:G.
    + destruct (podImage w pod) as [img |] eqn:I; cbn.
      * split; [ eexists; split; reflexivity | ]. split; [ reflexivity | ].
        exists n, pod, img. repeat split; try lia; try assumption.
      * split; [ eexists; split; reflexivity | ]. split; reflexivity.
    + cbn. split; [ eexists; split; reflexivity | ]. split; [ reflexivity | ].
      rewrite Nat.add_0_r. repeat split; try assumption.
      intros m Hm. assert (m = n) as -> by lia. exists err. exact G.
  - rewrite retryFrom_eq, podInfoOp_result.
    destruct (PodsGet w kubecli namespace name n) as [pod | err] eqn:G.
    + destruct (podImage w pod) as [img |] eqn:I; cbn.
      * split; [ eexists; split; reflexivity | ]. split; [ reflexivity | ].
        exists n, pod, img. repeat split; try lia; try assumption.
      * split; [ eexists; split; reflexivity | ]. split; reflexivity.
    + cbn [fst snd].
      match goal with
      | |- context [retryFrom _ more (S n) v ?s1] =>
          specialize (IH (S n) v s1); cbv zeta in IH;
          destruct (retryFrom (podInfoOp w kubecli namespace name) more (S n) v s1)
            as [[x | [v' [err' |]]] s2]
      end; cbn [fst snd events kubeClientCalls] in *;
        destruct IH as ((evs & T & Pe) & K & R);
        (split; [ eexists; split;
                  [ rewrite T, <- app_assoc; reflexivity | cbn; exact Pe ] | ]);
        (split; [ exact K | ]).
      * exact R.
      * destruct R as (R1 & R2 & R3). split; [ exact R1 | ].
        replace (n + S more)%nat with (S n + more)%nat by lia.
        split; [ exact R2 | ].
        intros m Hm. destruct (Nat.eq_dec m n) as [-> | Hne];
          [ exists err; exact G | apply R3; lia ].
      * destruct R as (k & pod & img & Hk & R1 & R2 & R3 & R4).
        exists k, pod, img. repeat split; try lia; try assumption.
        intros m Hm. destruct (Nat.eq_dec m n) as [-> | Hne];
          [ exists err; exact G | apply R4; lia ].
Qed.

Lemma getMyPodInfo_events (kubecli : KubeClient) (namespace name : string) (s : MainState) :
  let r := getMyPodInfo w kubecli namespace name s in
  (exists evs, events (snd r) = events s ++ evs
               /\ forallb (fun ev => negb (isOperatorEvent ev)) evs = true)
  /\ kubeClientCalls (snd r) = kubeClientCalls s
  /\ (forall x, fst r = inl x -> x = Panic "index out of range").
Proof.
  cbv zeta. unfold getMyPodInfo, Retry. unfold bindP.
  pose proof (retryFrom_podInfoOp kubecli namespace name (retryAttempts w (Minute * 5))
                0%nat {| image := ""; sa := "" |} s) as R.
  cbv zeta in R.
  destruct (retryFrom _ _ _ _ s) as [[x | [v' [err |]]] s']; cbn [fst snd] in *;
    destruct R as (E & K & R); (split; [ exact E | ]); (split; [ exact K | ]);
    intros y Hy; try discriminate Hy.
  injection Hy as <-. exact R.
Qed.

(** *** Config and dependencies *)

Lemma newOperatorConfigAndDeps_result
    (flags : Flags) (id namespace name : string) (s : MainState) :
  let r := newOperatorConfigAndDeps w flags id namespace name s in
  (exists evs, events (snd r) = events s ++ evs
               /\ forallb (fun ev => negb (isOperatorEvent ev)) evs = true)
  /\ match fst r with
     | inl x => x = Panic "index out of range"
     | inr (cfg, deps, None) =>
         operator.ID cfg = id
         /\ operator.Namespace cfg = namespace
         /\ operator.PodName cfg = name
         /\ operator.EnableDeployment cfg = enableDeployment (operatorOptions flags)
         /\ operator.EnableDeploymentReplication cfg
            = enableDeploymentReplication (operatorOptions flags)
         /\ operator.EnableStorage cfg = enableStorage (operatorOptions flags)
         /\ operator.AllowChaos cfg = allowed (chaosOptions flags)
     | inr (cfg, deps, Some _) => cfg = zeroConfig /\ deps = zeroDependencies
     end.
Proof.
  cbv zeta. unfold newOperatorConfigAndDeps, createRecorder. run_startup.
  destruct (NewKubeClient w (kubeClientCalls s)) as [kubecli | err]; run_startup.
  - match goal with
    | |- context [getMyPodInfo w kubecli namespace name ?s1] =>
        destruct (getMyPodInfo_events kubecli namespace name s1) as ((evs & T & Pe) & _ & X);
        destruct (getMyPodInfo w kubecli namespace name s1)
          as [[x | [[img acct] [err |]]] s2]
    end; cbn [fst snd events] in *.
    + split; [ eexists; split; [ rewrite T, <- app_assoc; reflexivity | cbn; exact Pe ] | ].
      apply X. reflexivity.
    + split; [ eexists; split; [ rewrite T, <- app_assoc; reflexivity | cbn; exact Pe ] | ].
      split; reflexivity.
    + destruct (NewKubeExtClient w) as [kx | err]; run_startup.
      * destruct (NewInCluster w) as [cr | err]; run_startup;
          (split; [ eexists; split;
                    [ rewrite T, <- !app_assoc; reflexivity
                    | cbn; rewrite ?forallb_app, Pe; reflexivity ] | ]);
          repeat split.
      * split; [ eexists; split;
                 [ rewrite T, <- !app_assoc; reflexivity
                 | cbn; rewrite ?forallb_app, Pe; reflexivity ] | ].
        split; reflexivity.
  - split; [ eexists; split; reflexivity | ]. split; reflexivity.
Qed.

Lemma not_operator_event (evs : list MainEvent) (ev : MainEvent) :
  forallb (fun ev => negb (isOperatorEvent ev)) evs = true ->
  In ev evs -> isOperatorEvent ev = false.
Proof.
  intros H Hin. rewrite forallb_forall in H. specialize (H ev Hin).
  apply negb_true_iff in H. exact H.
Qed.

(** *** [cmdMainRun] *)

#[local] Arguments newOperatorConfigAndDeps : simpl never.

(** X13.  With no operator enabled the process exits fatally, asking
    to turn one on, as soon as the log service is there: nothing else
    has been created, whatever the environment holds. *)
Theorem no_operator_enabled_is_fatal (flags : Flags) :
  NewService w (logLevel flags) = None ->
  enableDeployment (operatorOptions flags) = false ->
  enableDeploymentReplication (operatorOptions flags) = false ->
  enableStorage (operatorOptions flags) = false ->
  runMain w flags
  = (inl (Fatal None
            "Turn on --operator.deployment, --operator.deployment-replication, --operator.storage or any combination of these"),
     {| events := [MvNewLogService (logLevel flags)]; kubeClientCalls := 0%nat |}).
Proof.
  intros HS H1 H2 H3. unfold runMain, cmdMainRun. run_startup.
  rewrite HS, H1, H2, H3. reflexivity.
Qed.

(** X14.  With an operator enabled but one of the three environment
    variables (pod namespace, pod name, pod IP) empty, the process
    exits fatally naming the first empty one, in that order, before
    any client, server or operator is created. *)
Theorem missing_environment_is_fatal (flags : Flags) :
  NewService w (logLevel flags) = None ->
  enableDeployment (operatorOptions flags)
  || enableDeploymentReplication (operatorOptions flags)
  || enableStorage (operatorOptions flags) = true ->
  let namespace := Getenv w (EnvOperatorPodNamespace w) in
  let name := Getenv w (EnvOperatorPodName w) in
  let ip := Getenv w (EnvOperatorPodIP w) in
  namespace = "" \/ name = "" \/ ip = "" ->
  runMain w flags
  = (inl (Fatal None
            ((if String.eqb namespace "" then EnvOperatorPodNamespace w
              else if String.eqb name "" then EnvOperatorPodName w
                   else EnvOperatorPodIP w)
             ++ " environment variable missing")%string),
     {| events := [MvNewLogService (logLevel flags);
                   MvLogInfo "Starting arangodb-operator, version dev build dev"];
        kubeClientCalls := 0%nat |}).
Proof.
  intros HS Hen. cbv zeta. intros Henv.
  unfold runMain, cmdMainRun. run_startup. rewrite HS.
  assert (Hmode : negb (enableDeployment (operatorOptions flags))
                  && negb (enableDeploymentReplication (operatorOptions flags))
                  && negb (enableStorage (operatorOptions flags)) = false).
  { destruct (enableDeployment _), (enableDeploymentReplication _), (enableStorage _);
      cbn in *; congruence. }
  rewrite Hmode. run_startup.
  destruct (Getenv w (EnvOperatorPodNamespace w)) as [| a ns]; [ reflexivity | ].
  cbn [String.length Nat.eqb String.eqb].
  destruct (Getenv w (EnvOperatorPodName w)) as [| b nm]; [ reflexivity | ].
  cbn [String.length Nat.eqb String.eqb].
  destruct (Getenv w (EnvOperatorPodIP w)) as [| c ip]; [ reflexivity | ].
  destruct Henv as [H | [H | H]]; discriminate H.
Qed.

(** X15.  The operator is created only after every start-up check:
    whenever [operator.NewOperator] is called, the log service exists,
    at least one operator is enabled, the three environment variables
    are non-empty and the host name is known; the [go] statement that
    spawns the HTTP server's goroutine has executed before the call,
    and no operator has been created or run before it.  The config it
    is called with carries the namespace and pod name of the
    environment, the id "<hostname>-<pod name>" and the flags as
    given. *)
Theorem operator_created_only_after_checks (flags : Flags) (cfg : operator.Config) :
  In (MvNewOperator cfg) (events (snd (runMain w flags))) ->
  NewService w (logLevel flags) = None
  /\ enableDeployment (operatorOptions flags)
     || enableDeploymentReplication (operatorOptions flags)
     || enableStorage (operatorOptions flags) = true
  /\ operator.EnableDeployment cfg = enableDeployment (operatorOptions flags)
  /\ operator.EnableDeploymentReplication cfg
     = enableDeploymentReplication (operatorOptions flags)
  /\ operator.EnableStorage cfg = enableStorage (operatorOptions flags)
  /\ operator.AllowChaos cfg = allowed (chaosOptions flags)
  /\ operator.Namespace cfg = Getenv w (EnvOperatorPodNamespace w)
  /\ operator.Namespace cfg <> ""
  /\ operator.PodName cfg = Getenv w (EnvOperatorPodName w)
  /\ operator.PodName cfg <> ""
  /\ Getenv w (EnvOperatorPodIP w) <> ""
  /\ (exists id, Hostname w = inl id
                 /\ operator.ID cfg = (id ++ "-" ++ operator.PodName cfg)%string)
  /\ (exists before after,
        events (snd (runMain w flags)) = before ++ MvNewOperator cfg :: after
        /\ In (MvGo ServerRun) before
        /\ forallb (fun ev => negb (isOperatorEvent ev)) before = true).
Proof.
  unfold runMain, cmdMainRun. run_startup.
  destruct (NewService w (logLevel flags)) as [err |] eqn:HS; run_startup;
    [ intros [H | []]; discriminate H | ].
  destruct (negb (enableDeployment (operatorOptions flags))
            && negb (enableDeploymentReplication (operatorOptions flags))
            && negb (enableStorage (operatorOptions flags))) eqn:Hmode; run_startup;
    [ intros [H | []]; discriminate H | ].
  destruct (String.length (Getenv w (EnvOperatorPodNamespace w)) =? 0)%nat eqn:Hns;
    run_startup; [ intros [H | [H | []]]; discriminate H | ].
  destruct (String.length (Getenv w (EnvOperatorPodName w)) =? 0)%nat eqn:Hnm;
    run_startup; [ intros [H | [H | []]]; discriminate H | ].
  destruct (String.length (Getenv w (EnvOperatorPodIP w)) =? 0)%nat eqn:Hip;
    run_startup; [ intros [H | [H | []]]; discriminate H | ].
  destruct (Hostname w) as [id | err] eqn:Hh; run_startup;
    [ | intros [H | [H | []]]; discriminate H ].
  destruct (NewKubeClient w 0) as [kubecli | err]; run_startup;
    [ | intros [H | [H | [H | []]]]; discriminate H ].
  destruct (NewServer w _) as [err |]; run_startup;
    [ intros [H | [H | [H | [H | []]]]]; discriminate H | ].
  assert (Hen : enableDeployment (operatorOptions flags)
                || enableDeploymentReplication (operatorOptions flags)
                || enableStorage (operatorOptions flags) = true).
  { destruct (enableDeployment _), (enableDeploymentReplication _), (enableStorage _);
      cbn in *; congruence. }
  assert (Ens : Getenv w (EnvOperatorPodNamespace w) <> "")
    by (intros E; apply length_zero_empty in E; congruence).
  assert (Enm : Getenv w (EnvOperatorPodName w) <> "")
    by (intros E; apply length_zero_empty in E; congruence).
  assert (Eip : Getenv w (EnvOperatorPodIP w) <> "")
    by (intros E; apply length_zero_empty in E; congruence).
  match goal with
  | |- context [newOperatorConfigAndDeps w flags ?i ?ns ?nm ?s1] =>
      destruct (newOperatorConfigAndDeps_result flags i ns nm s1) as ((evs & T & Pe) & R);
      destruct (newOperatorConfigAndDeps w flags i ns nm s1)
        as [[x | [[cfg' deps] [err |]]] s2]
  end; cbn [fst snd events] in *; run_startup.
  - rewrite T. intros Hin.
    destruct Hin as [H | [H | [H | [H | [H | Hin]]]]]; try discriminate H.
    apply (not_operator_event evs _ Pe) in Hin. discriminate Hin.
  - rewrite T. intros Hin.
    destruct Hin as [H | [H | [H | [H | [H | Hin]]]]]; try discriminate H.
    apply (not_operator_event evs _ Pe) in Hin. discriminate Hin.
  - destruct R as (R1 & R2 & R3 & R4 & R5 & R6 & R7).
    assert (K : In (MvNewOperator cfg) (events s2 ++ [MvNewOperator cfg']) -> cfg = cfg').
    { rewrite T. intros Hin. apply in_app_or in Hin.
      destruct Hin as [Hin | [H | []]]; [ | congruence ].
      destruct Hin as [H | [H | [H | [H | [H | Hin]]]]]; try discriminate H.
      apply (not_operator_event evs _ Pe) in Hin. discriminate Hin. }
    assert (Srv : In (MvGo ServerRun) (events s2)).
    { rewrite T. do 4 right. left. reflexivity. }
    assert (Quiet : forallb (fun ev => negb (isOperatorEvent ev)) (events s2) = true).
    { rewrite T. cbn. exact Pe. }
    destruct (NewOperator w cfg' deps) as [err |]; run_startup; intros Hin.
    + apply K in Hin. subst cfg'.
      rewrite R1, R2, R3, R4, R5, R6, R7.
      repeat (split; [ assumption || reflexivity | ]).
      split; [ exists id; split; reflexivity | ].
      exists (events s2), [].
      split; [ reflexivity | ]. split; [ exact Srv | exact Quiet ].
    + assert (Hin' : In (MvNewOperator cfg) (events s2 ++ [MvNewOperator cfg'])).
      { apply in_app_or in Hin. destruct Hin as [Hin | [H | []]];
          [ exact Hin | discriminate H ]. }
      apply K in Hin'. subst cfg'.
      rewrite R1, R2, R3, R4, R5, R6, R7.
      repeat (split; [ assumption || reflexivity | ]).
      split; [ exists id; split; reflexivity | ].
      exists (events s2), [MvOperatorRun].
      split; [ rewrite <- app_assoc; reflexivity | ].
      split; [ exact Srv | exact Quiet ].
Qed.

(** *** Panics *)

Lemma retryFrom_panic (kubecli : KubeClient) (namespace name : string) (more : nat) :
  forall (n : nat) (v : PodInfo) (s : MainState) (x : Exit),
    fst (retryFrom (podInfoOp w kubecli namespace name) more n v s) = inl x ->
    exists k pod,
      (n <= k <= n + more)%nat
      /\ PodsGet w kubecli namespace name k = inl pod
      /\ podImage w pod = None.
Proof.
  induction more as [| more IH]; intros n v s x; rewrite retryFrom_eq, podInfoOp_result;
    destruct (PodsGet w kubecli namespace name n) as [pod | err] eqn:G.
  - destruct (podImage w pod) as [img |] eqn:I; cbn; intros H; [ discriminate H | ].
    exists n, pod. repeat split; try lia; assumption.
  - cbn. intros H. discriminate H.
  - destruct (podImage w pod) as [img |] eqn:I; cbn; intros H; [ discriminate H | ].
    exists n, pod. repeat split; try lia; assumption.
  - cbn [fst snd]. intros H. apply IH in H.
    destruct H as (k & pod & Hk & P1 & P2). exists k, pod.
    repeat split; try lia; assumption.
Qed.

Lemma newOperatorConfigAndDeps_panic
    (flags : Flags) (id namespace name : string) (s : MainState) (x : Exit) :
  fst (newOperatorConfigAndDeps w flags id namespace name s) = inl x ->
  exists kubecli k pod,
    NewKubeClient w (kubeClientCalls s) = inl kubecli
    /\ (k <= retryAttempts w (Minute * 5)%Z)%nat
    /\ PodsGet w kubecli namespace name k = inl pod
    /\ podImage w pod = None.
Proof.
  unfold newOperatorConfigAndDeps, createRecorder, getMyPodInfo, Retry. run_startup.
  destruct (NewKubeClient w (kubeClientCalls s)) as [kubecli | err]; run_startup;
    [ | intros H; discriminate H ].
  match goal with
  | |- context [retryFrom ?op ?m 0%nat ?v ?s1] =>
      pose proof (retryFrom_panic kubecli namespace name m 0%nat v s1) as Q;
      destruct (retryFrom op m 0%nat v s1) as [[y | [v' [err |]]] s2]
  end; run_startup.
  - intros _. destruct (Q y eq_refl) as (k & pod & Hk & P1 & P2).
    exists kubecli, k, pod. repeat split; try lia; assumption.
  - intros H. discriminate H.
  - destruct (NewKubeExtClient w); run_startup; [ | intros H; discriminate H ].
    destruct (NewInCluster w); run_startup; intros H; discriminate H.
Qed.

(** X16.  Start-up panics in one situation only: a lookup of the
    operator's own pod, within the retry ceiling, found a pod from
    which no image can be read, because it has no container status
    yet, or an unknown image id and no container.  No other failure
    ends the run in a panic. *)
Theorem startup_panics_only_on_bare_pod (flags : Flags) (msg : string) :
  fst (runMain w flags) = inl (Panic msg) ->
  exists kubecli k pod,
    NewKubeClient w 1 = inl kubecli
    /\ (k <= retryAttempts w (Minute * 5)%Z)%nat
    /\ PodsGet w kubecli (Getenv w (EnvOperatorPodNamespace w))
         (Getenv w (EnvOperatorPodName w)) k = inl pod
    /\ podImage w pod = None.
Proof.
  unfold runMain, cmdMainRun. run_startup.
  destruct (NewService w (logLevel flags)); run_startup; [ intros H; discriminate H | ].
  destruct (negb _ && negb _ && negb _); run_startup; [ intros H; discriminate H | ].
  destruct (String.length (Getenv w (EnvOperatorPodNamespace w)) =? 0)%nat;
    run_startup; [ intros H; discriminate H | ].
  destruct (String.length (Getenv w (EnvOperatorPodName w)) =? 0)%nat;
    run_startup; [ intros H; discriminate H | ].
  destruct (String.length (Getenv w (EnvOperatorPodIP w)) =? 0)%nat;
    run_startup; [ intros H; discriminate H | ].
  destruct (Hostname w) as [id | err]; run_startup; [ | intros H; discriminate H ].
  destruct (NewKubeClient w 0) as [kubecli | err]; run_startup;
    [ | intros H; discriminate H ].
  destruct (NewServer w _) as [err |]; run_startup; [ intros H; discriminate H | ].
  match goal with
  | |- context [newOperatorConfigAndDeps w flags ?i ?ns ?nm ?s1] =>
      pose proof (newOperatorConfigAndDeps_panic flags i ns nm s1) as Q;
      destruct (newOperatorConfigAndDeps w flags i ns nm s1)
        as [[x | [[cfg' deps] [err |]]] s2]
  end; run_startup.
  - intros _. apply (Q x). reflexivity.
  - intros H. discriminate H.
  - destruct (NewOperator w cfg' deps); run_startup; intros H; discriminate H.
Qed.

(** X17.  [getMyPodInfo] answers from the first lookup that finds the
    pod: the service account is that pod's, the image is the one
    converted from the image id of its first container status, or the
    image of its first container when the conversion gives nothing;
    all earlier lookups failed.  When every lookup within the ceiling
    fails, it returns the error with an empty image and an empty
    service account. *)
Theorem getMyPodInfo_outcome (kubecli : KubeClient) (namespace name : string) (s : MainState) :
  match fst (getMyPodInfo w kubecli namespace name s) with
  | inl x => x = Panic "index out of range"
  | inr (img, acct, None) =>
      exists k pod,
        (k <= retryAttempts w (Minute * 5)%Z)%nat
        /\ PodsGet w kubecli namespace name k = inl pod
        /\ podImage w pod = Some img
        /\ acct = v1.ServiceAccountName (v1.Spec pod)
        /\ (forall m, (m < k)%nat ->
                      exists err, PodsGet w kubecli namespace name m = inr err)
  | inr (img, acct, Some err) =>
      img = "" /\ acct = ""
      /\ PodsGet w kubecli namespace name (retryAttempts w (Minute * 5)) = inr err
      /\ (forall m, (m <= retryAttempts w (Minute * 5)%Z)%nat ->
                    exists err', PodsGet w kubecli namespace name m = inr err')
  end.
Proof.
  unfold getMyPodInfo, Retry. unfold bindP.
  pose proof (retryFrom_podInfoOp kubecli namespace name (retryAttempts w (Minute * 5))
                0%nat {| image := ""; sa := "" |} s) as R.
  cbv zeta in R.
  destruct (retryFrom _ _ _ _ s) as [[x | [v' [err |]]] s']; cbn [fst snd] in *;
    destruct R as (_ & _ & R).
  - exact R.
  - destruct R as (_ & R2 & R3). cbn [Nat.add] in *.
    repeat split; try assumption.
    intros m Hm. apply R3. lia.
  - destruct R as (k & pod & img & Hk & R1 & R2 & R3 & R4). cbn [Nat.add] in *.
    exists k, pod. subst v'. cbn [image sa]. repeat split; try lia; try assumption.
    intros m Hm. apply R4. lia.
Qed.

End StartupProperties.


(** ** The further properties on concrete runs *)

Lemma active_and_matching_witness :
  let r := inspect healthy fresh (30 * Second) in
  Phase (status fresh) <> DeploymentReplicationPhaseFailed
  /\ DeletionTimestamp (apiObject fresh) = None
  /\ createSyncMasterClient healthy (Destination (Spec (apiObject fresh))) = inl dstClient
  /\ MasterStatus healthy dstClient = (runningFrom ["https://src:8629"], None)
  /\ IsActive healthy (SStatus (runningFrom ["https://src:8629"])) = true
  /\ createArangoSyncEndpoint healthy (Source (Spec (apiObject fresh)))
     = inl ["https://src:8629"]
  /\ IsEmpty healthy (Intersection healthy (SSource (runningFrom ["https://src:8629"]))
                        ["https://src:8629"]) = false
  /\ Conditions (status (dr (snd r))) = [configuredActive]
  /\ filter isSyncCall (trace (snd r)) = []
  /\ hasError (snd r) = false
  /\ fst r = 30 * Second.
Proof.
  cbv zeta.
  assert (H1 : Phase (status fresh) <> DeploymentReplicationPhaseFailed) by discriminate.
  assert (H2 : DeletionTimestamp (apiObject fresh) = None) by reflexivity.
  assert (H3 : createSyncMasterClient healthy (Destination (Spec (apiObject fresh)))
               = inl dstClient) by reflexivity.
  assert (H4 : MasterStatus healthy dstClient = (runningFrom ["https://src:8629"], None))
    by reflexivity.
  assert (H5 : IsActive healthy (SStatus (runningFrom ["https://src:8629"])) = true)
    by reflexivity.
  assert (H6 : createArangoSyncEndpoint healthy (Source (Spec (apiObject fresh)))
               = inl ["https://src:8629"]) by reflexivity.
  assert (H7 : IsEmpty healthy
                 (Intersection healthy (SSource (runningFrom ["https://src:8629"]))
                    ["https://src:8629"]) = false) by reflexivity.
  split; [ exact H1 | ]. split; [ exact H2 | ]. split; [ exact H3 | ].
  split; [ exact H4 | ]. split; [ exact H5 | ]. split; [ exact H6 | ].
  split; [ exact H7 | ].
  destruct (active_and_matching healthy fresh (30 * Second) dstClient
              (runningFrom ["https://src:8629"]) ["https://src:8629"]
              H1 H2 H3 H4 H5 H6 H7) as (A & B & _ & C & D).
  split; [ rewrite A; reflexivity | ]. split; [ exact B | ].
  split; [ exact C | exact D ].
Defined.

Lemma active_and_misdirected_witness :
  let r := inspect misdirected settled (30 * Second) in
  Phase (status settled) <> DeploymentReplicationPhaseFailed
  /\ DeletionTimestamp (apiObject settled) = None
  /\ createSyncMasterClient misdirected (Destination (Spec (apiObject settled)))
     = inl dstClient
  /\ MasterStatus misdirected dstClient = (runningFrom ["https://other:8629"], None)
  /\ IsActive misdirected (SStatus (runningFrom ["https://other:8629"])) = true
  /\ createArangoSyncEndpoint misdirected (Source (Spec (apiObject settled)))
     = inl ["https://src:8629"]
  /\ IsEmpty misdirected
       (Intersection misdirected (SSource (runningFrom ["https://other:8629"]))
          ["https://src:8629"]) = true
  /\ Conditions (status (dr (snd r))) = [configuredInvalid]
  /\ filter isSyncCall (trace (snd r)) = [EvCancelSynchronization dstClient EmptyCancelRequest]
  /\ hasError (snd r) = false
  /\ fst r = Second * 10.
Proof.
  cbv zeta.
  assert (H1 : Phase (status settled) <> DeploymentReplicationPhaseFailed) by discriminate.
  assert (H2 : DeletionTimestamp (apiObject settled) = None) by reflexivity.
  assert (H3 : createSyncMasterClient misdirected (Destination (Spec (apiObject settled)))
               = inl dstClient) by reflexivity.
  assert (H4 : MasterStatus misdirected dstClient
               = (runningFrom ["https://other:8629"], None)) by reflexivity.
  assert (H5 : IsActive misdirected (SStatus (runningFrom ["https://other:8629"])) = true)
    by reflexivity.
  assert (H6 : createArangoSyncEndpoint misdirected (Source (Spec (apiObject settled)))
               = inl ["https://src:8629"]) by reflexivity.
  assert (H7 : IsEmpty misdirected
                 (Intersection misdirected (SSource (runningFrom ["https://other:8629"]))
                    ["https://src:8629"]) = true) by reflexivity.
  split; [ exact H1 | ]. split; [ exact H2 | ]. split; [ exact H3 | ].
  split; [ exact H4 | ]. split; [ exact H5 | ]. split; [ exact H6 | ].
  split; [ exact H7 | ].
  destruct (active_and_misdirected misdirected settled (30 * Second) dstClient
              (runningFrom ["https://other:8629"]) ["https://src:8629"]
              H1 H2 H3 H4 H5 H6 H7) as (A & B & _ & C & D).
  split; [ rewrite A; reflexivity | ]. split; [ exact B | ].
  split; [ exact C | exact D ].
Defined.

Lemma incoming_check_failure_only_logged_witness :
  let r := inspect endpointUnknown settled (30 * Second) in
  Phase (status settled) <> DeploymentReplicationPhaseFailed
  /\ DeletionTimestamp (apiObject settled) = None
  /\ createSyncMasterClient endpointUnknown (Destination (Spec (apiObject settled)))
     = inl dstClient
  /\ MasterStatus endpointUnknown dstClient = (runningFrom ["https://src:8629"], None)
  /\ IsActive endpointUnknown (SStatus (runningFrom ["https://src:8629"])) = true
  /\ createArangoSyncEndpoint endpointUnknown (Source (Spec (apiObject settled)))
     = inr "no such deployment"
  /\ status (dr (snd r)) = status settled
  /\ hasError (snd r) = false
  /\ fst r = 30 * Second.
Proof.
  cbv zeta.
  assert (H1 : Phase (status settled) <> DeploymentReplicationPhaseFailed) by discriminate.
  assert (H2 : DeletionTimestamp (apiObject settled) = None) by reflexivity.
  assert (H3 : createSyncMasterClient endpointUnknown
                 (Destination (Spec (apiObject settled))) = inl dstClient) by reflexivity.
  assert (H4 : MasterStatus endpointUnknown dstClient
               = (runningFrom ["https://src:8629"], None)) by reflexivity.
  assert (H5 : IsActive endpointUnknown (SStatus (runningFrom ["https://src:8629"])) = true)
    by reflexivity.
  assert (H6 : createArangoSyncEndpoint endpointUnknown (Source (Spec (apiObject settled)))
               = inr "no such deployment") by reflexivity.
  split; [ exact H1 | ]. split; [ exact H2 | ]. split; [ exact H3 | ].
  split; [ exact H4 | ]. split; [ exact H5 | ]. split; [ exact H6 | ].
  destruct (incoming_check_failure_only_logged endpointUnknown settled (30 * Second)
              dstClient (runningFrom ["https://src:8629"]) "no such deployment"
              H1 H2 H3 H4 H5 H6) as (A & _ & _ & B & _ & C & _).
  split; [ exact A | ]. split; [ exact B | exact C ].
Defined.

Lemma inactive_configure_outcome_witness :
  let r := inspect inactiveSyncFails erring (30 * Second) in
  Phase (status erring) <> DeploymentReplicationPhaseFailed
  /\ DeletionTimestamp (apiObject erring) = None
  /\ createSyncMasterClient inactiveSyncFails (Destination (Spec (apiObject erring)))
     = inl dstClient
  /\ MasterStatus inactiveSyncFails dstClient = (inactiveInfo, None)
  /\ IsActive inactiveSyncFails (SStatus inactiveInfo) = false
  /\ filter isSyncCall (trace (snd r))
     = [EvSynchronize dstClient {| ReqSource := ["https://src:8629"];
                                  ReqAuthentication := TLSAuth "client-cert" |}]
  /\ hasError (snd r) = true
  /\ fst r = 30 * Second
  /\ recentInspectionErrors (dr (snd r)) = 1.
Proof.
  cbv zeta.
  assert (H1 : Phase (status erring) <> DeploymentReplicationPhaseFailed) by discriminate.
  assert (H2 : DeletionTimestamp (apiObject erring) = None) by reflexivity.
  assert (H3 : createSyncMasterClient inactiveSyncFails
                 (Destination (Spec (apiObject erring))) = inl dstClient) by reflexivity.
  assert (H4 : MasterStatus inactiveSyncFails dstClient = (inactiveInfo, None))
    by reflexivity.
  assert (H5 : IsActive inactiveSyncFails (SStatus inactiveInfo) = false) by reflexivity.
  split; [ exact H1 | ]. split; [ exact H2 | ]. split; [ exact H3 | ].
  split; [ exact H4 | ]. split; [ exact H5 | ].
  destruct (inactive_configure_outcome inactiveSyncFails erring (30 * Second) dstClient
              inactiveInfo H1 H2 H3 H4 H5) as (A & B & C & D).
  split; [ exact A | ]. split; [ exact B | ]. split; [ exact C | exact D ].
Defined.

Lemma streak_is_a_flag_witness :
  let f := snd (inspect inactiveSyncFails erring (30 * Second)) in
  (recentInspectionErrors erring = 0 \/ recentInspectionErrors erring = 1)
  /\ Phase (status erring) <> DeploymentReplicationPhaseFailed
  /\ hasError f = true
  /\ recentInspectionErrors (dr f) = 1.
Proof.
  cbv zeta.
  assert (H1 : recentInspectionErrors erring = 0 \/ recentInspectionErrors erring = 1)
    by (right; reflexivity).
  assert (H2 : Phase (status erring) <> DeploymentReplicationPhaseFailed) by discriminate.
  split; [ exact H1 | ]. split; [ exact H2 | ]. split; [ reflexivity | ].
  destruct (streak_is_a_flag inactiveSyncFails erring (30 * Second) H1) as (_ & A).
  exact (A H2).
Defined.

Lemma terminating_outcome_witness :
  let r := inspect cleanupFails terminating (30 * Second) in
  Phase (status terminating) <> DeploymentReplicationPhaseFailed
  /\ DeletionTimestamp (apiObject terminating) = Some 1530000000
  /\ hasError (snd r) = true
  /\ trace (snd r)
     = [EvFinalizerCleanup [EvCancelSynchronization dstClient EmptyCancelRequest];
        EvLog LevelWarn (Some "unavailable") "Failed to run finalizers"]
  /\ fst r = Second.
Proof.
  cbv zeta.
  assert (H1 : Phase (status terminating) <> DeploymentReplicationPhaseFailed)
    by discriminate.
  assert (H2 : DeletionTimestamp (apiObject terminating) = Some 1530000000) by reflexivity.
  split; [ exact H1 | ]. split; [ exact H2 | ].
  destruct (terminating_outcome cleanupFails terminating (30 * Second) 1530000000 H1 H2)
    as (A & _ & _ & B & _ & _ & C & _).
  split; [ rewrite A; reflexivity | ].
  split; [ rewrite B; reflexivity | ].
  rewrite C. reflexivity.
Defined.

Lemma no_call_keeps_interval_witness :
  let r := inspect destUnreachable settled (30 * Second) in
  Phase (status settled) <> DeploymentReplicationPhaseFailed
  /\ filter isSyncCall (trace (snd r)) = []
  /\ fst r = 30 * Second.
Proof.
  cbv zeta.
  assert (H1 : Phase (status settled) <> DeploymentReplicationPhaseFailed) by discriminate.
  assert (H2 : filter isSyncCall
                 (trace (snd (inspect destUnreachable settled (30 * Second)))) = [])
    by reflexivity.
  split; [ exact H1 | ]. split; [ exact H2 | ].
  exact (no_call_keeps_interval destUnreachable settled (30 * Second) H1 H2).
Defined.

Lemma no_operator_enabled_is_fatal_witness :
  NewService cluster (logLevel defaultFlags) = None
  /\ enableDeployment (operatorOptions defaultFlags) = false
  /\ enableDeploymentReplication (operatorOptions defaultFlags) = false
  /\ enableStorage (operatorOptions defaultFlags) = false
  /\ runMain cluster defaultFlags
     = (inl (Fatal None
               "Turn on --operator.deployment, --operator.deployment-replication, --operator.storage or any combination of these"),
        {| events := [MvNewLogService "debug"]; kubeClientCalls := 0%nat |}).
Proof.
  assert (H1 : NewService cluster (logLevel defaultFlags) = None) by reflexivity.
  assert (H2 : enableDeployment (operatorOptions defaultFlags) = false) by reflexivity.
  assert (H3 : enableDeploymentReplication (operatorOptions defaultFlags) = false)
    by reflexivity.
  assert (H4 : enableStorage (operatorOptions defaultFlags) = false) by reflexivity.
  split; [ exact H1 | ]. split; [ exact H2 | ]. split; [ exact H3 | ].
  split; [ exact H4 | ].
  exact (no_operator_enabled_is_fatal cluster defaultFlags H1 H2 H3 H4).
Defined.

Lemma missing_environment_is_fatal_witness :
  NewService clusterWithoutEnvironment (logLevel replicationFlags) = None
  /\ enableDeployment (operatorOptions replicationFlags)
     || enableDeploymentReplication (operatorOptions replicationFlags)
     || enableStorage (operatorOptions replicationFlags) = true
  /\ Getenv clusterWithoutEnvironment (EnvOperatorPodNamespace clusterWithoutEnvironment) = ""
  /\ fst (runMain clusterWithoutEnvironment replicationFlags)
     = inl (Fatal None "MY_POD_NAMESPACE environment variable missing").
Proof.
  assert (H1 : NewService clusterWithoutEnvironment (logLevel replicationFlags) = None)
    by reflexivity.
  assert (H2 : enableDeployment (operatorOptions replicationFlags)
               || enableDeploymentReplication (operatorOptions replicationFlags)
               || enableStorage (operatorOptions replicationFlags) = true) by reflexivity.
  assert (H3 : Getenv clusterWithoutEnvironment
                 (EnvOperatorPodNamespace clusterWithoutEnvironment) = "") by reflexivity.
  split; [ exact H1 | ]. split; [ exact H2 | ]. split; [ exact H3 | ].
  rewrite (missing_environment_is_fatal clusterWithoutEnvironment replicationFlags
             H1 H2 (or_introl H3)).
  reflexivity.
Defined.

Lemma operator_created_only_after_checks_witness :
  In (MvNewOperator replicationConfig) (events (snd (runMain cluster replicationFlags)))
  /\ operator.Namespace replicationConfig = "default"
  /\ (exists id, Hostname cluster = inl id
                 /\ operator.ID replicationConfig
                    = (id ++ "-" ++ operator.PodName replicationConfig)%string)
  /\ (exists before after,
        events (snd (runMain cluster replicationFlags))
        = before ++ MvNewOperator replicationConfig :: after
        /\ In (MvGo ServerRun) before
        /\ forallb (fun ev => negb (isOperatorEvent ev)) before = true).
Proof.
  assert (H : In (MvNewOperator replicationConfig)
                (events (snd (runMain cluster replicationFlags)))).
  { vm_compute. do 12 right. left. reflexivity. }
  split; [ exact H | ].
  destruct (operator_created_only_after_checks cluster replicationFlags replicationConfig H)
    as (_ & _ & _ & _ & _ & _ & A & _ & _ & _ & _ & B & C).
  split; [ exact A | ]. split; [ exact B | exact C ].
Defined.

Lemma startup_panics_only_on_bare_pod_witness :
  fst (runMain clusterWithBarePod replicationFlags) = inl (Panic "index out of range")
  /\ exists kubecli k pod,
       NewKubeClient clusterWithBarePod 1 = inl kubecli
       /\ (k <= retryAttempts clusterWithBarePod (Minute * 5)%Z)%nat
       /\ PodsGet clusterWithBarePod kubecli
            (Getenv clusterWithBarePod (EnvOperatorPodNamespace clusterWithBarePod))
            (Getenv clusterWithBarePod (EnvOperatorPodName clusterWithBarePod)) k = inl pod
       /\ podImage clusterWithBarePod pod = None.
Proof.
  assert (H : fst (runMain clusterWithBarePod replicationFlags)
              = inl (Panic "index out of range")) by (vm_compute; reflexivity).
  split; [ exact H | ].
  exact (startup_panics_only_on_bare_pod clusterWithBarePod replicationFlags
           "index out of range" H).
Defined.
